(** * Health scoring engine of the crop-health monitor

    A shallow embedding of [model/utils/disease_classifier.py],
    [model/utils/crop_database.py], [model/utils/health_scorer.py],
    [model/utils/rag_agent.py] and of the [OPTIMAL_RANGES] table of
    [model/config.py], followed by the properties of the scoring pipeline, of
    the crop tables and of the advice agent.

    Modelling conventions.
    - A Python [float] (and an [int] mixed into float arithmetic) is a
      rational number [Q]: arithmetic is exact, and equality of computed
      results is [Qeq] ([==]).  Rounding of binary64 is not modelled, except
      in [Binary64], which recomputes the concrete numbers on [float]: a
      computed number can differ from the rational one in the last place,
      and a tier that is read off a computed number (status, risk level)
      can differ with it when the number lies on a threshold.
    - A Python [str] is a [string]; [str.lower], [str.split], [str.strip]
      and the white-space class of [re] are modelled on ASCII text: letters
      and white space beyond ASCII, which the built-ins also lower and
      strip, are left as they are.
    - The text service called by the advice agent is a function from the
      prompt to the answer, the empty string standing for every failure.
    - A [dict] keyed by strings is a [gmap string _] when only lookups are
      made, and an association list in insertion order when the code iterates
      over it.
    - [None] is [None]; a dataclass instance is always truthy, so
      [if not x] on an [Optional] tests for [None]. *)

From Stdlib Require Import Ascii QArith Qminmax Qabs Lqa Lia PrimFloat.
From stdpp Require Import base list strings gmap.

#[local] Set Warnings "-inexact-float".

Local Open Scope string_scope.
Local Open Scope Z_scope.
Local Open Scope list_scope.

(** ** Python built-ins used by the sources *)

Module Py.

(** [str.lower] on ASCII letters; [str.lower] also lowers the letters beyond
    ASCII (U+212A to [k], for one), which stay as they are here. *)
Definition lower_ascii (c : ascii) : ascii :=
  let n := nat_of_ascii c in
  if (65 <=? n)%nat && (n <=? 90)%nat then ascii_of_nat (n + 32) else c.

Fixpoint lower (s : string) : string :=
  match s with
  | EmptyString => EmptyString
  | String c r => String (lower_ascii c) (lower r)
  end.

(** [prefix p s]: [s.startswith(p)]. *)
Fixpoint prefix (p s : string) : bool :=
  match p, s with
  | EmptyString, _ => true
  | String a p', String b s' => if Ascii.eqb a b then prefix p' s' else false
  | String _ _, EmptyString => false
  end.

(** [contains sub s]: the expression [sub in s] on strings. *)
Fixpoint contains (sub s : string) : bool :=
  prefix sub s ||
  match s with
  | EmptyString => false
  | String _ r => contains sub r
  end.

(** ASCII white space as [str.split()], [str.strip()] and the class [\s] of
    [re] see it; they also take the white space beyond ASCII (U+0085,
    U+00A0 and others), which is no white space here. *)
Definition is_space (c : ascii) : bool :=
  let n := nat_of_ascii c in
  ((9 <=? n)%nat && (n <=? 13)%nat) || ((28 <=? n)%nat && (n <=? 32)%nat).

(** [split_go cur s]: the words of [s], where [cur] is the part already read
    of the word in progress. *)
Definition flush (cur : string) (acc : list string) : list string :=
  match cur with
  | EmptyString => acc
  | _ => cur :: acc
  end.

Fixpoint split_go (cur : string) (s : string) : list string :=
  match s with
  | EmptyString => flush cur []
  | String c r =>
      if is_space c then flush cur (split_go EmptyString r)
      else split_go (String.append cur (String c EmptyString)) r
  end.

(** [s.split()] with no separator: maximal runs of non-space characters. *)
Definition split (s : string) : list string := split_go EmptyString s.

(** [max(a, b)] and [min(a, b)] on numbers: the first argument wins ties. *)
Definition max (a b : Q) : Q := if Qlt_le_dec a b then b else a.
Definition min (a b : Q) : Q := if Qlt_le_dec b a then b else a.

(** [sum(l)]. *)
Definition sum (l : list Q) : Q := fold_left Qplus l 0%Q.

(** [numpy.mean(l)] of a non-empty list of numbers. *)
Definition mean (l : list Q) : Q := (sum l / inject_Z (Z.of_nat (length l)))%Q.

(** [s.replace(old, new)] for single characters. *)
Fixpoint replace_char (old new : ascii) (s : string) : string :=
  match s with
  | EmptyString => EmptyString
  | String c r =>
      String (if Ascii.eqb c old then new else c) (replace_char old new r)
  end.

(** [s.lstrip()], [s.rstrip()] and [s.strip()]. *)
Fixpoint lstrip (s : string) : string :=
  match s with
  | EmptyString => EmptyString
  | String c r => if is_space c then lstrip r else s
  end.

Fixpoint rstrip (s : string) : string :=
  match s with
  | EmptyString => EmptyString
  | String c r =>
      match rstrip r with
      | EmptyString => if is_space c then EmptyString else String c EmptyString
      | r' => String c r'
      end
  end.

Definition strip (s : string) : string := rstrip (lstrip s).

(** [re.sub(r'\s+', repl, s)]: every maximal run of white space becomes one
    [repl]; [in_run] tells that the character before was white space. *)
Fixpoint sub_spaces_go (repl : string) (in_run : bool) (s : string) : string :=
  match s with
  | EmptyString => EmptyString
  | String c r =>
      if is_space c
      then if in_run then sub_spaces_go repl true r
           else String.append repl (sub_spaces_go repl true r)
      else String c (sub_spaces_go repl false r)
  end.

Definition sub_spaces (repl s : string) : string := sub_spaces_go repl false s.

Definition newline : string := String (ascii_of_nat 10) EmptyString.

(** [s.split(sep)] for a separator of one character: the pieces between
    the separators, empty ones included; [cur] is the piece in progress. *)
Fixpoint split_on_go (sep : ascii) (cur : string) (s : string) : list string :=
  match s with
  | EmptyString => [cur]
  | String c r =>
      if Ascii.eqb c sep then cur :: split_on_go sep EmptyString r
      else split_on_go sep (String.append cur (String c EmptyString)) r
  end.

Definition split_on (sep : ascii) (s : string) : list string :=
  split_on_go sep EmptyString s.

(** [sep.join(l)]. *)
Fixpoint join (sep : string) (l : list string) : string :=
  match l with
  | [] => EmptyString
  | [x] => x
  | x :: r => String.append x (String.append sep (join sep r))
  end.

End Py.

(** ** [disease_classifier.py] *)

Module DiseaseClassifier.

Inductive SeverityLevel := LOW | MEDIUM | HIGH | CRITICAL.

Definition SeverityLevel_value (s : SeverityLevel) : string :=
  match s with
  | LOW => "low" | MEDIUM => "medium" | HIGH => "high" | CRITICAL => "critical"
  end.

Inductive DiseaseType :=
  FUNGAL | BACTERIAL | VIRAL | PEST | NUTRITIONAL | ENVIRONMENTAL.

Definition DiseaseType_value (t : DiseaseType) : string :=
  match t with
  | FUNGAL => "fungal" | BACTERIAL => "bacterial" | VIRAL => "viral"
  | PEST => "pest" | NUTRITIONAL => "nutritional"
  | ENVIRONMENTAL => "environmental"
  end.

Record DiseaseInfo := mkDiseaseInfo {
  name : string;
  type : DiseaseType;
  severity : SeverityLevel;
  impact_score : Q;
  spreading_rate : string;
  treatment_priority : Z
}.

(** One value of the dict literal [consolidated_disease_info]. *)
Record ConsolidatedInfo := mkConsolidated {
  c_type : DiseaseType;
  c_severity : SeverityLevel;
  c_impact_score : Q;
  c_priority : Z;
  c_spreading_rate : string
}.

Definition _get_default_classes : list string :=
  [ "healthy"; "blight"; "leaf_spot"; "rust"; "mildew"; "virus_disease";
    "anthracnose"; "rot_disease"; "scab"; "pest_damage"; "bacterial_disease" ].

Definition consolidated_items : list (string * ConsolidatedInfo) :=
  [ ("healthy",           mkConsolidated ENVIRONMENTAL LOW  0%Q  1 "none");
    ("blight",            mkConsolidated FUNGAL    HIGH   85%Q 5 "fast");
    ("leaf_spot",         mkConsolidated FUNGAL    MEDIUM 60%Q 3 "medium");
    ("rust",              mkConsolidated FUNGAL    MEDIUM 65%Q 3 "medium");
    ("mildew",            mkConsolidated FUNGAL    MEDIUM 55%Q 3 "medium");
    ("virus_disease",     mkConsolidated VIRAL     HIGH   80%Q 4 "fast");
    ("anthracnose",       mkConsolidated FUNGAL    MEDIUM 65%Q 3 "medium");
    ("rot_disease",       mkConsolidated FUNGAL    HIGH   75%Q 4 "medium");
    ("scab",              mkConsolidated FUNGAL    MEDIUM 50%Q 2 "slow");
    ("pest_damage",       mkConsolidated PEST      MEDIUM 55%Q 3 "medium");
    ("bacterial_disease", mkConsolidated BACTERIAL HIGH   70%Q 4 "fast") ].

Definition consolidated_disease_info : gmap string ConsolidatedInfo :=
  list_to_map consolidated_items.

(** [any(keyword in disease_lower for keyword in keywords)]. *)
Definition any_keyword_in (keywords : list string) (s : string) : bool :=
  existsb (fun keyword => Py.contains keyword s) keywords.

Definition _classify_unknown_disease (disease_name : string) : DiseaseInfo :=
  let disease_lower := Py.lower disease_name in
  if any_keyword_in ["critical"; "severe"; "wilt"; "death"; "dead"] disease_lower
  then mkDiseaseInfo disease_name FUNGAL CRITICAL 90%Q "fast" 5
  else mkDiseaseInfo disease_name FUNGAL MEDIUM 50%Q "medium" 2.

(** The body of the loop of [_build_disease_database] for one class name. *)
Definition build_entry (disease_name : string) : DiseaseInfo :=
  match consolidated_disease_info !! disease_name with
  | Some info =>
      mkDiseaseInfo disease_name (c_type info) (c_severity info)
        (c_impact_score info) (c_spreading_rate info) (c_priority info)
  | None => _classify_unknown_disease disease_name
  end.

(** [_build_disease_database]: [disease_db[disease_name] = disease_info] for
    each name of [self.disease_classes], in order. *)
Definition _build_disease_database (disease_classes : list string)
  : gmap string DiseaseInfo :=
  fold_left (fun disease_db disease_name =>
               <[disease_name := build_entry disease_name]> disease_db)
            disease_classes ∅.

(** The object state set up by [__init__].  [loaded] is what
    [_load_disease_classes] returned: the [names] list of [data.yaml], or
    [_get_default_classes] when the file is missing or unreadable. *)
Record t := mkClassifier {
  disease_classes : list string;
  disease_db : gmap string DiseaseInfo
}.

Definition init (loaded : list string) : t :=
  mkClassifier loaded (_build_disease_database loaded).

Definition default : t := init _get_default_classes.

Definition get_disease_info (self : t) (disease_name : string)
  : option DiseaseInfo :=
  disease_db self !! disease_name.

(** The dict returned by [classify_detection].  The key [spreading_rate] is
    present only on the branch of a known disease, and the key [area] only
    after [_analyze_detections] has stored it. *)
Record Classification := mkClassification {
  cl_class_name : string;
  cl_type : string;
  cl_severity : string;
  cl_impact_score : Q;
  cl_confidence : Q;
  cl_treatment_priority : Z;
  cl_spreading_rate : option string;
  cl_weighted_impact : Q;
  cl_area : option Q
}.

Definition classify_detection (self : t) (class_name : string) (confidence : Q)
  : Classification :=
  match get_disease_info self class_name with
  | None =>
      mkClassification class_name "unknown" "unknown" 50%Q confidence 2 None
        (50 * confidence)%Q None
  | Some disease_info =>
      let adjusted_impact := (impact_score disease_info * confidence)%Q in
      mkClassification class_name
        (DiseaseType_value (type disease_info))
        (SeverityLevel_value (severity disease_info))
        (impact_score disease_info) confidence
        (treatment_priority disease_info)
        (Some (spreading_rate disease_info))
        adjusted_impact None
  end.

Definition type_block (ty : DiseaseType) : list string :=
  match ty with
  | FUNGAL =>
      [ "Apply appropriate fungicide treatment";
        "Improve air circulation around plants";
        "Avoid overhead watering" ]
  | BACTERIAL =>
      [ "Remove and destroy infected plant material";
        "Apply copper-based bactericide if available";
        "Avoid working with wet plants" ]
  | VIRAL =>
      [ "Remove infected plants to prevent spread";
        "Control insect vectors";
        "Use virus-free planting material" ]
  | PEST =>
      [ "Apply appropriate insecticide or miticide";
        "Use biological control methods if available";
        "Monitor pest population regularly" ]
  | NUTRITIONAL | ENVIRONMENTAL => []
  end.

Definition get_treatment_recommendations (self : t) (disease_name : string)
  : list string :=
  match get_disease_info self disease_name with
  | None => ["Consult agricultural expert for proper diagnosis"]
  | Some disease_info =>
      let recommendations := type_block (type disease_info) in
      match severity disease_info with
      | HIGH | CRITICAL => "URGENT: Take immediate action" :: recommendations
      | _ => recommendations
      end
  end.

End DiseaseClassifier.

(** ** [crop_database.py]

    The disease table and its lookup come first, then the crop table with
    [get_crop_info] and [get_crop_specific_ranges], and
    [get_disease_recommendations]. *)

Module CropDatabase.

Inductive DiseaseType := FUNGAL | BACTERIAL | VIRAL | PEST | PHYSIOLOGICAL | UNKNOWN.

Inductive SeverityLevel := LOW | MEDIUM | HIGH | CRITICAL.

Record DiseaseInfo := mkDiseaseInfo {
  name : string;
  type : DiseaseType;
  severity : SeverityLevel;
  impact_score : Q;
  affected_crops : list string;
  symptoms : list string;
  treatment_priority : Z;
  spreading_rate : string;
  environmental_factors : list string
}.

Definition _get_severity_from_impact (impact_score : Q) : SeverityLevel :=
  if Qle_bool 90 impact_score then CRITICAL
  else if Qle_bool 75 impact_score then HIGH
  else if Qle_bool 50 impact_score then MEDIUM
  else LOW.

(** [d[k] = v] on a dict kept in insertion order: an existing key keeps its
    place, a new key goes last. *)
Fixpoint dict_set {V} (k : string) (v : V) (d : list (string * V))
  : list (string * V) :=
  match d with
  | [] => [(k, v)]
  | (k', v') :: r =>
      if String.eqb k' k then (k, v) :: r else (k', v') :: dict_set k v r
  end.

(** [d.get(k)]. *)
Fixpoint dict_get {V} (k : string) (d : list (string * V)) : option V :=
  match d with
  | [] => None
  | (k', v') :: r => if String.eqb k' k then Some v' else dict_get k r
  end.

(** A row [(disease, crops, impact, priority, spread)] of the four literal
    lists of [_initialize_disease_database]. *)
Definition Row : Type := string * list string * Q * Z * string.

Definition fungal_diseases : list Row :=
  [ ("anthracnose", ["tomato"; "bean"; "pepper"; "fruit trees"], 85%Q, 4, "fast");
    ("blight", ["potato"; "tomato"; "rice"; "wheat"], 90%Q, 5, "fast");
    ("rust", ["wheat"; "corn"; "coffee"; "beans"], 75%Q, 3, "medium");
    ("powdery mildew", ["grape"; "cucumber"; "pepper"], 60%Q, 2, "medium");
    ("downy mildew", ["grape"; "lettuce"; "cabbage"], 70%Q, 3, "fast");
    ("black rot", ["apple"; "grape"; "cabbage"], 80%Q, 4, "medium");
    ("gray mold", ["strawberry"; "grape"; "raspberry"], 65%Q, 3, "fast");
    ("leaf spot", ["corn"; "tomato"; "rice"], 55%Q, 2, "slow");
    ("scab", ["apple"; "peach"; "potato"], 70%Q, 3, "medium");
    ("smut", ["corn"; "wheat"; "sorghum"], 85%Q, 4, "medium") ].

Definition bacterial_diseases : list Row :=
  [ ("bacterial spot", ["tomato"; "pepper"; "eggplant"], 80%Q, 4, "fast");
    ("bacterial blight", ["rice"; "cassava"; "bean"], 85%Q, 5, "fast");
    ("bacterial wilt", ["cucumber"; "tomato"; "potato"], 95%Q, 5, "fast");
    ("canker", ["citrus"; "stone fruits"], 90%Q, 5, "medium");
    ("soft rot", ["potato"; "carrot"; "cauliflower"], 75%Q, 4, "fast") ].

Definition viral_diseases : list Row :=
  [ ("mosaic virus", ["tomato"; "tobacco"; "cucumber"], 70%Q, 3, "medium");
    ("curl virus", ["tomato"; "cotton"; "okra"], 75%Q, 4, "medium");
    ("yellow virus", ["sugar beet"; "potato"], 80%Q, 4, "fast");
    ("streak disease", ["cassava"; "banana"], 85%Q, 4, "fast") ].

Definition pests : list Row :=
  [ ("spider mite", ["various crops"], 60%Q, 2, "fast");
    ("aphid", ["various crops"], 50%Q, 2, "fast");
    ("leaf miner", ["leafy vegetables"], 40%Q, 1, "medium");
    ("whitefly", ["tomato"; "pepper"; "eggplant"], 55%Q, 2, "fast") ].

(** One of the four loops: every row becomes a [DiseaseInfo] of type [ty];
    [first_symptom] is the suffix of the f-string, [other_symptoms] and
    [factors] are the literals of that loop. *)
Definition add_rows (ty : DiseaseType) (first_symptom : string)
    (other_symptoms factors : list string) (rows : list Row)
    (diseases : list (string * DiseaseInfo)) : list (string * DiseaseInfo) :=
  fold_left
    (fun diseases '(disease, crops, impact, priority, spread) =>
       dict_set disease
         (mkDiseaseInfo disease ty (_get_severity_from_impact impact) impact
            crops (String.append disease first_symptom :: other_symptoms)
            priority spread factors)
         diseases)
    rows diseases.

Definition _initialize_disease_database : list (string * DiseaseInfo) :=
  let diseases := [] in
  let diseases :=
    add_rows FUNGAL " symptoms" ["leaf discoloration"; "reduced yield"]
      ["high humidity"; "moderate temperature"] fungal_diseases diseases in
  let diseases :=
    add_rows BACTERIAL " symptoms" ["water-soaked lesions"; "wilting"]
      ["high humidity"; "warm temperature"; "poor sanitation"]
      bacterial_diseases diseases in
  let diseases :=
    add_rows VIRAL " symptoms" ["stunted growth"; "yield reduction"]
      ["vector presence"; "warm weather"] viral_diseases diseases in
  let diseases :=
    add_rows PEST " damage" ["feeding damage"; "reduced vigor"]
      ["warm weather"; "dry conditions"] pests diseases in
  diseases.

Definition _load_class_mappings : gmap string string :=
  list_to_map
    [ ("tomato bacterial leaf spot", "bacterial spot");
      ("tomato early blight", "early blight");
      ("tomato late blight", "late blight");
      ("potato early blight", "early blight");
      ("potato late blight", "late blight");
      ("corn rust", "rust");
      ("wheat leaf rust", "rust") ].

(** The fields of the object that the lookup reads. *)
Record t := mkCropDatabase {
  diseases : list (string * DiseaseInfo);
  class_mappings : gmap string string
}.

Definition init : t :=
  mkCropDatabase _initialize_disease_database _load_class_mappings.

(** The test of the fuzzy loop for one table key. *)
Definition fuzzy_match (class_lower disease_name : string) : bool :=
  Py.contains disease_name class_lower
  || existsb (fun word => Py.contains word class_lower) (Py.split disease_name).

(** The fuzzy loop: the first entry, in table order, that matches. *)
Definition fuzzy_lookup (self : t) (class_name : string) : option DiseaseInfo :=
  let class_lower := Py.lower class_name in
  match find (fun '(disease_name, _) => fuzzy_match class_lower disease_name)
             (diseases self) with
  | Some (_, disease_info) => Some disease_info
  | None => None
  end.

(** The alias step: [Some] when the mapping holds a non-empty name that is a
    table key. *)
Definition mapped_lookup (self : t) (class_name : string) : option DiseaseInfo :=
  match class_mappings self !! class_name with
  | Some (String _ _ as mapped_name) => dict_get mapped_name (diseases self)
  | _ => None
  end.

Definition get_disease_info (self : t) (class_name : string)
  : option DiseaseInfo :=
  match dict_get class_name (diseases self) with
  | Some disease_info => Some disease_info
  | None =>
      match mapped_lookup self class_name with
      | Some disease_info => Some disease_info
      | None => fuzzy_lookup self class_name
      end
  end.

(** The crop table.  [self.crops] is passed as [crops], a dict in insertion
    order; [resistance_level] is a dict that no method reads. *)
Record CropInfo := mkCropInfo {
  crop_name : string;
  scientific_name : string;
  common_diseases : list string;
  growth_stage_sensitive : list string;
  optimal_temp_range : Q * Q;
  optimal_humidity_range : Q * Q;
  optimal_ph_range : Q * Q;
  optimal_moisture_range : Q * Q;
  resistance_level : list (string * Q)
}.

Definition _initialize_crop_database : list (string * CropInfo) :=
  [ ("tomato",
     mkCropInfo "tomato" "Solanum lycopersicum"
       ["blight"; "bacterial spot"; "mosaic virus"; "leaf mold"]
       ["flowering"; "fruit development"]
       (18, 25)%Q (50, 70)%Q (6.0, 6.8)%Q (60, 80)%Q
       [("blight", 0.3%Q); ("bacterial spot", 0.4%Q)]);
    ("potato",
     mkCropInfo "potato" "Solanum tuberosum"
       ["late blight"; "early blight"; "bacterial wilt"; "scab"]
       ["tuber formation"; "bulking"]
       (15, 20)%Q (60, 80)%Q (5.0, 6.5)%Q (70, 85)%Q
       [("late blight", 0.2%Q); ("early blight", 0.5%Q)]);
    ("rice",
     mkCropInfo "rice" "Oryza sativa"
       ["blast"; "bacterial blight"; "sheath blight"]
       ["tillering"; "heading"]
       (25, 35)%Q (70, 90)%Q (5.5, 6.5)%Q (80, 100)%Q
       [("blast", 0.4%Q); ("bacterial blight", 0.6%Q)]);
    ("corn",
     mkCropInfo "corn" "Zea mays"
       ["rust"; "smut"; "leaf blight"; "gray leaf spot"]
       ["silking"; "grain filling"]
       (20, 30)%Q (50, 70)%Q (6.0, 7.0)%Q (65, 80)%Q
       [("rust", 0.5%Q); ("smut", 0.3%Q)]);
    ("wheat",
     mkCropInfo "wheat" "Triticum aestivum"
       ["rust"; "powdery mildew"; "head scab"; "septoria blotch"]
       ["heading"; "grain filling"]
       (15, 25)%Q (40, 60)%Q (6.0, 7.5)%Q (50, 70)%Q
       [("rust", 0.6%Q); ("powdery mildew", 0.4%Q)]) ].

(** [get_crop_info]; the argument [None] is a missing crop name. *)
Definition get_crop_info (crops : list (string * CropInfo))
    (crop_name : option string) : option CropInfo :=
  match crop_name with
  | None | Some EmptyString => None
  | Some crop_name =>
      let crop_lower := Py.lower crop_name in
      match dict_get crop_lower crops with
      | Some info => Some info
      | None =>
          match find (fun '(crop, _) =>
                        Py.contains crop crop_lower || Py.contains crop_lower crop)
                     crops with
          | Some (_, info) => Some info
          | None => None
          end
      end
  end.

Definition get_crop_specific_ranges (crops : list (string * CropInfo))
    (crop_name : option string) : list (string * (Q * Q)) :=
  match get_crop_info crops crop_name with
  | Some crop_info =>
      [ ("temperature", optimal_temp_range crop_info);
        ("humidity", optimal_humidity_range crop_info);
        ("ph", optimal_ph_range crop_info);
        ("soil_moisture", optimal_moisture_range crop_info) ]
  | None =>
      [ ("temperature", (18, 25)%Q);
        ("humidity", (50, 70)%Q);
        ("ph", (6.0, 7.0)%Q);
        ("soil_moisture", (60, 80)%Q) ]
  end.

(** [get_disease_recommendations]; its second argument [crop_name] is not
    used by the body. *)
Definition get_disease_recommendations (disease_info : DiseaseInfo)
  : list string :=
  let recommendations := [] in
  let recommendations :=
    if (4 <=? treatment_priority disease_info)%Z
    then recommendations ++ ["URGENT: Immediate treatment required"]
    else recommendations in
  let recommendations :=
    match type disease_info with
    | FUNGAL =>
        recommendations ++
        [ "Apply appropriate fungicide treatment";
          "Improve air circulation around plants";
          "Reduce humidity levels if possible" ]
    | BACTERIAL =>
        recommendations ++
        [ "Apply copper-based bactericide";
          "Remove and destroy infected plant material";
          "Improve sanitation practices" ]
    | VIRAL =>
        recommendations ++
        [ "Remove infected plants immediately";
          "Control vector insects";
          "Use virus-free planting material" ]
    | PEST =>
        recommendations ++
        [ "Apply appropriate insecticide or biological control";
          "Monitor pest population levels";
          "Implement integrated pest management" ]
    | PHYSIOLOGICAL | UNKNOWN => recommendations
    end in
  let recommendations :=
    if String.eqb (spreading_rate disease_info) "fast"
    then recommendations ++
         ["Monitor surrounding plants closely - rapid spread possible"]
    else recommendations in
  recommendations.

End CropDatabase.

(** ** [config.py] *)

Module Config.

(** [OPTIMAL_RANGES], in the order of the dict literal. *)
Definition OPTIMAL_RANGES : list (string * (Q * Q)) :=
  [ ("temperature", (18, 30)%Q);
    ("humidity", (40, 70)%Q);
    ("soil_moisture", (30, 70)%Q);
    ("ph", (6, 7.5)%Q) ].

(** [OPTIMAL_RANGES[param]] for a key of the literal. *)
Definition range_of (param : string) : Q * Q :=
  match CropDatabase.dict_get param OPTIMAL_RANGES with
  | Some r => r
  | None => (0, 0)%Q
  end.

End Config.

(** ** [health_scorer.py] *)

Module HealthScorer.

Import Config.

Record DetectionResult := mkDetection {
  class_name : string;
  confidence : Q;
  bbox : Q * Q * Q * Q;
  area : Q
}.

Record SensorData := mkSensorData {
  temperature : option Q;
  humidity : option Q;
  soil_moisture : option Q;
  ph : option Q
}.

(** One value of the dict built by [_analyze_sensor_data]. *)
Record ParamAnalysis := mkParamAnalysis {
  pa_value : Q;
  pa_status : string;
  pa_score : Q;
  pa_optimal_range : Q * Q
}.

Record HealthAssessment := mkHealthAssessment {
  overall_health : Q;
  disease_score : Q;
  environmental_score : Q;
  risk_level : string;
  ha_confidence : Q;
  recommendations : list string;
  detected_issues : list DiseaseClassifier.Classification;
  sensor_analysis : list (string * ParamAnalysis)
}.

(** The dict returned by [_analyze_detections]. *)
Record DiseaseAnalysis := mkAnalysis {
  classified_detections : list DiseaseClassifier.Classification;
  total_impact : Q;
  max_priority : Z;
  affected_area : Q;
  detection_count : nat
}.

Record t := mkScorer { disease_classifier : DiseaseClassifier.t }.

(** [__init__], given the class list the classifier loaded. *)
Definition init (loaded : list string) : t :=
  mkScorer (DiseaseClassifier.init loaded).

(** [getattr(sensor_data, param, None)]. *)
Definition getattr (sensor_data : SensorData) (param : string) : option Q :=
  if String.eqb param "temperature" then temperature sensor_data
  else if String.eqb param "humidity" then humidity sensor_data
  else if String.eqb param "soil_moisture" then soil_moisture sensor_data
  else if String.eqb param "ph" then ph sensor_data
  else None.

Definition Qlt_bool (a b : Q) : bool := negb (Qle_bool b a).

Definition set_area (a : Q) (c : DiseaseClassifier.Classification)
  : DiseaseClassifier.Classification :=
  let (cn, ty, sev, imp, conf, prio, spread, w, _) := c in
  DiseaseClassifier.mkClassification cn ty sev imp conf prio spread w (Some a).

(** The body of the loop of [_analyze_detections]. *)
Definition analyze_step (self : t) (acc : DiseaseAnalysis)
    (detection : DetectionResult) : DiseaseAnalysis :=
  let classification :=
    DiseaseClassifier.classify_detection (disease_classifier self)
      (class_name detection) (confidence detection) in
  let classification := set_area (area detection) classification in
  mkAnalysis
    (classified_detections acc ++ [classification])
    (total_impact acc + DiseaseClassifier.cl_weighted_impact classification)%Q
    (Z.max (max_priority acc)
           (DiseaseClassifier.cl_treatment_priority classification))
    (affected_area acc + area detection)%Q
    (detection_count acc).

Definition _analyze_detections (self : t) (detections : list DetectionResult)
  : DiseaseAnalysis :=
  let acc :=
    fold_left (analyze_step self) detections (mkAnalysis [] 0%Q 0 0%Q 0%nat) in
  mkAnalysis (classified_detections acc) (total_impact acc) (max_priority acc)
    (affected_area acc) (length detections).

Definition _calculate_disease_score (disease_analysis : DiseaseAnalysis) : Q :=
  if Nat.eqb (detection_count disease_analysis) 0 then 100%Q
  else
    let base_impact :=
      (total_impact disease_analysis
       / inject_Z (Z.of_nat (detection_count disease_analysis)))%Q in
    let area_penalty := Py.min 30 (affected_area disease_analysis * 100)%Q in
    let priority_penalty := inject_Z (max_priority disease_analysis * 5)%Z in
    let total_penalty := (base_impact + area_penalty + priority_penalty)%Q in
    Py.max 0 (100 - total_penalty)%Q.

(** [_score_parameter]; [None] stands for the [ZeroDivisionError] that the
    division by [range_size] raises on a range of width zero. *)
Definition _score_parameter (value : Q) (optimal_range : Q * Q) : option Q :=
  let '(min_val, max_val) := optimal_range in
  let range_size := (max_val - min_val)%Q in
  if Qle_bool min_val value && Qle_bool value max_val then Some 100%Q
  else if Qlt_bool value min_val then
    if Qeq_bool range_size 0 then None
    else
      let deviation := ((min_val - value) / range_size)%Q in
      Some (Py.max 0 (100 - deviation * 100)%Q)
  else
    if Qeq_bool range_size 0 then None
    else
      let deviation := ((value - max_val) / range_size)%Q in
      Some (Py.max 0 (100 - deviation * 100)%Q).

(** The loop of [_calculate_environmental_score]: the scores of the
    parameters that are present, in the order of [ranges]. *)
Fixpoint collect_scores (sensor_data : SensorData)
    (ranges : list (string * (Q * Q))) (scores : list Q) : option (list Q) :=
  match ranges with
  | [] => Some scores
  | (param, optimal_range) :: rest =>
      match getattr sensor_data param with
      | Some value =>
          match _score_parameter value optimal_range with
          | Some score => collect_scores sensor_data rest (scores ++ [score])
          | None => None
          end
      | None => collect_scores sensor_data rest scores
      end
  end.

Definition _calculate_environmental_score (sensor_data : option SensorData)
  : option Q :=
  match sensor_data with
  | None => Some 75%Q
  | Some sensor_data =>
      match collect_scores sensor_data OPTIMAL_RANGES [] with
      | Some [] => Some 75%Q
      | Some scores => Some (Py.mean scores)
      | None => None
      end
  end.

Definition _determine_risk_level (health_score : Q)
    (disease_analysis : DiseaseAnalysis) : string :=
  let risk :=
    if Qle_bool 80 health_score then "low"
    else if Qle_bool 60 health_score then "medium"
    else if Qle_bool 30 health_score then "high"
    else "critical" in
  if (4 <=? max_priority disease_analysis)%Z then
    if String.eqb risk "low" then "medium"
    else if String.eqb risk "medium" then "high"
    else risk
  else risk.

(** [sum(1 for param in [...] if getattr(sensor_data, param, None) is not None)]. *)
Definition available_sensors (sensor_data : SensorData) : nat :=
  length (filter (fun param => bool_decide (getattr sensor_data param <> None))
                 ["temperature"; "humidity"; "soil_moisture"; "ph"]).

Definition _calculate_confidence (detections : list DetectionResult)
    (sensor_data : option SensorData) : Q :=
  let confidence_factors := [] in
  let confidence_factors :=
    match detections with
    | _ :: _ =>
        let avg_confidence := (Py.mean (map confidence detections) * 100)%Q in
        confidence_factors ++ [avg_confidence]
    | [] => confidence_factors ++ [90%Q]
    end in
  let confidence_factors :=
    match sensor_data with
    | Some sensor_data =>
        let sensor_confidence :=
          (inject_Z (Z.of_nat (available_sensors sensor_data)) / 4 * 100)%Q in
        confidence_factors ++ [sensor_confidence]
    | None => confidence_factors ++ [50%Q]
    end in
  Py.mean confidence_factors.

Definition _get_environmental_recommendations (sensor_data : SensorData)
  : list string :=
  let recommendations := [] in
  let recommendations :=
    match temperature sensor_data with
    | Some temperature =>
        let temp_range := range_of "temperature" in
        if Qlt_bool temperature (fst temp_range)
        then recommendations ++ ["Provide protection from cold temperatures"]
        else if Qlt_bool (snd temp_range) temperature
        then recommendations ++ ["Provide shade or cooling measures"]
        else recommendations
    | None => recommendations
    end in
  let recommendations :=
    match humidity sensor_data with
    | Some humidity =>
        let humidity_range := range_of "humidity" in
        if Qlt_bool humidity (fst humidity_range)
        then recommendations ++ ["Increase humidity around plants"]
        else if Qlt_bool (snd humidity_range) humidity
        then recommendations ++ ["Improve ventilation to reduce humidity"]
        else recommendations
    | None => recommendations
    end in
  let recommendations :=
    match soil_moisture sensor_data with
    | Some soil_moisture =>
        let moisture_range := range_of "soil_moisture" in
        if Qlt_bool soil_moisture (fst moisture_range)
        then recommendations ++ ["Increase watering frequency"]
        else if Qlt_bool (snd moisture_range) soil_moisture
        then recommendations ++ ["Reduce watering to prevent root rot"]
        else recommendations
    | None => recommendations
    end in
  recommendations.

(** The first loop of [_generate_recommendations]: for each of the first
    three classified detections, [recommendations.extend(disease_recs[:2])]. *)
Definition extend_with_treatments (self : t)
    (detections : list DiseaseClassifier.Classification)
    (recommendations : list string) : list string :=
  fold_left
    (fun recommendations detection =>
       let disease_recs :=
         DiseaseClassifier.get_treatment_recommendations
           (disease_classifier self)
           (DiseaseClassifier.cl_class_name detection) in
       recommendations ++ take 2 disease_recs)
    (take 3 detections) recommendations.

(** The last loop of [_generate_recommendations], with its two variables
    [seen] and [unique_recs]. *)
Definition unique_step (st : gset string * list string) (rec : string)
  : gset string * list string :=
  let '(seen, unique_recs) := st in
  if decide (rec ∈ seen) then (seen, unique_recs)
  else ({[ rec ]} ∪ seen, unique_recs ++ [rec]).

Definition remove_duplicates (recommendations : list string) : list string :=
  snd (fold_left unique_step recommendations (∅, [])).

Definition _generate_recommendations (self : t)
    (disease_analysis : DiseaseAnalysis) (sensor_data : option SensorData)
  : list string :=
  let recommendations := [] in
  let recommendations :=
    extend_with_treatments self (classified_detections disease_analysis)
      recommendations in
  let recommendations :=
    match sensor_data with
    | Some sensor_data =>
        recommendations ++ _get_environmental_recommendations sensor_data
    | None => recommendations
    end in
  let recommendations :=
    if (3 <=? max_priority disease_analysis)%Z
    then recommendations ++ ["Schedule follow-up inspection within 3-5 days"]
    else recommendations in
  take 8 (remove_duplicates recommendations).

(** The loop of [_analyze_sensor_data]; [analysis] is the dict built so far,
    in insertion order. *)
Fixpoint analyze_params (sensor_data : SensorData)
    (ranges : list (string * (Q * Q))) (analysis : list (string * ParamAnalysis))
  : option (list (string * ParamAnalysis)) :=
  match ranges with
  | [] => Some analysis
  | (param, optimal_range) :: rest =>
      match getattr sensor_data param with
      | Some value =>
          match _score_parameter value optimal_range with
          | Some score =>
              let status :=
                if Qle_bool 80 score then "optimal"
                else if Qle_bool 60 score then "acceptable"
                else "poor" in
              analyze_params sensor_data rest
                (CropDatabase.dict_set param
                   (mkParamAnalysis value status score optimal_range) analysis)
          | None => None
          end
      | None => analyze_params sensor_data rest analysis
      end
  end.

Definition _analyze_sensor_data (sensor_data : option SensorData)
  : option (list (string * ParamAnalysis)) :=
  match sensor_data with
  | None => Some []
  | Some sensor_data => analyze_params sensor_data OPTIMAL_RANGES []
  end.

(** [calculate_health_score]; [None] when one of the two calls that score
    sensor values raises.  [convert_numpy_types] changes the representation
    of numbers only and is the identity here. *)
Definition calculate_health_score (self : t)
    (detections : list DetectionResult) (sensor_data : option SensorData)
  : option HealthAssessment :=
  let disease_analysis := _analyze_detections self detections in
  let disease_score := _calculate_disease_score disease_analysis in
  match _calculate_environmental_score sensor_data with
  | None => None
  | Some env_score =>
      let disease_weight := 0.7%Q in
      let env_weight := 0.3%Q in
      let overall_health :=
        (disease_score * disease_weight + env_score * env_weight)%Q in
      let risk_level := _determine_risk_level overall_health disease_analysis in
      let confidence := _calculate_confidence detections sensor_data in
      let recommendations :=
        _generate_recommendations self disease_analysis sensor_data in
      match _analyze_sensor_data sensor_data with
      | None => None
      | Some sensor_analysis =>
          Some (mkHealthAssessment overall_health disease_score env_score
                  risk_level confidence recommendations
                  (classified_detections disease_analysis) sensor_analysis)
      end
  end.

End HealthScorer.

(** ** [rag_agent.py]

    The advice agent.  The request to the text-generation service is outside
    the model: [call_huggingface_api] stands for [_call_huggingface_api] as
    its caller sees it, a function from the prompt to the generated text, or
    to the empty string when the request fails.  The texts are given line by
    line; [text_of_lines] joins them with the newline character. *)

Module RagAgent.

Definition text_of_lines (lines : list string) : string := Py.join Py.newline lines.

Definition _build_knowledge_base : gmap string string :=
  list_to_map
    [ ("early_blight",
       text_of_lines
         [ EmptyString;
           "            Early blight is a common fungal disease affecting tomatoes and potatoes.";
           "            Symptoms: Dark spots with concentric rings on leaves, yellowing.";
           "            Treatment: Apply fungicide, improve air circulation, avoid overhead watering.";
           "            Prevention: Use resistant varieties, crop rotation, proper spacing.";
           "            " ]);
      ("late_blight",
       text_of_lines
         [ EmptyString;
           "            Late blight is a serious disease that can destroy crops quickly.";
           "            Symptoms: Water-soaked spots on leaves, white mold on undersides.";
           "            Treatment: URGENT - Apply copper or mancozeb fungicide immediately.";
           "            Prevention: Avoid wet conditions, destroy infected plants, use resistant varieties.";
           "            " ]);
      ("bacterial_spot",
       text_of_lines
         [ EmptyString;
           "            Bacterial spot affects tomatoes and peppers.";
           "            Symptoms: Small dark spots on leaves and fruits.";
           "            Treatment: Apply copper-based bactericide, remove infected material.";
           "            Prevention: Use disease-free seeds, avoid overhead watering, good sanitation.";
           "            " ]);
      ("powdery_mildew",
       text_of_lines
         [ EmptyString;
           "            Powdery mildew appears as white powdery coating on leaves.";
           "            Symptoms: White powder on leaf surfaces, stunted growth.";
           "            Treatment: Apply sulfur or potassium bicarbonate spray.";
           "            Prevention: Good air circulation, avoid overcrowding, resistant varieties.";
           "            " ]);
      ("spider_mite",
       text_of_lines
         [ EmptyString;
           "            Spider mites are tiny pests that cause stippling on leaves.";
           "            Symptoms: Fine webbing, yellow stippling, leaf bronzing.";
           "            Treatment: Apply miticide, increase humidity, release beneficial insects.";
           "            Prevention: Avoid water stress, maintain humidity, regular monitoring.";
           "            " ]) ].

Record t := mkAgent {
  huggingface_key : string;
  call_huggingface_api : string -> string
}.

Definition knowledge_base (self : t) : gmap string string := _build_knowledge_base.

(** The value of the variable [simplified] of [_simplify_disease_name] after
    its two assignments. *)
Definition simplified_of (disease_name : string) : string :=
  let simplified :=
    Py.replace_char "_"%char " "%char (Py.lower disease_name) in
  Py.sub_spaces "_" (Py.strip simplified).

Definition _simplify_disease_name (disease_name : string) : string :=
  let simplified := simplified_of disease_name in
  if Py.contains "early blight" simplified || Py.contains "earlyblight" simplified
  then "early_blight"
  else if Py.contains "late blight" simplified
          || Py.contains "lateblight" simplified
  then "late_blight"
  else if Py.contains "bacterial spot" simplified
          || Py.contains "bacterialspot" simplified
  then "bacterial_spot"
  else if Py.contains "powdery mildew" simplified then "powdery_mildew"
  else if Py.contains "spider mite" simplified then "spider_mite"
  else simplified.

Definition _format_advice (raw_advice : string) : string :=
  let lines :=
    filter (fun line => line <> EmptyString)
           (map Py.strip (Py.split_on (ascii_of_nat 10) (Py.strip raw_advice))) in
  Py.join Py.newline lines.

(** The dict that the three ways of getting advice return. *)
Record Advice := mkAdvice {
  disease_name : string;
  summary : string;
  confidence : string;
  source : string
}.

Definition _get_generic_advice (disease_name : string) : Advice :=
  let generic_advice :=
    String.append
      (text_of_lines [ EmptyString; "        General recommendations for " ])
      (String.append disease_name
         (text_of_lines
       [ ":";
         "        ";
         "        1. IDENTIFICATION: Monitor plants regularly for symptoms";
         "        2. IMMEDIATE ACTION: Remove and destroy affected plant parts";
         "        3. TREATMENT: Consult local agricultural extension for specific treatments";
         "        4. PREVENTION: ";
         "           - Improve air circulation around plants";
         "           - Avoid overhead watering when possible";
         "           - Practice crop rotation";
         "           - Use disease-resistant varieties";
         "           - Maintain proper plant spacing";
         "        5. MONITORING: Check plants weekly for disease progression";
         "        6. SANITATION: Keep growing area clean and free of plant debris";
         "        ";
         "        For specific treatment recommendations, contact your local agricultural advisor.";
         "        " ]))
  in
  mkAdvice disease_name (Py.strip generic_advice) "low" "generic_guidelines".

(** The f-string [prompt] of [_get_llm_advice]. *)
Definition llm_prompt (disease_name : string) : string :=
    String.append "Provide practical farming advice for "
      (String.append disease_name
         (text_of_lines
       [ ". Include:";
         "1. Symptoms to identify";
         "2. Treatment options";
         "3. Prevention methods";
         "Keep it simple and actionable for farmers." ])).

Definition _get_llm_advice (self : t) (disease_name : string) : Advice :=
  let prompt := llm_prompt disease_name in
  let response := call_huggingface_api self prompt in
  match response with
  | String _ _ => mkAdvice disease_name response "medium" "llm_generated"
  | EmptyString => _get_generic_advice disease_name
  end.

Definition get_disease_advice (self : t) (disease_name : string) : Advice :=
  let simplified_name := _simplify_disease_name disease_name in
  match knowledge_base self !! simplified_name with
  | Some advice =>
      mkAdvice disease_name (_format_advice advice) "high" "local_knowledge"
  | None =>
      match huggingface_key self with
      | String _ _ => _get_llm_advice self disease_name
      | EmptyString => _get_generic_advice disease_name
      end
  end.

End RagAgent.

(** ** Reference definitions for the statements below *)

Module Spec.

Import DiseaseClassifier.

(** The severity tier that the fixed thresholds assign to an impact score:
    at least 90 critical, at least 75 high, at least 50 medium, else low. *)
Definition severity_tier (impact : Q) : SeverityLevel :=
  if Qle_bool 90 impact then CRITICAL
  else if Qle_bool 75 impact then HIGH
  else if Qle_bool 50 impact then MEDIUM
  else LOW.

(** A table entry whose tier is the one the thresholds give. *)
Definition tier_consistent (d : DiseaseInfo) : Prop :=
  severity d = severity_tier (impact_score d).

(** The two enumerations of severity levels, one per module, side by side. *)
Definition of_crop_severity (s : CropDatabase.SeverityLevel) : SeverityLevel :=
  match s with
  | CropDatabase.LOW => LOW
  | CropDatabase.MEDIUM => MEDIUM
  | CropDatabase.HIGH => HIGH
  | CropDatabase.CRITICAL => CRITICAL
  end.

(** What the lookup of a label that is no table key would owe to an alias
    map and to the fuzzy test: whenever the alias of the label, or a key that
    passes the fuzzy test on the lower-cased label, is a key of the table,
    the lookup finds a record. *)
Definition resolves_before_default (self : DiseaseClassifier.t)
    (aliases : gmap string string) (label : string) : Prop :=
  forall key : string,
    (aliases !! label = Some key
     \/ CropDatabase.fuzzy_match (Py.lower label) key = true) ->
    is_Some (disease_db self !! key) ->
    is_Some (get_disease_info self label).

(** The record that stands for a label without table entry. *)
Definition default_record (label : string) (confidence : Q) : Classification :=
  mkClassification label "unknown" "unknown" 50%Q confidence 2 None
    (50 * confidence)%Q None.

(** Sum and arithmetic mean of a list of numbers. *)
Definition sum (l : list Q) : Q := fold_right Qplus 0%Q l.

Definition mean (l : list Q) : Q := (sum l / inject_Z (Z.of_nat (length l)))%Q.

(** The greatest element of a list of integers ([0] for the empty list). *)
Definition maximum (l : list Z) : Z :=
  match l with
  | [] => 0
  | x :: r => fold_right Z.max x r
  end.

(** A detection joined with its table record, as the scorer stores it. *)
Definition classified (self : HealthScorer.t) (d : HealthScorer.DetectionResult)
  : Classification :=
  HealthScorer.set_area (HealthScorer.area d)
    (classify_detection (HealthScorer.disease_classifier self)
       (HealthScorer.class_name d) (HealthScorer.confidence d)).

(** Some classified detection has a treatment priority of at least [p]. *)
Definition some_priority_at_least (p : Z) (cds : list Classification) : bool :=
  existsb (fun c => (p <=? cl_treatment_priority c)%Z) cds.

(** Distance of a value from the range [[mn, mx]]. *)
Definition distance (mn mx value : Q) : Q :=
  if Qlt_le_dec value mn then (mn - value)%Q
  else if Qlt_le_dec mx value then (value - mx)%Q
  else 0%Q.

(** The bound of the range that is nearest to a value outside of it. *)
Definition nearest_bound (mn mx value : Q) : Q :=
  if Qlt_le_dec value mn then mn else mx.

(** The score of a value for the range [[mn, mx]]: 100 inside the range,
    otherwise 100 less 100 times the deviation, and never below 0. *)
Definition score (mn mx value : Q) : Q :=
  if Qle_bool mn value && Qle_bool value mx then 100%Q
  else Qmax 0 (100 - 100 * Qabs (value - nearest_bound mn mx value) / (mx - mn))%Q.

(** The scores of the parameters that a sensor reading holds. *)
Definition present_score (sensor_data : HealthScorer.SensorData)
    (entry : string * (Q * Q)) : list Q :=
  let '(param, (mn, mx)) := entry in
  match HealthScorer.getattr sensor_data param with
  | Some value => [score mn mx value]
  | None => []
  end.

Definition present_scores (sensor_data : HealthScorer.SensorData) : list Q :=
  flat_map (present_score sensor_data) Config.OPTIMAL_RANGES.

(** Number of fields of a sensor reading that hold a value. *)
Definition one_if_present (field : option Q) : Z :=
  match field with
  | Some _ => 1
  | None => 0
  end.

Definition present_count (sensor_data : HealthScorer.SensorData) : Z :=
  one_if_present (HealthScorer.temperature sensor_data)
  + one_if_present (HealthScorer.humidity sensor_data)
  + one_if_present (HealthScorer.soil_moisture sensor_data)
  + one_if_present (HealthScorer.ph sensor_data).

(** Risk level by the thresholds on the overall health. *)
Definition base_risk (overall_health : Q) : string :=
  if Qlt_le_dec overall_health 30 then "critical"
  else if Qlt_le_dec overall_health 60 then "high"
  else if Qlt_le_dec overall_health 80 then "medium"
  else "low".

(** One tier up for low and medium; high and critical stay. *)
Definition escalate (risk : string) : string :=
  if String.eqb risk "low" then "medium"
  else if String.eqb risk "medium" then "high"
  else risk.

(** Position of a risk level in the order low, medium, high, critical. *)
Definition rank (risk : string) : nat :=
  if String.eqb risk "low" then 0
  else if String.eqb risk "medium" then 1
  else if String.eqb risk "high" then 2
  else 3.

(** A list without its repetitions: of equal strings the first one stays. *)
Fixpoint dedup (l : list string) : list string :=
  match l with
  | [] => []
  | x :: r => x :: filter (fun y => y <> x) (dedup r)
  end.

(** The three parts of the recommendation list before deduplication. *)
Definition treatment_part (self : HealthScorer.t) (cds : list Classification)
  : list string :=
  flat_map (fun c =>
              take 2 (get_treatment_recommendations
                        (HealthScorer.disease_classifier self)
                        (cl_class_name c)))
           (take 3 cds).

Definition environmental_part (sensor_data : option HealthScorer.SensorData)
  : list string :=
  match sensor_data with
  | Some sensor_data => HealthScorer._get_environmental_recommendations sensor_data
  | None => []
  end.

Definition follow_up_part (cds : list Classification) : list string :=
  if some_priority_at_least 3 cds
  then ["Schedule follow-up inspection within 3-5 days"]
  else [].

(** The values that a sensor reading holds, each with the name of its
    parameter, in the order temperature, humidity, soil moisture, pH. *)
Definition reading (param : string) (field : option Q) : list (string * Q) :=
  match field with
  | Some value => [(param, value)]
  | None => []
  end.

Definition readings (sensor_data : HealthScorer.SensorData)
  : list (string * Q) :=
  reading "temperature" (HealthScorer.temperature sensor_data)
  ++ reading "humidity" (HealthScorer.humidity sensor_data)
  ++ reading "soil_moisture" (HealthScorer.soil_moisture sensor_data)
  ++ reading "ph" (HealthScorer.ph sensor_data).

(** The status of a score: optimal from 80, acceptable from 60, poor
    below. *)
Definition status_of_score (score : Q) : string :=
  if Qlt_le_dec score 60 then "poor"
  else if Qlt_le_dec score 80 then "acceptable"
  else "optimal".

(** What one entry of the sensor analysis says about its parameter: the
    range is the one that [ranges] gives to the parameter, the score is the
    score of the value for this range and lies between 0 and 100, the
    status is the status of this score; a value within the range has the
    score 100 and is optimal, a value at least one width of the range away
    from it is poor. *)
Definition entry_consistent (ranges : list (string * (Q * Q)))
    (e : string * HealthScorer.ParamAnalysis) : Prop :=
  let value := HealthScorer.pa_value (snd e) in
  let score := HealthScorer.pa_score (snd e) in
  let status := HealthScorer.pa_status (snd e) in
  exists mn mx,
    In (fst e, (mn, mx)) ranges
    /\ HealthScorer.pa_optimal_range (snd e) = (mn, mx)
    /\ HealthScorer._score_parameter value (mn, mx) = Some score
    /\ (0 <= score <= 100)%Q
    /\ status = status_of_score score
    /\ ((mn <= value <= mx)%Q -> score = 100%Q /\ status = "optimal")
    /\ ((mx - mn <= distance mn mx value)%Q -> status = "poor").


(** Position of a severity level of [crop_database.py] in the order low,
    medium, high, critical. *)
Definition crop_severity_rank (s : CropDatabase.SeverityLevel) : nat :=
  match s with
  | CropDatabase.LOW => 0
  | CropDatabase.MEDIUM => 1
  | CropDatabase.HIGH => 2
  | CropDatabase.CRITICAL => 3
  end.

(** A text of ASCII characters only.  On such a text [Py.lower],
    [Py.strip] and [Py.sub_spaces] are [str.lower], [str.strip] and
    [re.sub(r'\s+', '_', _)]. *)
Definition ascii_text (s : string) : bool :=
  forallb (fun c => (nat_of_ascii c <? 128)%nat) (String.list_ascii_of_string s).

(** A string without white space. *)
Definition no_space (s : string) : Prop :=
  Forall (fun c => Py.is_space c = false) (String.list_ascii_of_string s).

(** The keys of the knowledge base of the advice agent. *)
Definition knowledge_keys : list string :=
  [ "early_blight"; "late_blight"; "bacterial_spot"; "powdery_mildew";
    "spider_mite" ].

(** A string without the newline character. *)
Definition one_line (s : string) : Prop :=
  Forall (fun c => c <> ascii_of_nat 10) (String.list_ascii_of_string s).

(** A line of formatted advice: not empty, on one line, and without white
    space at its ends. *)
Definition clean_line (s : string) : Prop :=
  s <> EmptyString /\ one_line s /\ Py.strip s = s.

End Spec.

(** ** The same arithmetic on binary64 numbers

    The places where the claims name a concrete number, written with the
    operations of the sources on [float], to compare the rational model with
    the rounding of the machine numbers. *)

Module Binary64.

(** [impact_score * confidence] of [classify_detection]. *)
Definition weighted_impact (impact_score confidence : float) : float :=
  (impact_score * confidence)%float.

(** [disease_score * disease_weight + env_score * env_weight]. *)
Definition overall_health (disease_score env_score : float) : float :=
  (disease_score * 0.7 + env_score * 0.3)%float.

(** [numpy.mean] of the two confidence factors. *)
Definition mean_of_two (a b : float) : float := ((a + b) / 2)%float.

(** The branch [value < min_val] of [_score_parameter]. *)
Definition score_below (value min_val max_val : float) : float :=
  let range_size := (max_val - min_val)%float in
  let deviation := ((min_val - value) / range_size)%float in
  let score := (100 - deviation * 100)%float in
  if (0 <? score)%float then score else 0%float.

(** [max(0, x)]: the built-in returns its first argument unless a later one
    is greater. *)
Definition max0 (x : float) : float :=
  if (0 <? x)%float then x else 0%float.

(** [_score_parameter], for a range of positive width. *)
Definition _score_parameter (value min_val max_val : float) : float :=
  let range_size := (max_val - min_val)%float in
  if (min_val <=? value)%float && (value <=? max_val)%float then 100%float
  else if (value <? min_val)%float then
    let deviation := ((min_val - value) / range_size)%float in
    max0 (100 - deviation * 100)
  else
    let deviation := ((value - max_val) / range_size)%float in
    max0 (100 - deviation * 100).

(** The status that [_analyze_sensor_data] gives to a score. *)
Definition status (score : float) : string :=
  if (80 <=? score)%float then "optimal"
  else if (60 <=? score)%float then "acceptable"
  else "poor".

(** The thresholds of [_determine_risk_level]. *)
Definition base_risk (health_score : float) : string :=
  if (80 <=? health_score)%float then "low"
  else if (60 <=? health_score)%float then "medium"
  else if (30 <=? health_score)%float then "high"
  else "critical".

(** [_calculate_disease_score] for one detection. *)
Definition disease_score_of_one (weighted_impact area : float) (priority : float)
  : float :=
  let base_impact := (weighted_impact / 1)%float in
  let scaled := (area * 100)%float in
  let area_penalty := if (scaled <? 30)%float then scaled else 30%float in
  let priority_penalty := (priority * 5)%float in
  let total_penalty := (base_impact + area_penalty + priority_penalty)%float in
  max0 (100 - total_penalty).

End Binary64.

(** * Properties *)

(** ** The classifier's table *)

Section ClassifierTable.

Import DiseaseClassifier.

Lemma consolidated_lookup_items (k : string) (info : ConsolidatedInfo) :
  consolidated_disease_info !! k = Some info ->
  In (k, info) consolidated_items.
Proof.
  intros H. apply list_elem_of_In.
  unfold consolidated_disease_info in H.
  by apply elem_of_list_to_map_2.
Qed.

(** The accumulator of the building loop: a name of the list maps to its
    entry, any other name keeps the accumulator's value. *)
Lemma build_loop_lookup (l : list string) (db0 : gmap string DiseaseInfo)
    (k : string) :
  fold_left (fun db n => <[n := build_entry n]> db) l db0 !! k
  = if decide (k ∈ l) then Some (build_entry k) else db0 !! k.
Proof.
  revert db0. induction l as [|n l IH]; intros db0; cbn [fold_left].
  - case_decide as H; [by apply elem_of_nil in H | done].
  - rewrite IH. repeat case_decide; try done.
    + set_solver.
    + match goal with H : k ∈ n :: l |- _ => apply elem_of_cons in H as [->|?] end;
        [by rewrite lookup_insert_eq | contradiction].
    + rewrite lookup_insert_ne; [done | set_solver].
Qed.

Lemma build_lookup (loaded : list string) (k : string) :
  _build_disease_database loaded !! k
  = if decide (k ∈ loaded) then Some (build_entry k) else None.
Proof.
  unfold _build_disease_database. rewrite build_loop_lookup.
  destruct (decide (k ∈ loaded)); [done | apply lookup_empty].
Qed.

Lemma get_disease_info_Some (loaded : list string) (k : string) (d : DiseaseInfo) :
  get_disease_info (init loaded) k = Some d -> k ∈ loaded /\ d = build_entry k.
Proof.
  unfold get_disease_info, init; simpl. rewrite build_lookup.
  destruct (decide (k ∈ loaded)); [|discriminate].
  intros [= <-]. done.
Qed.

Lemma get_disease_info_None (loaded : list string) (k : string) :
  get_disease_info (init loaded) k = None <-> k ∉ loaded.
Proof.
  unfold get_disease_info, init; simpl. rewrite build_lookup.
  destruct (decide (k ∈ loaded)); split; intros; (done || contradiction).
Qed.

(** Every entry the loop can build has a priority from 1 to 5 and an impact
    score from 0 to 100. *)
Lemma build_entry_bounds (k : string) :
  (1 <= treatment_priority (build_entry k) <= 5)%Z
  /\ (0 <= impact_score (build_entry k) <= 100)%Q.
Proof.
  unfold build_entry.
  destruct (consolidated_disease_info !! k) as [info|] eqn:E.
  - apply consolidated_lookup_items in E. simpl in E.
    repeat (destruct E as [E|E]; [injection E as <- <-; simpl; split; [lia | split; discriminate] |]).
    contradiction.
  - unfold _classify_unknown_disease.
    destruct (any_keyword_in _ _); simpl; (split; [lia | split; discriminate]).
Qed.

(** Apart from [bacterial_disease], the tier of a built entry is the one the
    thresholds give to its impact score. *)
Lemma build_entry_tier_consistent (k : string) :
  k <> "bacterial_disease" -> Spec.tier_consistent (build_entry k).
Proof.
  intros Hk. unfold Spec.tier_consistent, build_entry.
  destruct (consolidated_disease_info !! k) as [info|] eqn:E.
  - apply consolidated_lookup_items in E. simpl in E.
    repeat (destruct E as [E|E];
            [injection E as <- <-; first [reflexivity | contradiction] |]).
    contradiction.
  - unfold _classify_unknown_disease.
    destruct (any_keyword_in _ _); reflexivity.
Qed.

Lemma table_tier_consistent_but_one (loaded : list string) (k : string)
    (d : DiseaseInfo) :
  get_disease_info (init loaded) k = Some d ->
  k <> "bacterial_disease" ->
  Spec.tier_consistent d.
Proof.
  intros [_ ->]%get_disease_info_Some Hk.
  by apply build_entry_tier_consistent.
Qed.

(** The thresholds are those of [CropDatabase._get_severity_from_impact]. *)
Lemma severity_tier_is_crop_database_rule (impact : Q) :
  Spec.severity_tier impact
  = Spec.of_crop_severity (CropDatabase._get_severity_from_impact impact).
Proof.
  unfold Spec.severity_tier, CropDatabase._get_severity_from_impact.
  repeat case_match; reflexivity.
Qed.

(** In the table of [crop_database.py] the tier of every entry comes from
    its impact score through that rule. *)
Lemma crop_database_tiers_follow_rule :
  Forall (fun '(_, d) =>
            CropDatabase.severity d
            = CropDatabase._get_severity_from_impact (CropDatabase.impact_score d))
         (CropDatabase.diseases CropDatabase.init).
Proof. repeat constructor. Qed.

(** C1.  The table entry [bacterial_disease] of the default class list has
    tier high with impact score 70, where the thresholds (at least 90
    critical, at least 75 high, at least 50 medium, else low) give medium:
    the tier of this entry is not the one its impact score implies. *)
Theorem bacterial_disease_tier_mismatch :
  exists d : DiseaseInfo,
    get_disease_info default "bacterial_disease" = Some d
    /\ severity d = HIGH
    /\ impact_score d = 70%Q
    /\ Spec.severity_tier (impact_score d) = MEDIUM
    /\ ~ Spec.tier_consistent d.
Proof.
  eexists. split; [vm_compute; reflexivity |].
  repeat split; try reflexivity.
  unfold Spec.tier_consistent. simpl. discriminate.
Qed.

(** C2, as stated, fails.  With a table whose only key is [bacterial spot],
    the alias of the label [tomato bacterial leaf spot] is that key and the
    fuzzy test on the label accepts it, and still the lookup finds nothing. *)
Lemma lookup_ignores_alias_and_fuzzy :
  let self := init ["bacterial spot"] in
  let label := "tomato bacterial leaf spot" in
  disease_db self !! label = None
  /\ ~ Spec.resolves_before_default self CropDatabase._load_class_mappings label.
Proof.
  split; [vm_compute; reflexivity |].
  intros H.
  destruct (H "bacterial spot") as [d Hd].
  - left. vm_compute. reflexivity.
  - eexists. vm_compute. reflexivity.
  - vm_compute in Hd. discriminate.
Qed.

(** C2, amended.  The lookup of the scoring pipeline is by exact key only: a
    label that is not among the class names the table was built from has no
    record, and its classification is the default record with weighted
    impact 50 times the confidence; neither an alias map nor a fuzzy test is
    consulted.  The resolution by alias, then by fuzzy test (the key occurs
    in the lower-cased label, or one of its words does), is that of
    [CropDatabase.get_disease_info], which the scorer does not call: there a
    label that is no key of the table resolves to the record of its alias when
    the alias is a key, and otherwise to the first entry in table order that
    passes the fuzzy test, and [tomato bacterial leaf spot] resolves to the
    record of [bacterial spot]. *)
Theorem lookup_is_exact_match_only (loaded : list string) (label : string)
    (confidence : Q) :
  label ∉ loaded ->
  get_disease_info (init loaded) label = None
  /\ classify_detection (init loaded) label confidence
     = Spec.default_record label confidence
  /\ (forall db : CropDatabase.t,
        CropDatabase.dict_get label (CropDatabase.diseases db) = None ->
        CropDatabase.get_disease_info db label
        = match CropDatabase.class_mappings db !! label with
          | Some (String c r) =>
              match CropDatabase.dict_get (String c r) (CropDatabase.diseases db) with
              | Some d => Some d
              | None => CropDatabase.fuzzy_lookup db label
              end
          | _ => CropDatabase.fuzzy_lookup db label
          end)
  /\ option_map CropDatabase.name
       (CropDatabase.get_disease_info CropDatabase.init
          "tomato bacterial leaf spot") = Some "bacterial spot".
Proof.
  intros Hnot.
  assert (Hnone : get_disease_info (init loaded) label = None)
    by by apply get_disease_info_None.
  split; [exact Hnone | split; [| split]].
  - unfold classify_detection. rewrite Hnone. reflexivity.
  - intros db Hk. unfold CropDatabase.get_disease_info, CropDatabase.mapped_lookup.
    rewrite Hk.
    destruct (CropDatabase.class_mappings db !! label) as [[|c r]|]; reflexivity.
  - vm_compute. reflexivity.
Qed.

Lemma lookup_is_exact_match_only_witness :
  get_disease_info default "tomato bacterial leaf spot" = None
  /\ cl_type (classify_detection default "tomato bacterial leaf spot" 0.8%Q)
     = "unknown".
Proof.
  destruct (lookup_is_exact_match_only _get_default_classes
              "tomato bacterial leaf spot" 0.8%Q) as (H1 & H2 & _).
  - vm_compute. intros H.
    repeat (apply elem_of_cons in H as [H|H]; [discriminate H|]).
    by apply elem_of_nil in H.
  - split; [exact H1 |]. unfold default. rewrite H2. reflexivity.
Defined.

End ClassifierTable.

(** ** Classification of one detection and treatment advice *)

Section Classification.

Import DiseaseClassifier.

(** C3, as stated, fails: the record of an unmatched label has severity
    [unknown], not [medium], and no spreading rate at all. *)
Lemma default_record_not_medium :
  let c := classify_detection default "xyz_unrecognized_tag" 0.6%Q in
  get_disease_info default "xyz_unrecognized_tag" = None
  /\ ~ (cl_type c = "unknown"
        /\ cl_severity c = "medium"
        /\ (cl_impact_score c == 50)%Q
        /\ cl_treatment_priority c = 2
        /\ cl_spreading_rate c = Some "medium"
        /\ (cl_weighted_impact c == 30)%Q).
Proof.
  split; [vm_compute; reflexivity |].
  intros (_ & Hsev & _). vm_compute in Hsev. discriminate.
Qed.

(** C3, amended.  [classify_detection] is a total function of the label and
    the confidence.  For a label without table entry it returns the default
    record: type [unknown], severity [unknown], impact score 50, treatment
    priority 2, no spreading rate, and weighted impact 50 times the
    confidence. *)
Theorem unmatched_label_default_record (self : DiseaseClassifier.t)
    (label : string) (confidence : Q) :
  get_disease_info self label = None ->
  let c := classify_detection self label confidence in
  cl_class_name c = label
  /\ cl_type c = "unknown"
  /\ cl_severity c = "unknown"
  /\ cl_impact_score c = 50%Q
  /\ cl_confidence c = confidence
  /\ cl_treatment_priority c = 2
  /\ cl_spreading_rate c = None
  /\ (cl_weighted_impact c == 50 * confidence)%Q.
Proof.
  intros Hnone. unfold classify_detection. rewrite Hnone. simpl.
  repeat split; reflexivity.
Qed.

Lemma unmatched_label_default_record_witness :
  let c := classify_detection default "xyz_unrecognized_tag" 0.6%Q in
  cl_severity c = "unknown"
  /\ cl_spreading_rate c = None
  /\ (cl_weighted_impact c == 30)%Q.
Proof.
  intros c.
  destruct (unmatched_label_default_record default "xyz_unrecognized_tag" 0.6%Q)
    as (_ & _ & Hsev & _ & _ & _ & Hspread & Hw).
  - vm_compute. reflexivity.
  - split; [exact Hsev | split; [exact Hspread |]].
    subst c. rewrite Hw. reflexivity.
Defined.

(** C8, as stated, fails: [healthy] has the type [environmental], one of the
    types without a block of its own, and its advice is the empty list, not
    the single sentence about consulting an expert. *)
Lemma healthy_has_no_advice :
  (exists d : DiseaseInfo,
      get_disease_info default "healthy" = Some d /\ type d = ENVIRONMENTAL)
  /\ get_treatment_recommendations default "healthy" = []
  /\ get_treatment_recommendations default "healthy"
     <> ["Consult agricultural expert for proper diagnosis"].
Proof.
  split; [eexists; split; vm_compute; reflexivity |].
  split; [vm_compute; reflexivity | vm_compute; discriminate].
Qed.

(** C8, amended.  A label without table entry gets the single sentence
    about consulting an expert.  A label with an entry gets the block of its
    type: three sentences for fungal, bacterial, viral and pest, and nothing
    for nutritional and environmental.  When the severity of the entry is
    high or critical the urgency sentence is put in front of the block, so
    that the first two items are the urgency sentence and the first sentence
    of the block. *)
Theorem treatment_template (self : DiseaseClassifier.t) (disease_name : string) :
  let recs := get_treatment_recommendations self disease_name in
  match get_disease_info self disease_name with
  | None => recs = ["Consult agricultural expert for proper diagnosis"]
  | Some d =>
      let block :=
        match type d with
        | FUNGAL =>
            [ "Apply appropriate fungicide treatment";
              "Improve air circulation around plants";
              "Avoid overhead watering" ]
        | BACTERIAL =>
            [ "Remove and destroy infected plant material";
              "Apply copper-based bactericide if available";
              "Avoid working with wet plants" ]
        | VIRAL =>
            [ "Remove infected plants to prevent spread";
              "Control insect vectors";
              "Use virus-free planting material" ]
        | PEST =>
            [ "Apply appropriate insecticide or miticide";
              "Use biological control methods if available";
              "Monitor pest population regularly" ]
        | NUTRITIONAL | ENVIRONMENTAL => []
        end in
      match severity d with
      | HIGH | CRITICAL =>
          recs = "URGENT: Take immediate action" :: block
          /\ take 2 recs = "URGENT: Take immediate action" :: take 1 block
      | LOW | MEDIUM => recs = block
      end
  end.
Proof.
  unfold get_treatment_recommendations.
  destruct (get_disease_info self disease_name) as [d|]; [|reflexivity].
  destruct d as [n ty sev imp spread prio]; simpl.
  destruct sev, ty; simpl; try split; reflexivity.
Qed.

End Classification.

(** ** Arithmetic of the built-ins *)

Section Arithmetic.

Local Open Scope Q_scope.

Lemma py_max_Qmax (a b : Q) : Py.max a b == Qmax a b.
Proof.
  unfold Py.max. destruct (Qlt_le_dec a b) as [H|H].
  - symmetry. apply Q.max_r. by apply Qlt_le_weak.
  - symmetry. by apply Q.max_l.
Qed.

Lemma py_min_Qmin (a b : Q) : Py.min a b == Qmin a b.
Proof.
  unfold Py.min. destruct (Qlt_le_dec b a) as [H|H].
  - symmetry. apply Q.min_r. by apply Qlt_le_weak.
  - symmetry. by apply Q.min_l.
Qed.

Lemma py_sum_loop (l : list Q) (acc : Q) :
  fold_left Qplus l acc == acc + Spec.sum l.
Proof.
  revert acc. induction l as [|x l IH]; intros acc; simpl.
  - ring.
  - rewrite IH. ring.
Qed.

Lemma py_sum_spec (l : list Q) : Py.sum l == Spec.sum l.
Proof. unfold Py.sum. rewrite py_sum_loop. ring. Qed.

Lemma py_mean_spec (l : list Q) : Py.mean l == Spec.mean l.
Proof. unfold Py.mean, Spec.mean. by rewrite py_sum_spec. Qed.

Lemma sum_nonneg (l : list Q) : Forall (fun x => 0 <= x) l -> 0 <= Spec.sum l.
Proof.
  induction 1 as [|x l Hx _ IH]; simpl; [apply Qle_refl | lra].
Qed.

Lemma sum_at_most_length (l : list Q) :
  Forall (fun x => x <= 1) l -> Spec.sum l <= inject_Z (Z.of_nat (length l)).
Proof.
  induction 1 as [|x l Hx _ IH].
  - apply Qle_refl.
  - cbn [Spec.sum fold_right length]. fold (Spec.sum l).
    rewrite Nat2Z.inj_succ, <- Z.add_1_l, inject_Z_plus.
    change (inject_Z 1) with 1. apply Qplus_le_compat; assumption.
Qed.

Lemma length_pos_Q {A} (l : list A) : l <> [] -> 0 < inject_Z (Z.of_nat (length l)).
Proof.
  intros H. destruct l as [|a l]; [done|].
  change 0 with (inject_Z 0). rewrite <- Zlt_Qlt. simpl length. lia.
Qed.

End Arithmetic.

(** ** Analysis of the detections and the disease score *)

Section DetectionAnalysis.

Import DiseaseClassifier HealthScorer.
Local Open Scope Q_scope.

Variable loaded : list string.

Let self : HealthScorer.t := HealthScorer.init loaded.

Lemma set_area_fields (a : Q) (c : Classification) :
  cl_class_name (set_area a c) = cl_class_name c
  /\ cl_weighted_impact (set_area a c) = cl_weighted_impact c
  /\ cl_treatment_priority (set_area a c) = cl_treatment_priority c.
Proof. destruct c; repeat split; reflexivity. Qed.

(** The weighted impact and the priority of a classified detection come from
    the entry of its label, or from the default record. *)
Lemma classified_priority_bounds (d : DetectionResult) :
  (1 <= cl_treatment_priority (Spec.classified self d) <= 5)%Z.
Proof.
  unfold Spec.classified.
  destruct (set_area_fields (area d)
    (classify_detection (disease_classifier self) (class_name d) (confidence d)))
    as (_ & _ & ->).
  unfold classify_detection.
  destruct (get_disease_info (disease_classifier self) (class_name d))
    as [info|] eqn:E; simpl; [|lia].
  apply get_disease_info_Some in E as [_ ->]. apply build_entry_bounds.
Qed.

Lemma classified_weighted_nonneg (d : DetectionResult) :
  0 <= confidence d -> 0 <= cl_weighted_impact (Spec.classified self d).
Proof.
  intros Hc. unfold Spec.classified.
  destruct (set_area_fields (area d)
    (classify_detection (disease_classifier self) (class_name d) (confidence d)))
    as (_ & -> & _).
  unfold classify_detection.
  destruct (get_disease_info (disease_classifier self) (class_name d))
    as [info|] eqn:E; simpl.
  - apply get_disease_info_Some in E as [_ ->].
    apply Qmult_le_0_compat; [apply build_entry_bounds | exact Hc].
  - apply Qmult_le_0_compat; [discriminate | exact Hc].
Qed.

(** The state of the loop of [_analyze_detections] after the detections
    [ds], started from [acc]. *)
Lemma analyze_loop (ds : list DetectionResult) (acc : DiseaseAnalysis) :
  let r := fold_left (analyze_step self) ds acc in
  classified_detections r
  = classified_detections acc ++ map (Spec.classified self) ds
  /\ total_impact r
     == total_impact acc
        + Spec.sum (map cl_weighted_impact (map (Spec.classified self) ds))
  /\ max_priority r
     = fold_left Z.max
         (map cl_treatment_priority (map (Spec.classified self) ds))
         (max_priority acc)
  /\ affected_area r == affected_area acc + Spec.sum (map area ds).
Proof.
  revert acc. induction ds as [|d ds IH]; intros acc.
  - cbn. rewrite app_nil_r. repeat split; try reflexivity; ring.
  - cbn [fold_left map]. destruct (IH (analyze_step self acc d)) as (H1 & H2 & H3 & H4).
    cbv zeta. rewrite H1, H2, H3, H4. clear H1 H2 H3 H4 IH.
    unfold analyze_step at 1 2 3 4; cbn [classified_detections total_impact
      max_priority affected_area Spec.sum fold_right].
    fold (Spec.classified self d).
    repeat split; try reflexivity.
    + by rewrite <- app_assoc.
    + unfold Spec.sum. ring.
    + unfold Spec.sum. ring.
Qed.

Lemma analysis_fields (ds : list DetectionResult) :
  let a := _analyze_detections self ds in
  let cds := map (Spec.classified self) ds in
  classified_detections a = cds
  /\ total_impact a == Spec.sum (map cl_weighted_impact cds)
  /\ max_priority a = fold_left Z.max (map cl_treatment_priority cds) 0%Z
  /\ affected_area a == Spec.sum (map area ds)
  /\ detection_count a = length ds.
Proof.
  unfold _analyze_detections.
  destruct (analyze_loop ds (mkAnalysis [] 0 0%Z 0 0%nat)) as (H1 & H2 & H3 & H4).
  cbn [classified_detections total_impact max_priority affected_area
       detection_count] in *.
  repeat split; try assumption.
  - rewrite H2. ring.
  - rewrite H4. ring.
Qed.

(** The running maximum of the loop, started at 0, against the greatest
    element of the list. *)
Lemma max_fold_right_shift (x y : Z) (l : list Z) :
  fold_right Z.max (Z.max x y) l = Z.max y (fold_right Z.max x l).
Proof. induction l as [|z l IH]; simpl; [lia | rewrite IH; lia]. Qed.

Lemma max_loop_fold_right (l : list Z) (x : Z) :
  fold_left Z.max l x = fold_right Z.max x l.
Proof.
  revert x. induction l as [|y l IH]; intros x; simpl; [done|].
  by rewrite IH, max_fold_right_shift.
Qed.

Lemma max_loop_maximum (l : list Z) :
  Forall (fun p => 0 <= p)%Z l -> fold_left Z.max l 0%Z = Spec.maximum l.
Proof.
  intros H. destruct l as [|x l]; [done|].
  apply Forall_cons in H as [Hx _]. simpl.
  rewrite Z.max_r by exact Hx. apply max_loop_fold_right.
Qed.

Lemma max_loop_at_least (p : Z) (l : list Z) (x : Z) :
  (p <=? fold_left Z.max l x)%Z = (p <=? x)%Z || existsb (fun y => p <=? y)%Z l.
Proof.
  revert x. induction l as [|y l IH]; intros x; simpl.
  - by rewrite orb_false_r.
  - rewrite IH, orb_assoc. f_equal.
    destruct (Z.leb_spec p (Z.max x y)), (Z.leb_spec p x), (Z.leb_spec p y);
      simpl; (reflexivity || lia).
Qed.

Lemma existsb_through_map {A B} (f : B -> bool) (g : A -> B) (l : list A) :
  existsb f (map g l) = existsb (fun a => f (g a)) l.
Proof. induction l as [|a l IH]; simpl; [done | by rewrite IH]. Qed.

Lemma max_priority_at_least (p : Z) (ds : list DetectionResult) :
  (1 <= p)%Z ->
  (p <=? max_priority (_analyze_detections self ds))%Z
  = Spec.some_priority_at_least p (map (Spec.classified self) ds).
Proof.
  intros Hp. destruct (analysis_fields ds) as (_ & _ & -> & _).
  rewrite max_loop_at_least. unfold Spec.some_priority_at_least.
  rewrite existsb_through_map.
  destruct (Z.leb_spec p 0); [lia | reflexivity].
Qed.

Lemma max_priority_maximum (ds : list DetectionResult) :
  max_priority (_analyze_detections self ds)
  = Spec.maximum (map cl_treatment_priority (map (Spec.classified self) ds)).
Proof.
  destruct (analysis_fields ds) as (_ & _ & -> & _).
  apply max_loop_maximum. rewrite !Forall_map. apply Forall_forall.
  intros d _. pose proof (classified_priority_bounds d). simpl. lia.
Qed.

(** The three penalties of a non-empty detection list, in closed form. *)
Lemma disease_score_nonempty (ds : list DetectionResult) :
  ds <> [] ->
  let cds := map (Spec.classified self) ds in
  _calculate_disease_score (_analyze_detections self ds)
  == Qmax 0 (100 - (Spec.mean (map cl_weighted_impact cds)
                    + Qmin 30 (Spec.sum (map area ds) * 100)
                    + inject_Z (Spec.maximum (map cl_treatment_priority cds)) * 5)).
Proof.
  intros Hne. cbv zeta. unfold _calculate_disease_score.
  rewrite max_priority_maximum.
  destruct (analysis_fields ds) as (_ & Himpact & _ & Harea & Hcount).
  rewrite Hcount. destruct ds as [|d ds']; [done|].
  cbn [length Nat.eqb].
  rewrite py_max_Qmax, py_min_Qmin, Himpact, Harea, inject_Z_mult.
  unfold Spec.mean. rewrite !length_map. reflexivity.
Qed.

(** C4.  The classified detections are the detections joined with their
    records, in order.  Without detections the disease score is 100.
    Otherwise it is the greater of 0 and 100 less three penalties: the mean
    weighted impact of the classified detections, the lesser of 30 and 100
    times the summed area, and 5 times the greatest treatment priority. *)
Theorem disease_score_formula (ds : list DetectionResult) :
  let analysis := _analyze_detections self ds in
  let cds := classified_detections analysis in
  cds = map (Spec.classified self) ds
  /\ match ds with
     | [] => _calculate_disease_score analysis = 100
     | _ :: _ =>
         _calculate_disease_score analysis
         == Qmax 0 (100 - Spec.mean (map cl_weighted_impact cds)
                        - Qmin 30 (Spec.sum (map area ds) * 100)
                        - inject_Z (Spec.maximum (map cl_treatment_priority cds)) * 5)
     end.
Proof.
  intros analysis cds.
  assert (Hcds : cds = map (Spec.classified self) ds)
    by apply (analysis_fields ds).
  split; [exact Hcds |].
  destruct ds as [|d ds'] eqn:Eds; [reflexivity |].
  subst analysis. rewrite Hcds, disease_score_nonempty by done.
  apply Q.max_compat; [reflexivity | ring].
Qed.

Lemma mean_nonneg (l : list Q) :
  l <> [] -> Forall (fun x => 0 <= x) l -> 0 <= Spec.mean l.
Proof.
  intros Hne Hl. unfold Spec.mean.
  apply Qle_shift_div_l; [by apply length_pos_Q |].
  rewrite Qmult_0_l. by apply sum_nonneg.
Qed.

Lemma healthy_classified (d : DetectionResult) :
  "healthy" ∈ loaded -> class_name d = "healthy" ->
  cl_weighted_impact (Spec.classified self d) == 0
  /\ cl_treatment_priority (Spec.classified self d) = 1%Z.
Proof.
  intros Hin Hd. unfold Spec.classified.
  destruct (set_area_fields (area d)
    (classify_detection (disease_classifier self) (class_name d) (confidence d)))
    as (_ & -> & ->).
  unfold classify_detection, get_disease_info, self, init, DiseaseClassifier.init.
  cbn [disease_classifier disease_db]. rewrite build_lookup, Hd.
  rewrite decide_True by exact Hin.
  change (build_entry "healthy")
    with (mkDiseaseInfo "healthy" ENVIRONMENTAL LOW 0 "none" 1).
  cbn. split; [ring | reflexivity].
Qed.

Lemma all_healthy_penalties (ds : list DetectionResult) :
  "healthy" ∈ loaded -> ds <> [] ->
  Forall (fun d => class_name d = "healthy") ds ->
  let cds := map (Spec.classified self) ds in
  Spec.sum (map cl_weighted_impact cds) == 0
  /\ Spec.maximum (map cl_treatment_priority cds) = 1%Z.
Proof.
  intros Hin Hne Hall.
  assert (Hsum : Spec.sum (map cl_weighted_impact (map (Spec.classified self) ds)) == 0).
  { clear Hne. induction Hall as [|d ds' Hd _ IH]; [reflexivity|].
    cbn [map Spec.sum fold_right]. fold (Spec.sum (map cl_weighted_impact
      (map (Spec.classified self) ds'))).
    destruct (healthy_classified d Hin Hd) as [-> _]. rewrite IH. ring. }
  split; [exact Hsum |].
  destruct ds as [|d ds']; [done|].
  apply Forall_cons in Hall as [Hd Hall]. cbn [map Spec.maximum].
  destruct (healthy_classified d Hin Hd) as [_ ->].
  clear Hsum Hne. induction Hall as [|e ds'' He _ IH]; [reflexivity|].
  cbn [map fold_right]. destruct (healthy_classified e Hin He) as [_ ->].
  rewrite IH. reflexivity.
Qed.

(** C10.  With at least one detection, confidences and areas not negative,
    the disease score is at most 95, hence below the 100 of an empty
    detection list.  When every detection is labelled [healthy] (impact
    score 0, priority 1) the score is 95 less the area penalty. *)
Theorem detections_cost_at_least_five (ds : list DetectionResult) :
  ds <> [] ->
  Forall (fun d => 0 <= confidence d /\ 0 <= area d) ds ->
  let score := _calculate_disease_score (_analyze_detections self ds) in
  score <= 95
  /\ score < 100
  /\ ("healthy" ∈ loaded ->
      Forall (fun d => class_name d = "healthy") ds ->
      score == 95 - Qmin 30 (Spec.sum (map area ds) * 100)).
Proof.
  intros Hne Hwf score. subst score.
  rewrite disease_score_nonempty by exact Hne.
  set (cds := map (Spec.classified self) ds).
  assert (Hbase : 0 <= Spec.mean (map cl_weighted_impact cds)).
  { apply mean_nonneg.
    - subst cds. destruct ds; [done | discriminate].
    - subst cds. rewrite !Forall_map. eapply Forall_impl; [exact Hwf|].
      intros d [Hc _]. by apply classified_weighted_nonneg. }
  assert (Harea : 0 <= Qmin 30 (Spec.sum (map area ds) * 100)).
  { apply Q.min_glb; [discriminate|].
    apply Qmult_le_0_compat; [|discriminate].
    apply sum_nonneg. rewrite Forall_map. eapply Forall_impl; [exact Hwf|].
    by intros d [_ Ha]. }
  assert (Hprio : 1 <= inject_Z (Spec.maximum (map cl_treatment_priority cds))).
  { subst cds. change 1 with (inject_Z 1). rewrite <- Zle_Qle.
    rewrite <- max_priority_maximum, <- Z.leb_le, max_priority_at_least by lia.
    destruct ds as [|d ds']; [done|]. cbn.
    pose proof (classified_priority_bounds d) as [Hp _].
    apply Z.leb_le in Hp. by rewrite Hp. }
  assert (Hle : Qmax 0 (100 - (Spec.mean (map cl_weighted_impact cds)
                   + Qmin 30 (Spec.sum (map area ds) * 100)
                   + inject_Z (Spec.maximum (map cl_treatment_priority cds)) * 5))
                <= 95).
  { apply Q.max_lub; [discriminate | lra]. }
  split; [exact Hle | split; [lra |]].
  intros Hin Hall.
  destruct (all_healthy_penalties ds Hin Hne Hall) as [Hsum Hmax].
  fold cds in Hsum, Hmax. unfold Spec.mean. rewrite Hsum, Hmax.
  pose proof (Q.le_min_l 30 (Spec.sum (map area ds) * 100)) as Hmin.
  change (inject_Z 1) with 1.
  assert (Hz : 0 / inject_Z (Z.of_nat (length (map cl_weighted_impact cds))) == 0)
    by (unfold Qdiv; ring).
  rewrite Hz, Q.max_r by lra. ring.
Qed.

End DetectionAnalysis.

Lemma detections_cost_at_least_five_witness :
  let ds := [ HealthScorer.mkDetection "healthy" 0.9%Q (0.5, 0.5, 0.5, 0.2)%Q 0.1%Q ] in
  (HealthScorer._calculate_disease_score
     (HealthScorer._analyze_detections
        (HealthScorer.init DiseaseClassifier._get_default_classes) ds)
   <= 95)%Q.
Proof.
  intros ds.
  refine (proj1 (detections_cost_at_least_five
                   DiseaseClassifier._get_default_classes ds _ _)).
  - discriminate.
  - repeat constructor; discriminate.
Defined.

(** ** Scores of the sensor values *)

Section EnvironmentalScore.

Import Config HealthScorer.
Local Open Scope Q_scope.

Lemma Qle_bool_false (x y : Q) : Qle_bool x y = false -> y < x.
Proof.
  intros H. apply Qnot_le_lt. intros Hle.
  apply Qle_bool_iff in Hle. congruence.
Qed.

Lemma Qeq_bool_width (mn mx : Q) : mn < mx -> Qeq_bool (mx - mn) 0 = false.
Proof.
  intros H. destruct (Qeq_bool (mx - mn) 0) eqn:E; [|reflexivity].
  apply Qeq_bool_eq in E. lra.
Qed.

(** Below the range, inside it, or above it. *)
Lemma range_cases (mn mx v : Q) :
  mn < mx ->
  (v < mn /\ Qle_bool mn v = false /\ Spec.distance mn mx v = mn - v)
  \/ (mn <= v <= mx /\ Qle_bool mn v = true /\ Qle_bool v mx = true
      /\ Spec.distance mn mx v = 0)
  \/ (mx < v /\ Qle_bool mn v = true /\ Qle_bool v mx = false
      /\ Spec.distance mn mx v = v - mx).
Proof.
  intros Hw. unfold Spec.distance.
  destruct (Qlt_le_dec v mn) as [Hlo|Hlo].
  - left. split; [exact Hlo | split; [|reflexivity]].
    destruct (Qle_bool mn v) eqn:E; [|reflexivity].
    apply Qle_bool_iff in E. lra.
  - right. assert (E1 : Qle_bool mn v = true) by by apply Qle_bool_iff.
    destruct (Qlt_le_dec mx v) as [Hhi|Hhi].
    + right. split; [exact Hhi | split; [exact E1 | split; [|reflexivity]]].
      destruct (Qle_bool v mx) eqn:E; [|reflexivity].
      apply Qle_bool_iff in E. lra.
    + left. repeat split; try assumption. by apply Qle_bool_iff.
Qed.

(** The value returned by [_score_parameter], by the distance from the
    range. *)
Lemma score_parameter_distance (mn mx v : Q) :
  mn < mx ->
  exists s, _score_parameter v (mn, mx) = Some s
            /\ s == Qmax 0 (100 - 100 * Spec.distance mn mx v / (mx - mn)).
Proof.
  intros Hw. unfold _score_parameter, Qlt_bool.
  rewrite (Qeq_bool_width mn mx Hw).
  destruct (range_cases mn mx v Hw)
    as [(H & E1 & ->)|[(H & E1 & E2 & ->)|(H & E1 & E2 & ->)]];
    rewrite E1; try rewrite E2; cbn [andb negb]; eexists; (split; [reflexivity|]).
  - rewrite py_max_Qmax. apply Q.max_compat; [reflexivity|]. field. lra.
  - assert (Hz : 100 - 100 * 0 / (mx - mn) == 100) by (field; lra).
    rewrite Hz. symmetry. apply Q.max_r. discriminate.
  - rewrite py_max_Qmax. apply Q.max_compat; [reflexivity|]. field. lra.
Qed.

Lemma spec_score_distance (mn mx v : Q) :
  mn < mx ->
  Spec.score mn mx v == Qmax 0 (100 - 100 * Spec.distance mn mx v / (mx - mn)).
Proof.
  intros Hw. unfold Spec.score, Spec.nearest_bound.
  destruct (range_cases mn mx v Hw)
    as [(H & E1 & ->)|[(H & E1 & E2 & ->)|(H & E1 & E2 & ->)]];
    rewrite E1; try rewrite E2; cbn [andb].
  - destruct (Qlt_le_dec v mn) as [_|Hc]; [|lra].
    apply Q.max_compat; [reflexivity|].
    rewrite Qabs_neg by lra. field. lra.
  - assert (Hz : 100 - 100 * 0 / (mx - mn) == 100) by (field; lra).
    rewrite Hz. symmetry. apply Q.max_r. discriminate.
  - destruct (Qlt_le_dec v mn) as [Hc|_]; [lra|].
    apply Q.max_compat; [reflexivity|].
    rewrite Qabs_pos by lra. reflexivity.
Qed.

Lemma score_parameter_spec (mn mx v : Q) :
  mn < mx ->
  exists s, _score_parameter v (mn, mx) = Some s /\ s == Spec.score mn mx v.
Proof.
  intros Hw. destruct (score_parameter_distance mn mx v Hw) as (s & Hs & Hv).
  exists s. split; [exact Hs|]. by rewrite Hv, spec_score_distance.
Qed.

Lemma distance_penalty_monotone (mn mx d1 d2 : Q) :
  mn < mx -> d1 <= d2 ->
  Qmax 0 (100 - 100 * d2 / (mx - mn)) <= Qmax 0 (100 - 100 * d1 / (mx - mn)).
Proof.
  intros Hw Hd. apply Q.max_le_compat_l.
  assert (Hdiv : 100 * d1 / (mx - mn) <= 100 * d2 / (mx - mn)).
  { unfold Qdiv. apply Qmult_le_compat_r; [lra|].
    apply Qlt_le_weak, Qinv_lt_0_compat. lra. }
  lra.
Qed.

Lemma optimal_ranges_have_width :
  Forall (fun '(_, (mn, mx)) => mn < mx) OPTIMAL_RANGES.
Proof. repeat constructor. Qed.

Lemma sum_respects_Qeq (l l' : list Q) :
  Forall2 Qeq l l' -> Spec.sum l == Spec.sum l' /\ length l = length l'.
Proof.
  induction 1 as [|x y l l' Hxy _ [IHs IHl]]; [done|].
  cbn [Spec.sum fold_right length]. fold (Spec.sum l) (Spec.sum l').
  split; [by rewrite Hxy, IHs | by rewrite IHl].
Qed.

Lemma mean_respects_Qeq (l l' : list Q) :
  Forall2 Qeq l l' -> Spec.mean l == Spec.mean l'.
Proof.
  intros H. destruct (sum_respects_Qeq l l' H) as [Hs Hl].
  unfold Spec.mean. by rewrite Hs, Hl.
Qed.

(** The loop over the ranges: every present parameter contributes its score,
    in order, and no division fails when every range has a width. *)
Lemma collect_scores_spec (sensor_data : SensorData)
    (ranges : list (string * (Q * Q))) (scores : list Q) :
  Forall (fun '(_, (mn, mx)) => mn < mx) ranges ->
  exists l, collect_scores sensor_data ranges scores = Some (scores ++ l)
            /\ Forall2 Qeq l (flat_map (Spec.present_score sensor_data) ranges).
Proof.
  intros Hw. revert scores.
  induction Hw as [|[param [mn mx]] ranges Hw1 _ IH]; intros scores.
  - exists []. split; [by rewrite app_nil_r | constructor].
  - cbn [collect_scores flat_map Spec.present_score].
    destruct (getattr sensor_data param) as [v|].
    + destruct (score_parameter_spec mn mx v Hw1) as (s & -> & Hs).
      destruct (IH (scores ++ [s])) as (l & -> & Hl).
      exists (s :: l). split; [by rewrite <- app_assoc |].
      by constructor.
    + destruct (IH scores) as (l & -> & Hl). by exists l.
Qed.

Lemma environmental_score_present (sensor_data : SensorData) :
  exists e, _calculate_environmental_score (Some sensor_data) = Some e
            /\ e == match Spec.present_scores sensor_data with
                    | [] => 75
                    | l => Spec.mean l
                    end.
Proof.
  unfold _calculate_environmental_score, Spec.present_scores.
  destruct (collect_scores_spec sensor_data OPTIMAL_RANGES []
              optimal_ranges_have_width) as (l & -> & Hl).
  cbn [app]. destruct Hl as [|s s' l l' Hs Hl].
  - by exists 75.
  - eexists. split; [reflexivity |].
    rewrite py_mean_spec. apply mean_respects_Qeq. by constructor.
Qed.

(** C5.  For a range with [mn < mx] (each of the four fixed ranges is one)
    the score of a value is defined and is 100 inside the range, otherwise
    the greater of 0 and 100 less 100 times the distance to the nearest bound
    over the width; the score is 100 at both bounds and 0 one width below
    the lower bound; a value at least as far from the range as another
    scores no more.  Without a sensor reading the environmental score is
    75; with one it is the mean of the scores of the parameters that are
    present (and 75 when none is). *)
Theorem environmental_scoring (mn mx : Q) :
  mn < mx ->
  (forall v, exists s, _score_parameter v (mn, mx) = Some s
                       /\ s == Spec.score mn mx v)
  /\ _score_parameter mn (mn, mx) = Some 100
  /\ _score_parameter mx (mn, mx) = Some 100
  /\ (exists z, _score_parameter (mn - (mx - mn)) (mn, mx) = Some z /\ z == 0)
  /\ (forall v w s t,
        _score_parameter v (mn, mx) = Some s ->
        _score_parameter w (mn, mx) = Some t ->
        Spec.distance mn mx v <= Spec.distance mn mx w ->
        t <= s)
  /\ _calculate_environmental_score None = Some 75
  /\ (forall sensor_data,
        exists e, _calculate_environmental_score (Some sensor_data) = Some e
                  /\ e == match Spec.present_scores sensor_data with
                          | [] => 75
                          | l => Spec.mean l
                          end).
Proof.
  intros Hw.
  assert (Hmn : Qle_bool mn mn = true) by (apply Qle_bool_iff; lra).
  assert (Hmx : Qle_bool mx mx = true) by (apply Qle_bool_iff; lra).
  assert (Hmm : Qle_bool mn mx = true) by (apply Qle_bool_iff; lra).
  split; [intros v; by apply score_parameter_spec |].
  split; [unfold _score_parameter; by rewrite Hmn, Hmm |].
  split; [unfold _score_parameter; by rewrite Hmm, Hmx |].
  split.
  { destruct (score_parameter_distance mn mx (mn - (mx - mn)) Hw) as (z & Hz & Hv).
    exists z. split; [exact Hz|]. rewrite Hv.
    destruct (range_cases mn mx (mn - (mx - mn)) Hw)
      as [(H & _ & ->)|[(H & _)|(H & _)]]; [|lra|lra].
    rewrite Q.max_l; [reflexivity|].
    assert (Hq : 100 - 100 * (mn - (mn - (mx - mn))) / (mx - mn) == 0)
      by (field; lra).
    rewrite Hq. apply Qle_refl. }
  split.
  { intros v w s t Hs Ht Hd.
    destruct (score_parameter_distance mn mx v Hw) as (s' & Hs' & Hsv).
    destruct (score_parameter_distance mn mx w Hw) as (t' & Ht' & Htv).
    rewrite Hs in Hs'. rewrite Ht in Ht'.
    injection Hs' as <-. injection Ht' as <-.
    rewrite Hsv, Htv. by apply distance_penalty_monotone. }
  split; [reflexivity | apply environmental_score_present].
Qed.

End EnvironmentalScore.

Lemma environmental_scoring_witness :
  HealthScorer._score_parameter 18 (18, 30)%Q = Some 100%Q
  /\ HealthScorer._score_parameter 30 (18, 30)%Q = Some 100%Q
  /\ (exists z, HealthScorer._score_parameter (18 - (30 - 18)) (18, 30)%Q = Some z
                /\ (z == 0)%Q).
Proof.
  destruct (environmental_scoring 18 30) as (_ & Hlo & Hhi & Hfar & _).
  - reflexivity.
  - exact (conj Hlo (conj Hhi Hfar)).
Defined.

(** ** Risk level *)

Section RiskLevel.

Import DiseaseClassifier HealthScorer.
Local Open Scope Q_scope.

Variable loaded : list string.

Let self : HealthScorer.t := HealthScorer.init loaded.

Lemma base_risk_thresholds (h : Q) :
  (Spec.base_risk h = "low" <-> 80 <= h)
  /\ (Spec.base_risk h = "medium" <-> 60 <= h < 80)
  /\ (Spec.base_risk h = "high" <-> 30 <= h < 60)
  /\ (Spec.base_risk h = "critical" <-> h < 30).
Proof.
  unfold Spec.base_risk.
  destruct (Qlt_le_dec h 30), (Qlt_le_dec h 60), (Qlt_le_dec h 80);
    repeat split; intros; try discriminate; try lra; try reflexivity.
Qed.

Lemma threshold_chain_base_risk (h : Q) :
  (if Qle_bool 80 h then "low"
   else if Qle_bool 60 h then "medium"
   else if Qle_bool 30 h then "high"
   else "critical") = Spec.base_risk h.
Proof.
  unfold Spec.base_risk.
  destruct (Qle_bool 80 h) eqn:E80;
    [apply Qle_bool_iff in E80 | apply Qle_bool_false in E80];
  (destruct (Qle_bool 60 h) eqn:E60;
    [apply Qle_bool_iff in E60 | apply Qle_bool_false in E60]);
  (destruct (Qle_bool 30 h) eqn:E30;
    [apply Qle_bool_iff in E30 | apply Qle_bool_false in E30]);
  destruct (Qlt_le_dec h 30), (Qlt_le_dec h 60), (Qlt_le_dec h 80);
  (reflexivity || lra).
Qed.

(** C6.  The classified detections of the analysis are the detections
    joined with their records, in order.  The risk level is the one the
    thresholds give to the overall health (low from 80, medium from 60, high
    from 30, critical below), moved one tier up when it is low or medium and
    some detection is classified with a treatment priority of at least 4;
    high and critical stay as they are.  The result is never lower than the
    level of the thresholds and at most one tier above. *)
Theorem risk_level_rule (ds : list DetectionResult) (health_score : Q) :
  let analysis := _analyze_detections self ds in
  let cds := map (Spec.classified self) ds in
  let urgent := Spec.some_priority_at_least 4 cds in
  let base := Spec.base_risk health_score in
  let risk := _determine_risk_level health_score analysis in
  classified_detections analysis = cds
  /\ (urgent = true <->
      exists d, d ∈ ds
        /\ (4 <= cl_treatment_priority
                   (classify_detection (disease_classifier self)
                      (class_name d) (confidence d)))%Z)
  /\ risk = (if urgent then Spec.escalate base else base)
  /\ (base = "low" <-> 80 <= health_score)
  /\ (base = "medium" <-> 60 <= health_score < 80)
  /\ (base = "high" <-> 30 <= health_score < 60)
  /\ (base = "critical" <-> health_score < 30)
  /\ Spec.escalate "low" = "medium"
  /\ Spec.escalate "medium" = "high"
  /\ Spec.escalate "high" = "high"
  /\ Spec.escalate "critical" = "critical"
  /\ (Spec.rank base <= Spec.rank risk <= S (Spec.rank base))%nat.
Proof.
  intros analysis cds urgent base risk.
  assert (Hcds : classified_detections analysis = cds)
    by apply (analysis_fields loaded ds).
  assert (Hurgent : urgent = true <->
            exists d, d ∈ ds
              /\ (4 <= cl_treatment_priority
                         (classify_detection (disease_classifier self)
                            (class_name d) (confidence d)))%Z).
  { subst urgent cds. unfold Spec.some_priority_at_least.
    rewrite existsb_through_map, existsb_exists.
    split; intros (d & Hd & Hp); exists d.
    - apply list_elem_of_In in Hd. split; [exact Hd|].
      apply Z.leb_le in Hp. unfold Spec.classified in Hp.
      by destruct (set_area_fields (area d)
        (classify_detection (disease_classifier self) (class_name d)
           (confidence d))) as (_ & _ & <-).
    - apply list_elem_of_In in Hd. split; [exact Hd|].
      apply Z.leb_le. unfold Spec.classified.
      by destruct (set_area_fields (area d)
        (classify_detection (disease_classifier self) (class_name d)
           (confidence d))) as (_ & _ & ->). }
  assert (Hrisk : risk = if urgent then Spec.escalate base else base).
  { subst risk urgent base cds analysis self. unfold _determine_risk_level.
    rewrite threshold_chain_base_risk, max_priority_at_least by lia.
    reflexivity. }
  split; [exact Hcds |]. split; [exact Hurgent |]. split; [exact Hrisk |].
  destruct (base_risk_thresholds health_score) as (H1 & H2 & H3 & H4).
  repeat (split; [first [assumption | reflexivity] |]).
  rewrite Hrisk. subst base. unfold Spec.base_risk.
  destruct urgent, (Qlt_le_dec health_score 30), (Qlt_le_dec health_score 60),
    (Qlt_le_dec health_score 80); cbn; lia.
Qed.

End RiskLevel.

(** ** Recommendations *)

Section Recommendations.

Import DiseaseClassifier HealthScorer.

Variable loaded : list string.

Let self : HealthScorer.t := HealthScorer.init loaded.

Lemma extend_loop {A} (f : A -> list string) (l : list A) (acc : list string) :
  fold_left (fun acc a => acc ++ f a) l acc = acc ++ flat_map f l.
Proof.
  revert acc. induction l as [|a l IH]; intros acc; simpl.
  - by rewrite app_nil_r.
  - by rewrite IH, <- app_assoc.
Qed.

Lemma extend_with_treatments_spec (cds : list Classification)
    (acc : list string) :
  extend_with_treatments self cds acc = acc ++ Spec.treatment_part self cds.
Proof. unfold extend_with_treatments, Spec.treatment_part. apply extend_loop. Qed.

(** The loop with [seen] and [unique_recs]: what it appends to
    [unique_recs] are the first occurrences that are not in [seen]. *)
Lemma unique_loop (l : list string) (seen : gset string) (u : list string) :
  snd (fold_left unique_step l (seen, u))
  = u ++ filter (fun x => x ∉ seen) (Spec.dedup l).
Proof.
  revert seen u. induction l as [|x l IH]; intros seen u.
  - cbn. by rewrite app_nil_r.
  - cbn [fold_left Spec.dedup]. unfold unique_step at 2.
    destruct (decide (x ∈ seen)) as [Hin|Hout].
    + rewrite IH, filter_cons_False by (intros Hn; by apply Hn).
      rewrite list_filter_filter. f_equal. apply list_filter_iff.
      intros y. split; [|tauto]. intros Hy. split; [exact Hy|].
      intros ->. contradiction.
    + rewrite IH, filter_cons_True by exact Hout.
      rewrite list_filter_filter, <- app_assoc. cbn [app]. do 2 f_equal.
      apply list_filter_iff. intros y.
      rewrite not_elem_of_union, not_elem_of_singleton. tauto.
Qed.

Lemma filter_keeps_all {A} (P : A -> Prop) `{forall x, Decision (P x)}
    (l : list A) :
  (forall x, P x) -> filter P l = l.
Proof.
  intros HP. induction l as [|x l IH]; [done|].
  by rewrite filter_cons_True, IH.
Qed.

Lemma remove_duplicates_dedup (l : list string) :
  remove_duplicates l = Spec.dedup l.
Proof.
  unfold remove_duplicates. rewrite unique_loop. cbn [app].
  apply filter_keeps_all. intros x. apply not_elem_of_empty.
Qed.

Lemma dedup_elements (l : list string) (x : string) :
  x ∈ Spec.dedup l <-> x ∈ l.
Proof.
  induction l as [|y l IH]; [done|]. cbn [Spec.dedup].
  rewrite !elem_of_cons, list_elem_of_filter, IH.
  destruct (decide (x = y)); tauto.
Qed.

Lemma dedup_NoDup (l : list string) : NoDup (Spec.dedup l).
Proof.
  induction l as [|y l IH]; [constructor|]. cbn [Spec.dedup].
  constructor; [|by apply NoDup_filter].
  rewrite list_elem_of_filter. tauto.
Qed.

(** C7.  The recommendation list is made of at most two treatment
    recommendations for each of the first three classified detections, in
    detection order, then the environmental recommendations when a sensor
    reading is given, then the follow-up sentence when some classified
    detection has a treatment priority of at least 3; of equal strings only
    the first stays, and at most the first eight entries are kept. *)
Theorem recommendations_assembly (ds : list DetectionResult)
    (sensor_data : option SensorData) :
  let analysis := _analyze_detections self ds in
  let cds := classified_detections analysis in
  let recs := _generate_recommendations self analysis sensor_data in
  cds = map (Spec.classified self) ds
  /\ recs = take 8 (Spec.dedup (Spec.treatment_part self cds
                                ++ Spec.environmental_part sensor_data
                                ++ Spec.follow_up_part cds))
  /\ NoDup recs
  /\ (length recs <= 8)%nat.
Proof.
  intros analysis cds recs.
  assert (Hcds : cds = map (Spec.classified self) ds)
    by apply (analysis_fields loaded ds).
  assert (Hrecs : recs = take 8 (Spec.dedup (Spec.treatment_part self cds
                                ++ Spec.environmental_part sensor_data
                                ++ Spec.follow_up_part cds))).
  { subst recs. unfold _generate_recommendations.
    rewrite remove_duplicates_dedup, extend_with_treatments_spec.
    subst analysis self. rewrite max_priority_at_least by lia.
    rewrite <- Hcds.
    unfold Spec.follow_up_part, Spec.environmental_part. cbn [app].
    destruct sensor_data as [sd|],
             (Spec.some_priority_at_least 3 cds);
      rewrite <- ?app_assoc, ?app_nil_r; reflexivity. }
  split; [exact Hcds | split; [exact Hrecs |]].
  rewrite Hrecs. split.
  - eapply sublist_NoDup; [apply dedup_NoDup | apply sublist_take].
  - apply firstn_le_length.
Qed.

End Recommendations.

(** ** Confidence and the assessment as a whole *)

Section Assessment.

Import Config DiseaseClassifier HealthScorer.
Local Open Scope Q_scope.

Lemma available_sensors_count (sensor_data : SensorData) :
  Z.of_nat (available_sensors sensor_data) = Spec.present_count sensor_data.
Proof. destruct sensor_data as [[t|] [h|] [m|] [p|]]; reflexivity. Qed.

Lemma mean_at_most_one (l : list Q) :
  l <> [] -> Forall (fun x => x <= 1) l -> Spec.mean l <= 1.
Proof.
  intros Hne Hl. unfold Spec.mean.
  apply Qle_shift_div_r; [by apply length_pos_Q |].
  rewrite Qmult_1_l. by apply sum_at_most_length.
Qed.

(** The two signals that [_calculate_confidence] averages. *)
Lemma confidence_value (detections : list DetectionResult)
    (sensor_data : option SensorData) :
  _calculate_confidence detections sensor_data
  == (match detections with
      | [] => 90
      | _ :: _ => Spec.mean (map confidence detections) * 100
      end
      + match sensor_data with
        | None => 50
        | Some sd => inject_Z (Spec.present_count sd) / 4 * 100
        end) / 2.
Proof.
  unfold _calculate_confidence.
  destruct detections as [|d ds], sensor_data as [sd|];
    cbn [app]; unfold Py.mean at 1; unfold Py.sum; cbn [fold_left length];
    rewrite ?available_sensors_count, ?py_mean_spec;
    change (inject_Z (Z.of_nat 2)) with 2; field.
Qed.

Lemma analyze_params_defined (sensor_data : SensorData)
    (ranges : list (string * (Q * Q))) (analysis : list (string * ParamAnalysis)) :
  Forall (fun '(_, (mn, mx)) => mn < mx) ranges ->
  is_Some (analyze_params sensor_data ranges analysis).
Proof.
  intros Hw. revert analysis.
  induction Hw as [|[param [mn mx]] ranges Hw1 _ IH]; intros analysis.
  - by eexists.
  - cbn [analyze_params]. destruct (getattr sensor_data param) as [v|]; [|apply IH].
    destruct (score_parameter_spec mn mx v Hw1) as (s & -> & _). apply IH.
Qed.

(** For every class list, detection list and optional sensor reading the
    scorer returns an assessment: no division by a range of width zero
    occurs. *)
Lemma calculate_health_score_defined (self : HealthScorer.t)
    (detections : list DetectionResult) (sensor_data : option SensorData) :
  is_Some (calculate_health_score self detections sensor_data).
Proof.
  unfold calculate_health_score.
  assert (Henv : is_Some (_calculate_environmental_score sensor_data)).
  { destruct sensor_data as [sd|]; [|by eexists].
    destruct (environmental_score_present sd) as (e & -> & _). by eexists. }
  destruct Henv as [env ->].
  assert (Hsa : is_Some (_analyze_sensor_data sensor_data)).
  { destruct sensor_data as [sd|]; [|by eexists].
    apply analyze_params_defined, optimal_ranges_have_width. }
  destruct Hsa as [sa ->]. by eexists.
Qed.

(** C9.  With every detection confidence between 0 and 1, the confidence of
    the assessment lies between 0 and 100.  It is the mean of two signals:
    100 times the mean detection confidence (90 without detections), and 100
    times the share of the four sensor fields that hold a value (50 without
    a sensor reading).  Without detections and without a sensor reading the
    confidence is 70, the overall health is 92.5 and the risk level is
    low. *)
Theorem confidence_blend (self : HealthScorer.t)
    (detections : list DetectionResult) (sensor_data : option SensorData) :
  Forall (fun d => 0 <= confidence d <= 1) detections ->
  let detection_signal :=
    match detections with
    | [] => 90
    | _ :: _ => Spec.mean (map confidence detections) * 100
    end in
  let sensor_signal :=
    match sensor_data with
    | None => 50
    | Some sd => inject_Z (Spec.present_count sd) / 4 * 100
    end in
  _calculate_confidence detections sensor_data
  == (detection_signal + sensor_signal) / 2
  /\ 0 <= _calculate_confidence detections sensor_data <= 100
  /\ (exists h, calculate_health_score self detections sensor_data = Some h
                /\ ha_confidence h = _calculate_confidence detections sensor_data)
  /\ (exists h, calculate_health_score self [] None = Some h
                /\ ha_confidence h == 70
                /\ overall_health h == 92.5
                /\ risk_level h = "low").
Proof.
  intros Hwf detection_signal sensor_signal.
  assert (Hdet : 0 <= detection_signal <= 100).
  { subst detection_signal. destruct detections as [|d ds]; [split; discriminate|].
    assert (Hlo : 0 <= Spec.mean (map confidence (d :: ds))).
    { apply mean_nonneg; [discriminate|]. rewrite Forall_map.
      eapply Forall_impl; [exact Hwf|]. by intros x [Hx _]. }
    assert (Hhi : Spec.mean (map confidence (d :: ds)) <= 1).
    { apply mean_at_most_one; [discriminate|]. rewrite Forall_map.
      eapply Forall_impl; [exact Hwf|]. by intros x [_ Hx]. }
    lra. }
  assert (Hsens : 0 <= sensor_signal <= 100).
  { subst sensor_signal. destruct sensor_data as [sd|]; [|split; discriminate].
    destruct sd as [[t|] [h|] [m|] [p|]]; split; discriminate. }
  pose proof (confidence_value detections sensor_data) as Hval.
  fold detection_signal sensor_signal in Hval.
  split; [exact Hval |].
  split; [rewrite Hval; split; [apply Qle_shift_div_l | apply Qle_shift_div_r]; lra |].
  split.
  - destruct (calculate_health_score_defined self detections sensor_data)
      as [h Hh].
    exists h. split; [exact Hh|].
    unfold calculate_health_score in Hh.
    destruct (_calculate_environmental_score sensor_data); [|discriminate].
    destruct (_analyze_sensor_data sensor_data); [|discriminate].
    injection Hh as <-. reflexivity.
  - eexists. split; [reflexivity|]. cbn. repeat split.
Qed.

End Assessment.

Lemma confidence_blend_witness :
  let ds := [ HealthScorer.mkDetection "blight" 0.9%Q (0.5, 0.5, 0.25, 0.2)%Q 0.05%Q ] in
  let sd := HealthScorer.mkSensorData (Some 45%Q) None (Some 50%Q) None in
  (HealthScorer._calculate_confidence ds (Some sd) == 70)%Q
  /\ (0 <= HealthScorer._calculate_confidence ds (Some sd) <= 100)%Q.
Proof.
  intros ds sd.
  destruct (confidence_blend (HealthScorer.init DiseaseClassifier._get_default_classes)
              ds (Some sd)) as (Hval & Hrange & _).
  - repeat constructor; discriminate.
  - split; [|exact Hrange]. rewrite Hval. reflexivity.
Defined.

(** ** The concrete numbers on binary64

    The values that the properties above give for the examples of the
    specification are the same when the arithmetic is that of binary64.
    The last three examples show where the two part: a computed number
    that lies on a threshold in one arithmetic can lie next to it in the
    other. *)

Section Binary64Values.

Import Binary64.

Example default_weighted_impact_binary64 :
  weighted_impact 50 0.6 = 30%float.
Proof. vm_compute. reflexivity. Qed.

Example all_defaults_overall_health_binary64 :
  overall_health 100 75 = 92.5%float.
Proof. vm_compute. reflexivity. Qed.

Example all_defaults_confidence_binary64 :
  mean_of_two 90 50 = 70%float.
Proof. vm_compute. reflexivity. Qed.

Example one_width_below_binary64 :
  score_below (18 - (30 - 18)) 18 30 = 0%float
  /\ score_below (40 - (70 - 40)) 40 70 = 0%float
  /\ score_below (30 - (70 - 30)) 30 70 = 0%float
  /\ score_below (6.0 - (7.5 - 6.0)) 6.0 7.5 = 0%float.
Proof. repeat split; vm_compute; reflexivity. Qed.

(** At a threshold the last place decides, and there binary64 and the
    rational model part.  A temperature of 13.2 is two fifths of the width
    below its range: its score is 60 on rationals and slightly less on
    binary64, so that the status is acceptable in the model and poor in the
    program. *)
Example status_at_sixty_binary64 :
  status (_score_parameter 13.2 18 30) = "poor"
  /\ option_map (map (fun e => (fst e, HealthScorer.pa_status (snd e))))
       (HealthScorer._analyze_sensor_data
          (Some (HealthScorer.mkSensorData (Some 13.2%Q) None None None)))
     = Some [("temperature", "acceptable")].
Proof. split; vm_compute; reflexivity. Qed.

(** One healthy detection of confidence 1 and area 0.125 with a soil
    moisture of 107: the overall health is 60 on rationals and slightly
    less on binary64, so that the risk level is medium in the model and
    high in the program. *)
Example overall_health_at_sixty_binary64 :
  let overall :=
    overall_health (disease_score_of_one (weighted_impact 0 1) 0.125 1)
                   (_score_parameter 107 30 70) in
  (overall <? 60)%float = true
  /\ base_risk overall = "high"
  /\ option_map HealthScorer.risk_level
       (HealthScorer.calculate_health_score
          (HealthScorer.init DiseaseClassifier._get_default_classes)
          [HealthScorer.mkDetection "healthy" 1%Q (0, 0, 0, 0)%Q 0.125%Q]
          (Some (HealthScorer.mkSensorData None None (Some 107%Q) None)))
     = Some "medium".
Proof. repeat split; vm_compute; reflexivity. Qed.

(** No detection and a humidity of 19.999999999999996: the overall health
    is slightly less than 80 on rationals and 80 on binary64, so that the
    risk level is medium in the model and low in the program. *)
Example overall_health_at_eighty_binary64 :
  let overall :=
    overall_health 100 (_score_parameter 19.999999999999996 40 70) in
  overall = 80%float
  /\ base_risk overall = "low"
  /\ option_map HealthScorer.risk_level
       (HealthScorer.calculate_health_score
          (HealthScorer.init DiseaseClassifier._get_default_classes) []
          (Some (HealthScorer.mkSensorData None
                   (Some 19.999999999999996%Q) None None)))
     = Some "medium".
Proof. repeat split; vm_compute; reflexivity. Qed.

End Binary64Values.

(** * Further properties of the sources *)

(** ** Strings *)

Section StringFacts.

Lemma lower_app (a b : string) :
  Py.lower (a +:+ b) = Py.lower a +:+ Py.lower b.
Proof. induction a as [|c a IH]; simpl; [done | by rewrite IH]. Qed.

Lemma prefix_app (k s : string) : Py.prefix k (k +:+ s) = true.
Proof.
  induction k as [|c k IH]; simpl; [done|].
  by rewrite Ascii.eqb_refl.
Qed.

Lemma contains_here (k s : string) : Py.prefix k s = true -> Py.contains k s = true.
Proof. intros H. destruct s; simpl; by rewrite H. Qed.

Lemma contains_later (k a s : string) :
  Py.contains k s = true -> Py.contains k (a +:+ s) = true.
Proof.
  intros H. induction a as [|c a IH]; simpl; [done|].
  rewrite IH. apply orb_true_r.
Qed.

Lemma contains_middle (k a b : string) : Py.contains k (a +:+ k +:+ b) = true.
Proof. apply contains_later, contains_here, prefix_app. Qed.

(** A string in which [k] occurs is [a +:+ k +:+ b] for some [a] and [b]. *)
Lemma prefix_split (k s : string) :
  Py.prefix k s = true -> exists b, s = k +:+ b.
Proof.
  revert s. induction k as [|c k IH]; intros s H; simpl in *.
  - by exists s.
  - destruct s as [|c' s]; [discriminate|].
    destruct (Ascii.eqb c c') eqn:E; [|discriminate].
    apply Ascii.eqb_eq in E as ->.
    destruct (IH s H) as [b ->]. by exists b.
Qed.

Lemma contains_split (k s : string) :
  Py.contains k s = true -> exists a b, s = a +:+ k +:+ b.
Proof.
  induction s as [|c s IH]; simpl; intros H.
  - rewrite orb_false_r in H. destruct (prefix_split k EmptyString H) as [b Hb].
    exists EmptyString, b. exact Hb.
  - apply orb_true_iff in H as [H|H].
    + destruct (prefix_split k (String c s) H) as [b Hb]. by exists EmptyString, b.
    + destruct (IH H) as (a & b & ->). by exists (String c a), b.
Qed.

Lemma append_assoc (a b c : string) : (a +:+ b) +:+ c = a +:+ (b +:+ c).
Proof.
  induction a as [|x a IH]; [done|].
  change (String x ((a +:+ b) +:+ c) = String x (a +:+ (b +:+ c))).
  by f_equal.
Qed.

(** Occurrence is transitive: what occurs in a part occurs in the whole. *)
Lemma contains_trans (k m s : string) :
  Py.contains k m = true -> Py.contains m s = true -> Py.contains k s = true.
Proof.
  intros Hk Hm.
  destruct (contains_split k m Hk) as (a & b & ->).
  destruct (contains_split _ s Hm) as (a' & b' & ->).
  rewrite (append_assoc a (k +:+ b) b'), (append_assoc k b b').
  rewrite <- (append_assoc a' a). apply contains_middle.
Qed.

End StringFacts.

(** ** The classifier's table, its keys and its advice *)

Section ClassifierFacts.

Import DiseaseClassifier.
Local Open Scope Q_scope.

Ltac each_consolidated E tac :=
  apply consolidated_lookup_items in E; simpl in E;
  repeat (destruct E as [E|E]; [injection E as <- <-; tac |]);
  try contradiction.

Lemma healthy_is_consolidated :
  consolidated_disease_info !! "healthy"
  = Some (mkConsolidated ENVIRONMENTAL LOW 0 1 "none").
Proof. vm_compute. reflexivity. Qed.

(** What the entry built for a class name looks like. *)
Lemma build_entry_shape (k : string) :
  name (build_entry k) = k
  /\ In (spreading_rate (build_entry k)) ["none"; "slow"; "medium"; "fast"]
  /\ ((4 <= treatment_priority (build_entry k))%Z
      <-> severity (build_entry k) = HIGH \/ severity (build_entry k) = CRITICAL)
  /\ (type_block (type (build_entry k)) = [] <-> k = "healthy").
Proof.
  unfold build_entry.
  destruct (consolidated_disease_info !! k) as [info|] eqn:E.
  - each_consolidated E
      ltac:(simpl; repeat split; intros; try tauto; try lia; try discriminate;
            try (intuition discriminate)).
  - assert (Hk : k <> "healthy").
    { intros ->. rewrite healthy_is_consolidated in E. discriminate. }
    unfold _classify_unknown_disease.
    destruct (any_keyword_in _ _); simpl;
      repeat split; intros; try tauto; try lia; try discriminate;
      try (intuition discriminate).
Qed.

(** X1.  The keys of the table are the class names it was built from: the
    lookup of a name succeeds exactly when the name is in the class list; the
    record found carries the name, and it is the same record in every table
    whose class list holds the name, whatever the other names, their order
    and their repetitions. *)
Theorem class_list_lookup_round_trip (loaded loaded' : list string)
    (k : string) :
  (is_Some (get_disease_info (init loaded) k) <-> k ∈ loaded)
  /\ (forall d : DiseaseInfo,
        get_disease_info (init loaded) k = Some d ->
        name d = k
        /\ (k ∈ loaded' -> get_disease_info (init loaded') k = Some d)).
Proof.
  split.
  - split.
    + intros [d Hd]. by apply get_disease_info_Some in Hd as [? _].
    + intros Hin. destruct (get_disease_info (init loaded) k) eqn:E; [by eexists|].
      apply get_disease_info_None in E. contradiction.
  - intros d Hd. apply get_disease_info_Some in Hd as [_ ->].
    split; [apply build_entry_shape|].
    intros Hin. unfold get_disease_info, init; cbn [disease_db].
    rewrite build_lookup. by rewrite decide_True.
Qed.

(** X2.  Every record of a built table has a treatment priority from 1 to 5,
    an impact score from 0 to 100 and one of the spreading rates none, slow,
    medium, fast; its severity is high or critical exactly when its
    treatment priority is at least 4. *)
Theorem table_entry_invariants (loaded : list string) (k : string)
    (d : DiseaseInfo) :
  get_disease_info (init loaded) k = Some d ->
  (1 <= treatment_priority d <= 5)%Z
  /\ 0 <= impact_score d <= 100
  /\ In (spreading_rate d) ["none"; "slow"; "medium"; "fast"]
  /\ ((4 <= treatment_priority d)%Z <-> severity d = HIGH \/ severity d = CRITICAL).
Proof.
  intros Hd. apply get_disease_info_Some in Hd as [_ ->].
  destruct (build_entry_bounds k) as [Hp Hi].
  destruct (build_entry_shape k) as (_ & Hs & Hsev & _).
  repeat split; try apply Hp; try apply Hi; try exact Hs; apply Hsev.
Qed.

Lemma table_entry_invariants_witness :
  exists d : DiseaseInfo,
    get_disease_info default "blight" = Some d
    /\ (1 <= treatment_priority d <= 5)%Z
    /\ 0 <= impact_score d <= 100.
Proof.
  eexists. split; [vm_compute; reflexivity |].
  refine (let H := table_entry_invariants _get_default_classes "blight" _ _ in
          conj (proj1 H) (proj1 (proj2 H))).
  vm_compute. reflexivity.
Defined.

Lemma keyword_found (kw : string) (keywords : list string) (s : string) :
  In kw keywords -> Py.contains kw s = true -> any_keyword_in keywords s = true.
Proof.
  intros Hin Hc. unfold any_keyword_in. apply existsb_exists. by exists kw.
Qed.

(** X3.  A class name in which one of the words critical, severe, wilt,
    death, dead occurs, in any mix of upper and lower case and at any place,
    is classified as a fungal disease of critical severity with impact score
    90, treatment priority 5 and fast spreading. *)
Theorem keyword_names_are_critical (loaded : list string) (p kw s : string)
    (confidence : Q) :
  In (Py.lower kw) ["critical"; "severe"; "wilt"; "death"; "dead"] ->
  (p +:+ kw +:+ s) ∈ loaded ->
  let c := classify_detection (init loaded) (p +:+ kw +:+ s) confidence in
  cl_type c = "fungal"
  /\ cl_severity c = "critical"
  /\ cl_impact_score c = 90
  /\ cl_treatment_priority c = 5%Z
  /\ cl_spreading_rate c = Some "fast".
Proof.
  intros Hkw Hin.
  assert (Hany : any_keyword_in ["critical"; "severe"; "wilt"; "death"; "dead"]
                   (Py.lower (p +:+ kw +:+ s)) = true).
  { apply (keyword_found (Py.lower kw)); [exact Hkw|].
    rewrite !lower_app. apply contains_middle. }
  remember (p +:+ kw +:+ s) as nm eqn:Enm. clear Enm Hkw.
  cbv zeta. unfold classify_detection, get_disease_info, init; cbn [disease_db].
  rewrite build_lookup, decide_True by exact Hin.
  unfold build_entry.
  destruct (consolidated_disease_info !! nm) as [info|] eqn:E.
  - each_consolidated E ltac:(vm_compute in Hany; discriminate Hany).
  - unfold _classify_unknown_disease. rewrite Hany. cbn. repeat split.
Qed.

Lemma keyword_names_are_critical_witness :
  let c := classify_detection (init ["healthy"; "Fusarium_WILT"])
             "Fusarium_WILT" 0.5 in
  cl_severity c = "critical" /\ cl_treatment_priority c = 5%Z.
Proof.
  destruct (keyword_names_are_critical ["healthy"; "Fusarium_WILT"]
              "Fusarium_" "WILT" EmptyString 0.5) as (_ & Hs & _ & Hp & _).
  - vm_compute. tauto.
  - apply list_elem_of_further, list_elem_of_here.
  - split; [exact Hs | exact Hp].
Defined.

(** X4.  For a confidence between 0 and 1 the weighted impact of a
    classified detection lies between 0 and its impact score, which is at
    most 100; the classification keeps the label and the confidence, and
    its treatment priority is from 1 to 5. *)
Theorem weighted_impact_bounds (loaded : list string) (label : string)
    (confidence : Q) :
  0 <= confidence <= 1 ->
  let c := classify_detection (init loaded) label confidence in
  0 <= cl_weighted_impact c
  /\ cl_weighted_impact c <= cl_impact_score c
  /\ cl_impact_score c <= 100
  /\ (1 <= cl_treatment_priority c <= 5)%Z
  /\ cl_class_name c = label
  /\ cl_confidence c = confidence.
Proof.
  intros [Hc0 Hc1]. cbv zeta. unfold classify_detection.
  destruct (get_disease_info (init loaded) label) as [d|] eqn:E; simpl.
  - apply get_disease_info_Some in E as [_ ->].
    destruct (build_entry_bounds label) as [Hp [Hi0 Hi1]].
    repeat split; try assumption; try apply Hp.
    + by apply Qmult_le_0_compat.
    + nra.
  - repeat split; try lia; try discriminate.
    + apply Qmult_le_0_compat; [discriminate | exact Hc0].
    + lra.
Qed.

Lemma weighted_impact_bounds_witness :
  let c := classify_detection default "blight" 0.9 in
  0 <= cl_weighted_impact c /\ cl_weighted_impact c <= cl_impact_score c.
Proof.
  destruct (weighted_impact_bounds _get_default_classes "blight" 0.9)
    as (H0 & H1 & _).
  - split; discriminate.
  - exact (conj H0 H1).
Defined.

Lemma table_entry_bounds_and_tier (loaded : list string) (k : string)
    (d : DiseaseInfo) :
  get_disease_info (init loaded) k = Some d ->
  ((4 <= treatment_priority d)%Z <-> severity d = HIGH \/ severity d = CRITICAL)
  /\ (forall r, In r (type_block (type d)) -> r <> "URGENT: Take immediate action").
Proof.
  intros Hd. apply get_disease_info_Some in Hd as [_ ->].
  split; [apply build_entry_shape|].
  intros r Hr ->. destruct (type (build_entry k)); simpl in Hr;
    repeat (destruct Hr as [Hr|Hr]; [discriminate Hr|]); contradiction.
Qed.

Lemma advice_of_entry (k : string) :
  match severity (build_entry k) with
  | HIGH | CRITICAL =>
      "URGENT: Take immediate action" :: type_block (type (build_entry k))
  | _ => type_block (type (build_entry k))
  end = [] <-> k = "healthy".
Proof.
  unfold build_entry.
  destruct (consolidated_disease_info !! k) as [info|] eqn:E.
  - each_consolidated E ltac:(simpl; split; (discriminate || reflexivity)).
  - assert (Hk : k <> "healthy").
    { intros ->. rewrite healthy_is_consolidated in E. discriminate. }
    unfold _classify_unknown_disease.
    destruct (any_keyword_in _ _); simpl; split; (discriminate || contradiction).
Qed.

(** X5.  In a built table the treatment advice of a label is empty exactly
    for the label [healthy] when it is a class name; every other label gets
    between one and four recommendations. *)
Theorem advice_empty_only_for_healthy (loaded : list string) (label : string) :
  let recs := get_treatment_recommendations (init loaded) label in
  (recs = [] <-> label = "healthy" /\ "healthy" ∈ loaded)
  /\ (length recs <= 4)%nat.
Proof.
  cbv zeta. unfold get_treatment_recommendations, get_disease_info, init;
    cbn [disease_db].
  rewrite build_lookup.
  destruct (decide (label ∈ loaded)) as [Hin|Hout].
  - split.
    + rewrite advice_of_entry. split; [intros ->; by split | tauto].
    + destruct (severity (build_entry label)), (type (build_entry label));
        cbn; lia.
  - split; [|cbn; lia]. split; [discriminate|]. intros [-> H]. contradiction.
Qed.

(** X6.  In a built table the advice of a label starts with the urgency
    sentence exactly when the treatment priority of the label, as its
    classification reports it, is at least 4, the priority from which the
    risk level is raised. *)
Theorem urgent_advice_iff_priority (loaded : list string) (label : string)
    (confidence : Q) :
  head (get_treatment_recommendations (init loaded) label)
  = Some "URGENT: Take immediate action"
  <-> (4 <= cl_treatment_priority
              (classify_detection (init loaded) label confidence))%Z.
Proof.
  unfold get_treatment_recommendations, classify_detection.
  destruct (get_disease_info (init loaded) label) as [d|] eqn:E.
  - destruct (table_entry_bounds_and_tier loaded label d E) as [Hsev Hblock].
    cbn [cl_treatment_priority]. rewrite Hsev.
    destruct (severity d); split; intros H;
      try reflexivity; try (by left); try (by right);
      try (destruct H; discriminate).
    + exfalso. destruct (type d); discriminate H.
    + exfalso. destruct (type d); discriminate H.
  - cbn. split; [discriminate | lia].
Qed.

End ClassifierFacts.

(** ** Ranges of the scores and the assessment as a whole *)

Section ScoreRanges.

Import Config DiseaseClassifier HealthScorer.
Local Open Scope Q_scope.

Lemma distance_nonneg (mn mx v : Q) : mn < mx -> 0 <= Spec.distance mn mx v.
Proof.
  intros Hw. destruct (range_cases mn mx v Hw)
    as [(H & _ & ->)|[(H & _ & _ & ->)|(H & _ & _ & ->)]]; lra.
Qed.

Lemma penalty_range (mn mx d : Q) :
  mn < mx -> 0 <= d -> 0 <= Qmax 0 (100 - 100 * d / (mx - mn)) <= 100.
Proof.
  intros Hw Hd. split; [apply Q.le_max_l|].
  apply Q.max_lub; [discriminate|].
  assert (0 <= 100 * d / (mx - mn)); [|lra].
  apply Qle_shift_div_l; lra.
Qed.

Lemma score_parameter_range (mn mx v : Q) :
  mn < mx ->
  exists s, _score_parameter v (mn, mx) = Some s /\ 0 <= s <= 100.
Proof.
  intros Hw. destruct (score_parameter_distance mn mx v Hw) as (s & Hs & Hv).
  exists s. split; [exact Hs|]. rewrite Hv.
  apply penalty_range; [exact Hw | by apply distance_nonneg].
Qed.

Lemma spec_score_range (mn mx v : Q) : mn < mx -> 0 <= Spec.score mn mx v <= 100.
Proof.
  intros Hw. rewrite spec_score_distance by exact Hw.
  apply penalty_range; [exact Hw | by apply distance_nonneg].
Qed.

Lemma sum_at_most (c : Q) (l : list Q) :
  Forall (fun x => x <= c) l ->
  Spec.sum l <= c * inject_Z (Z.of_nat (length l)).
Proof.
  induction 1 as [|x l Hx _ IH].
  - change (0 <= c * 0). rewrite Qmult_0_r. apply Qle_refl.
  - cbn [Spec.sum fold_right length]. fold (Spec.sum l).
    rewrite Nat2Z.inj_succ, <- Z.add_1_l, inject_Z_plus.
    change (inject_Z 1) with 1. lra.
Qed.

Lemma mean_range (c : Q) (l : list Q) :
  l <> [] -> Forall (fun x => 0 <= x <= c) l -> 0 <= Spec.mean l <= c.
Proof.
  intros Hne Hl. split.
  - apply mean_nonneg; [exact Hne|]. eapply Forall_impl; [exact Hl|]. by intros x [? _].
  - unfold Spec.mean. apply Qle_shift_div_r; [by apply length_pos_Q|].
    apply sum_at_most. eapply Forall_impl; [exact Hl|]. by intros x [_ ?].
Qed.

Lemma present_scores_range (sensor_data : SensorData) :
  Forall (fun x => 0 <= x <= 100) (Spec.present_scores sensor_data).
Proof.
  unfold Spec.present_scores. apply Forall_flat_map.
  eapply Forall_impl; [apply optimal_ranges_have_width|].
  intros [param [mn mx]] Hw. unfold Spec.present_score.
  destruct (getattr sensor_data param); repeat constructor;
    by apply spec_score_range.
Qed.

Lemma environmental_score_range (sensor_data : option SensorData) :
  exists e, _calculate_environmental_score sensor_data = Some e
            /\ 0 <= e <= 100.
Proof.
  destruct sensor_data as [sd|]; [|exists 75; split; [reflexivity | split; discriminate]].
  destruct (environmental_score_present sd) as (e & He & Hv).
  exists e. split; [exact He|]. rewrite Hv.
  pose proof (present_scores_range sd) as Hr.
  destruct (Spec.present_scores sd) as [|x l] eqn:E; [split; discriminate|].
  apply mean_range; [discriminate | exact Hr].
Qed.

(** X7.  The environmental score is defined for every optional sensor
    reading, whatever the values read, and lies between 0 and 100; so does
    the score of a single value for every range with [mn < mx]. *)
Theorem environmental_score_bounds (sensor_data : option SensorData) :
  (exists e, _calculate_environmental_score sensor_data = Some e
             /\ 0 <= e <= 100)
  /\ (forall mn mx v, mn < mx ->
        exists s, _score_parameter v (mn, mx) = Some s /\ 0 <= s <= 100).
Proof.
  split.
  - apply environmental_score_range.
  - intros mn mx v. apply score_parameter_range.
Qed.

Lemma disease_score_nonneg (a : DiseaseAnalysis) : 0 <= _calculate_disease_score a.
Proof.
  unfold _calculate_disease_score.
  destruct (Nat.eqb (detection_count a) 0); [discriminate|].
  rewrite py_max_Qmax. apply Q.le_max_l.
Qed.

Lemma disease_score_at_most_100 (loaded : list string)
    (ds : list DetectionResult) :
  Forall (fun d => 0 <= confidence d /\ 0 <= area d) ds ->
  _calculate_disease_score (_analyze_detections (HealthScorer.init loaded) ds)
  <= 100.
Proof.
  intros Hwf. destruct ds as [|d ds'] eqn:Eds; [discriminate|].
  rewrite <- Eds in *. assert (Hne : ds <> []) by (rewrite Eds; discriminate).
  clear Eds. rewrite disease_score_nonempty by exact Hne.
  set (cds := map (Spec.classified (HealthScorer.init loaded)) ds).
  assert (Hbase : 0 <= Spec.mean (map cl_weighted_impact cds)).
  { apply mean_nonneg.
    - subst cds. destruct ds; [done | discriminate].
    - subst cds. rewrite !Forall_map. eapply Forall_impl; [exact Hwf|].
      intros x [Hc _]. by apply classified_weighted_nonneg. }
  assert (Harea : 0 <= Qmin 30 (Spec.sum (map area ds) * 100)).
  { apply Q.min_glb; [discriminate|].
    apply Qmult_le_0_compat; [|discriminate].
    apply sum_nonneg. rewrite Forall_map. eapply Forall_impl; [exact Hwf|].
    by intros x [_ Ha]. }
  assert (Hprio : 0 <= inject_Z (Spec.maximum (map cl_treatment_priority cds))).
  { subst cds. change 0 with (inject_Z 0). rewrite <- Zle_Qle.
    rewrite <- max_priority_maximum.
    destruct (analysis_fields loaded ds) as (_ & _ & -> & _).
    generalize (map cl_treatment_priority
                  (map (Spec.classified (HealthScorer.init loaded)) ds)).
    intros l. assert (forall x, (0 <= x)%Z -> (0 <= fold_left Z.max l x)%Z) as H.
    { induction l as [|y l IH]; intros x Hx; simpl; [exact Hx|]. apply IH. lia. }
    by apply H. }
  apply Q.max_lub; [discriminate | lra].
Qed.

(** The record that [calculate_health_score] returns, field by field. *)
Lemma assessment_fields (self : HealthScorer.t) (ds : list DetectionResult)
    (sensor_data : option SensorData) :
  exists env sa,
    _calculate_environmental_score sensor_data = Some env
    /\ _analyze_sensor_data sensor_data = Some sa
    /\ calculate_health_score self ds sensor_data
       = Some (mkHealthAssessment
                 (_calculate_disease_score (_analyze_detections self ds) * 0.7
                  + env * 0.3)
                 (_calculate_disease_score (_analyze_detections self ds))
                 env
                 (_determine_risk_level
                    (_calculate_disease_score (_analyze_detections self ds) * 0.7
                     + env * 0.3)
                    (_analyze_detections self ds))
                 (_calculate_confidence ds sensor_data)
                 (_generate_recommendations self (_analyze_detections self ds)
                    sensor_data)
                 (classified_detections (_analyze_detections self ds))
                 sa).
Proof.
  destruct (environmental_score_range sensor_data) as (env & Henv & _).
  assert (Hsa : is_Some (_analyze_sensor_data sensor_data)).
  { destruct sensor_data as [sd|]; [|by eexists].
    apply analyze_params_defined, optimal_ranges_have_width. }
  destruct Hsa as [sa Hsa]. exists env, sa.
  split; [exact Henv | split; [exact Hsa|]].
  unfold calculate_health_score. by rewrite Henv, Hsa.
Qed.

Lemma risk_level_is_one_of_four (h : Q) (a : DiseaseAnalysis) :
  In (_determine_risk_level h a) ["low"; "medium"; "high"; "critical"].
Proof.
  unfold _determine_risk_level.
  destruct (Qle_bool 80 h), (Qle_bool 60 h), (Qle_bool 30 h),
    (4 <=? max_priority a)%Z; cbn; tauto.
Qed.

(** X8.  For detections with confidences and areas that are not negative,
    and any optional sensor reading, the scorer returns an assessment whose
    disease score, environmental score and overall health lie between 0 and
    100, whose overall health is 0.7 times the disease score plus 0.3 times
    the environmental score, whose risk level is one of low, medium, high,
    critical, and whose detected issues are the detections in their order.
    The numbers are exact rationals: on binary64 the weighted sum is
    rounded and can differ from this value in the last place (see
    [overall_health_at_sixty_binary64]). *)
Theorem assessment_in_range (loaded : list string) (ds : list DetectionResult)
    (sensor_data : option SensorData) :
  Forall (fun d => 0 <= confidence d /\ 0 <= area d) ds ->
  exists h,
    calculate_health_score (HealthScorer.init loaded) ds sensor_data = Some h
    /\ 0 <= disease_score h <= 100
    /\ 0 <= environmental_score h <= 100
    /\ overall_health h == 0.7 * disease_score h + 0.3 * environmental_score h
    /\ 0 <= overall_health h <= 100
    /\ In (risk_level h) ["low"; "medium"; "high"; "critical"]
    /\ map cl_class_name (detected_issues h) = map class_name ds.
Proof.
  intros Hwf.
  destruct (assessment_fields (HealthScorer.init loaded) ds sensor_data)
    as (env & sa & Henv & _ & Hh).
  eexists. split; [exact Hh|]. cbn [disease_score environmental_score
    overall_health risk_level detected_issues].
  pose proof (disease_score_nonneg (_analyze_detections (HealthScorer.init loaded) ds)) as Hd0.
  pose proof (disease_score_at_most_100 loaded ds Hwf) as Hd1.
  destruct (environmental_score_range sensor_data) as (e & He & He0 & He1).
  rewrite Henv in He. injection He as <-.
  split; [by split|]. split; [by split|].
  split; [ring|]. split; [lra|].
  split; [apply risk_level_is_one_of_four|].
  destruct (analysis_fields loaded ds) as (-> & _).
  rewrite map_map. apply map_ext. intros d. unfold Spec.classified.
  destruct (set_area_fields (area d)
    (classify_detection (disease_classifier (HealthScorer.init loaded))
       (class_name d) (confidence d))) as (-> & _).
  unfold classify_detection. by destruct (get_disease_info _ _).
Qed.

Lemma assessment_in_range_witness :
  exists h,
    calculate_health_score (HealthScorer.init _get_default_classes)
      [mkDetection "blight" 0.9 (0.5, 0.5, 0.2, 0.25) 0.05]
      (Some (mkSensorData (Some 45) None None (Some 6.5))) = Some h
    /\ 0 <= overall_health h <= 100.
Proof.
  destruct (assessment_in_range _get_default_classes
              [mkDetection "blight" 0.9 (0.5, 0.5, 0.2, 0.25) 0.05]
              (Some (mkSensorData (Some 45) None None (Some 6.5))))
    as (h & Hh & _ & _ & _ & Hrange & _).
  - repeat constructor; discriminate.
  - exists h. exact (conj Hh Hrange).
Defined.

End ScoreRanges.

(** ** Environmental advice, risk and the recommendation list *)

Section AdviceFacts.

Import Config DiseaseClassifier HealthScorer.
Local Open Scope Q_scope.





Lemma environmental_advice_shape_aux (sensor_data : SensorData) :
  NoDup (_get_environmental_recommendations sensor_data)
  /\ (length (_get_environmental_recommendations sensor_data) <= 3)%nat.
Proof.
  destruct sensor_data as [t h m p].
  unfold _get_environmental_recommendations;
    cbn [temperature humidity soil_moisture].
  destruct t as [t|], h as [h|], m as [m|];
    repeat match goal with
    | |- context [Qlt_bool ?a ?b] => destruct (Qlt_bool a b)
    end; cbn [app]; (split; [apply (bool_decide_unpack _); vm_compute; reflexivity
                           | cbn; lia]).
Qed.

Lemma filter_absent (x : string) (l : list string) :
  x ∉ l -> filter (fun y => y <> x) l = l.
Proof.
  induction l as [|y l IH]; intros Hx; [done|].
  apply not_elem_of_cons in Hx as [Hxy Hx].
  rewrite filter_cons_True by (intros ->; contradiction).
  f_equal. by apply IH.
Qed.

Lemma dedup_of_NoDup (l : list string) : NoDup l -> Spec.dedup l = l.
Proof.
  induction 1 as [|x l Hx _ IH]; [done|]. cbn [Spec.dedup].
  by rewrite IH, filter_absent.
Qed.

(** X10.  Without detections the disease score is 100, no issue is
    reported, the recommendations are the environmental ones, and the
    overall health lies between 70 and 100, so that the risk level is low
    when the overall health of the assessment is at least 80 and medium
    otherwise, never high or critical, whatever the sensors read.  On exact
    rationals the overall health is 70 plus 0.3 times the environmental
    score. *)
Theorem no_detections_assessment (self : HealthScorer.t)
    (sensor_data : option SensorData) :
  exists h env,
    calculate_health_score self [] sensor_data = Some h
    /\ _calculate_environmental_score sensor_data = Some env
    /\ disease_score h = 100
    /\ overall_health h == 70 + 0.3 * env
    /\ 70 <= overall_health h <= 100
    /\ risk_level h
       = (if Qle_bool 80 (overall_health h) then "low" else "medium")
    /\ detected_issues h = []
    /\ recommendations h = Spec.environmental_part sensor_data.
Proof.
  destruct (assessment_fields self [] sensor_data) as (env & sa & Henv & _ & Hh).
  destruct (environmental_score_range sensor_data) as (e & He & He0 & He1).
  rewrite Henv in He. injection He as <-.
  eexists. exists env. split; [exact Hh|]. split; [exact Henv|].
  cbn [disease_score overall_health risk_level detected_issues recommendations].
  change (_analyze_detections self []) with (mkAnalysis [] 0 0%Z 0 0%nat).
  change (_calculate_disease_score (mkAnalysis [] 0 0%Z 0 0%nat)) with 100.
  split; [reflexivity|]. split; [ring|]. split; [lra|].
  split; [|split; [reflexivity|]].
  - unfold _determine_risk_level. cbn [max_priority Z.leb Z.compare].
    destruct (Qle_bool 80 (100 * 0.7 + env * 0.3)); [reflexivity|].
    assert (E60 : Qle_bool 60 (100 * 0.7 + env * 0.3) = true)
      by (apply Qle_bool_iff; lra).
    by rewrite E60.
  - unfold _generate_recommendations.
    change (extend_with_treatments self (classified_detections
              (mkAnalysis [] 0 0%Z 0 0%nat)) []) with (@nil string).
    cbn [max_priority Z.leb Z.compare app].
    rewrite remove_duplicates_dedup.
    destruct sensor_data as [sd|]; [|reflexivity]. cbn [Spec.environmental_part].
    destruct (environmental_advice_shape_aux sd) as [Hnd Hlen].
    rewrite dedup_of_NoDup by exact Hnd. apply take_ge. lia.
Qed.

(** X11.  The risk level is monotone: for an overall health that is not
    lower and a greatest treatment priority that is not higher, the risk
    level is not higher. *)
Theorem risk_is_monotone (h1 h2 : Q) (a1 a2 : DiseaseAnalysis) :
  h1 <= h2 ->
  (max_priority a2 <= max_priority a1)%Z ->
  (Spec.rank (_determine_risk_level h2 a2)
   <= Spec.rank (_determine_risk_level h1 a1))%nat.
Proof.
  intros Hh Hp. unfold _determine_risk_level.
  rewrite !threshold_chain_base_risk. unfold Spec.base_risk.
  destruct (Z.leb_spec 4 (max_priority a1)), (Z.leb_spec 4 (max_priority a2));
    try lia;
    destruct (Qlt_le_dec h1 30), (Qlt_le_dec h1 60), (Qlt_le_dec h1 80),
      (Qlt_le_dec h2 30), (Qlt_le_dec h2 60), (Qlt_le_dec h2 80);
    cbn; try lia; exfalso; lra.
Qed.

Lemma risk_is_monotone_witness :
  (Spec.rank (_determine_risk_level 85 (mkAnalysis [] 0 0%Z 0 0%nat))
   <= Spec.rank (_determine_risk_level 50 (mkAnalysis [] 0 4%Z 0 0%nat)))%nat.
Proof.
  apply risk_is_monotone; [discriminate | cbn; lia].
Defined.

(** The strings that the treatment advice and the environmental advice are
    made of. *)
Lemma treatment_strings (self : DiseaseClassifier.t) (name r : string) :
  In r (get_treatment_recommendations self name) ->
  r <> "Schedule follow-up inspection within 3-5 days".
Proof.
  unfold get_treatment_recommendations.
  destruct (get_disease_info self name) as [d|].
  - destruct (severity d), (type d); simpl; intros H;
      repeat (destruct H as [<-|H]; [discriminate|]); contradiction.
  - simpl. intros [<-|[]]. discriminate.
Qed.

Lemma environmental_strings (sensor_data : SensorData) (r : string) :
  In r (_get_environmental_recommendations sensor_data) ->
  r <> "Schedule follow-up inspection within 3-5 days".
Proof.
  destruct sensor_data as [t h m p].
  unfold _get_environmental_recommendations;
    cbn [temperature humidity soil_moisture].
  destruct t as [t|], h as [h|], m as [m|];
    repeat match goal with
    | |- context [Qlt_bool ?a ?b] => destruct (Qlt_bool a b)
    end; cbn [app]; simpl; intros H;
    repeat (destruct H as [<-|H]; [discriminate|]); contradiction.
Qed.

Lemma follow_up_not_before (self : HealthScorer.t) (cds : list Classification)
    (sensor_data : option SensorData) :
  "Schedule follow-up inspection within 3-5 days"
  ∉ Spec.treatment_part self cds ++ Spec.environmental_part sensor_data.
Proof.
  rewrite list_elem_of_In. intros H. apply in_app_or in H as [H|H].
  - unfold Spec.treatment_part in H. apply in_flat_map in H as (c & _ & H).
    apply list_elem_of_In in H.
    assert (Hin : "Schedule follow-up inspection within 3-5 days"
                  ∈ get_treatment_recommendations (disease_classifier self)
                      (cl_class_name c)).
    { eapply elem_of_sublist; [exact H | apply sublist_take]. }
    apply list_elem_of_In in Hin. by eapply treatment_strings.
  - destruct sensor_data as [sd|]; [|contradiction].
    by eapply environmental_strings.
Qed.

Lemma dedup_snoc_fresh (l : list string) (x : string) :
  x ∉ l -> Spec.dedup (l ++ [x]) = Spec.dedup l ++ [x].
Proof.
  induction l as [|y l IH]; intros Hx; [done|].
  apply not_elem_of_cons in Hx as [Hxy Hx].
  cbn [app Spec.dedup]. rewrite IH by exact Hx.
  rewrite filter_app, filter_cons_True by exact Hxy. done.
Qed.

(** The list that [_generate_recommendations] returns, before the three
    parts are told apart in the statements. *)
Lemma generated_recommendations (loaded : list string)
    (ds : list DetectionResult) (sensor_data : option SensorData) :
  let self := HealthScorer.init loaded in
  let cds := map (Spec.classified self) ds in
  _generate_recommendations self (_analyze_detections self ds) sensor_data
  = take 8 (Spec.dedup ((Spec.treatment_part self cds
                         ++ Spec.environmental_part sensor_data)
                        ++ Spec.follow_up_part cds)).
Proof.
  cbv zeta. unfold _generate_recommendations.
  rewrite remove_duplicates_dedup, extend_with_treatments_spec.
  rewrite max_priority_at_least by lia.
  destruct (analysis_fields loaded ds) as (-> & _).
  unfold Spec.follow_up_part, Spec.environmental_part. cbn [app].
  destruct sensor_data as [sd|],
    (Spec.some_priority_at_least 3
       (map (Spec.classified (HealthScorer.init loaded)) ds));
    rewrite ?app_nil_r; reflexivity.
Qed.

(** X12.  The follow-up sentence is in the recommendation list exactly when
    some classified detection has a treatment priority of at least 3 and
    fewer than eight different recommendations come before it; it is then
    the last entry.  With eight or more before it the cut to eight entries
    drops it. *)
Theorem follow_up_kept_iff (loaded : list string) (ds : list DetectionResult)
    (sensor_data : option SensorData) :
  let self := HealthScorer.init loaded in
  let cds := map (Spec.classified self) ds in
  let recs :=
    _generate_recommendations self (_analyze_detections self ds) sensor_data in
  let before :=
    Spec.dedup (Spec.treatment_part self cds
                ++ Spec.environmental_part sensor_data) in
  ("Schedule follow-up inspection within 3-5 days" ∈ recs
   <-> Spec.some_priority_at_least 3 cds = true /\ (length before < 8)%nat)
  /\ ("Schedule follow-up inspection within 3-5 days" ∈ recs ->
      last recs = Some "Schedule follow-up inspection within 3-5 days").
Proof.
  intros self cds recs before.
  pose proof (follow_up_not_before self cds sensor_data) as Hfresh.
  assert (Hnot : "Schedule follow-up inspection within 3-5 days" ∉ take 8 before).
  { intros H. apply Hfresh. apply (dedup_elements _ _).
    eapply elem_of_sublist; [exact H | apply sublist_take]. }
  assert (Hrecs : recs = take 8 (Spec.dedup
            ((Spec.treatment_part self cds ++ Spec.environmental_part sensor_data)
             ++ Spec.follow_up_part cds)))
    by apply generated_recommendations.
  unfold Spec.follow_up_part in Hrecs.
  destruct (Spec.some_priority_at_least 3 cds).
  - rewrite dedup_snoc_fresh in Hrecs by exact Hfresh. fold before in Hrecs.
    destruct (decide (length before < 8)%nat) as [Hlt|Hge].
    + rewrite take_ge in Hrecs by (rewrite length_app; cbn; lia).
      rewrite Hrecs. split.
      * split; [done|]. intros _. apply elem_of_app. right. apply list_elem_of_here.
      * intros _. apply last_snoc.
    + rewrite take_app_le in Hrecs by lia. rewrite Hrecs. split.
      * split; [contradiction | intros [_ ?]; lia].
      * contradiction.
  - rewrite app_nil_r in Hrecs. fold before in Hrecs. rewrite Hrecs. split.
    + split; [contradiction | intros [? _]; discriminate].
    + contradiction.
Qed.

(** The cut does drop the sentence: three detections of priority 3, 3 and 4
    and three sensor values out of range give nine recommendations before
    it. *)
Example follow_up_cut_off :
  let ds := [ mkDetection "leaf_spot" 0.9 (0.5, 0.5, 0.1, 0.1) 0.01;
              mkDetection "pest_damage" 0.8 (0.5, 0.5, 0.1, 0.1) 0.01;
              mkDetection "virus_disease" 0.7 (0.5, 0.5, 0.1, 0.1) 0.01 ] in
  let sd := mkSensorData (Some 45) (Some 10) (Some 90) None in
  let self := HealthScorer.init _get_default_classes in
  _generate_recommendations self (_analyze_detections self ds) (Some sd)
  = [ "Apply appropriate fungicide treatment";
      "Improve air circulation around plants";
      "Apply appropriate insecticide or miticide";
      "Use biological control methods if available";
      "URGENT: Take immediate action";
      "Remove infected plants to prevent spread";
      "Provide shade or cooling measures";
      "Increase humidity around plants" ].
Proof. vm_compute. reflexivity. Qed.

Lemma dedup_app (l1 l2 : list string) :
  Spec.dedup (l1 ++ l2)
  = Spec.dedup l1 ++ filter (fun x => x ∉ l1) (Spec.dedup l2).
Proof.
  induction l1 as [|y l1 IH].
  - cbn [app Spec.dedup]. symmetry. apply filter_keeps_all.
    intros x. apply not_elem_of_nil.
  - cbn [app Spec.dedup]. rewrite IH, filter_app, list_filter_filter.
    do 2 f_equal. apply list_filter_iff. intros x.
    rewrite not_elem_of_cons. tauto.
Qed.

Lemma first_occurrence (x : string) (l : list string) :
  x ∈ l -> exists l1 l2, l = l1 ++ x :: l2 /\ x ∉ l1.
Proof.
  induction l as [|y l IH]; intros Hx; [by apply not_elem_of_nil in Hx|].
  destruct (decide (x = y)) as [->|Hne].
  - exists [], l. split; [reflexivity | apply not_elem_of_nil].
  - apply elem_of_cons in Hx as [->|Hx]; [done|].
    destruct (IH Hx) as (l1 & l2 & -> & Hl1).
    exists (y :: l1), l2. split; [reflexivity|].
    apply not_elem_of_cons. by split.
Qed.

(** In a list without repetition an element has one place only. *)
Lemma place_in_NoDup (x : string) (a b a' b' : list string) :
  NoDup (a ++ x :: b) -> a ++ x :: b = a' ++ x :: b' -> a = a'.
Proof.
  revert a'. induction a as [|z a IH]; intros a' Hnd Heq.
  - destruct a' as [|z' a']; [done|]. exfalso.
    cbn [app] in *. injection Heq as <- ->.
    apply NoDup_cons in Hnd as [Hx _]. apply Hx.
    apply elem_of_app. right. apply list_elem_of_here.
  - destruct a' as [|z' a'].
    + exfalso. cbn [app] in *. injection Heq as -> _.
      apply NoDup_cons in Hnd as [Hx _]. apply Hx.
      apply elem_of_app. right. apply list_elem_of_here.
    + cbn [app] in *. injection Heq as <- Heq.
      apply NoDup_cons in Hnd as [_ Hnd]. f_equal. by apply IH.
Qed.

(** X13.  Removing duplicates keeps every string of the list, each once and
    at the place of its first occurrence: the result has the elements of
    the list, no repetition, is a sublist of the list and starts with the
    same string; a list without repetition is returned as it is.  The order
    is that of the first occurrences: of two strings of the result, the one
    that comes first occurs in the list before any occurrence of the other;
    and the result for a list cut in two is the result for the first part
    followed by what the second part adds to it. *)
Theorem remove_duplicates_keeps_first (l : list string) :
  NoDup (remove_duplicates l)
  /\ (forall x, x ∈ remove_duplicates l <-> x ∈ l)
  /\ remove_duplicates l `sublist_of` l
  /\ head (remove_duplicates l) = head l
  /\ (NoDup l -> remove_duplicates l = l)
  /\ (forall r1 x r2 y r3,
        remove_duplicates l = r1 ++ x :: (r2 ++ y :: r3) ->
        exists l1 l2, l = l1 ++ x :: l2 /\ (x ∉ l1) /\ (y ∉ l1))
  /\ (forall l1 l2, l = l1 ++ l2 ->
        remove_duplicates l
        = remove_duplicates l1
          ++ filter (fun x => x ∉ l1) (remove_duplicates l2)).
Proof.
  split; [rewrite remove_duplicates_dedup; apply dedup_NoDup|].
  split; [intros x; rewrite remove_duplicates_dedup; apply dedup_elements|].
  split.
  { rewrite remove_duplicates_dedup.
    induction l as [|x l IH]; [done|]. cbn [Spec.dedup].
    apply sublist_skip. etransitivity; [apply sublist_filter | exact IH]. }
  split; [rewrite remove_duplicates_dedup; by destruct l|].
  split; [rewrite remove_duplicates_dedup; apply dedup_of_NoDup|].
  split.
  - rewrite remove_duplicates_dedup. intros r1 x r2 y r3 Hr.
    assert (Hx : x ∈ l).
    { apply dedup_elements. rewrite Hr. apply elem_of_app. right.
      apply list_elem_of_here. }
    apply first_occurrence in Hx as (l1 & l2 & Hl & Hx).
    exists l1, l2. split; [exact Hl|]. split; [exact Hx|].
    pose proof (dedup_NoDup l) as Hnd.
    assert (Hd : Spec.dedup l
                 = Spec.dedup l1
                   ++ x :: filter (fun z => z ∉ l1)
                             (filter (fun z => z <> x) (Spec.dedup l2))).
    { rewrite Hl, dedup_app. cbn [Spec.dedup].
      by rewrite filter_cons_True by exact Hx. }
    assert (Hr1 : r1 = Spec.dedup l1).
    { eapply (place_in_NoDup x); [|rewrite <- Hr; exact Hd].
      by rewrite <- Hr. }
    rewrite Hr in Hnd. apply NoDup_app in Hnd as (_ & Hsep & _).
    intros Hy. apply (Hsep y).
    + rewrite Hr1. by apply dedup_elements.
    + apply list_elem_of_further, elem_of_app. right. apply list_elem_of_here.
  - intros l1 l2 ->. rewrite !remove_duplicates_dedup. apply dedup_app.
Qed.

End AdviceFacts.

(** ** The analysis of the sensor values *)

Section SensorAnalysis.

Import Config HealthScorer.
Local Open Scope Q_scope.

Lemma dict_set_fresh {V} (k : string) (v : V) (d : list (string * V)) :
  k ∉ map fst d -> CropDatabase.dict_set k v d = d ++ [(k, v)].
Proof.
  induction d as [|[k' v'] d IH]; intros Hk; [done|].
  cbn [map fst] in Hk. apply not_elem_of_cons in Hk as [Hne Hk].
  cbn [CropDatabase.dict_set app].
  destruct (String.eqb_spec k' k) as [->|_]; [done|].
  by rewrite IH.
Qed.

Lemma status_chain (score : Q) :
  (if Qle_bool 80 score then "optimal"
   else if Qle_bool 60 score then "acceptable" else "poor")
  = Spec.status_of_score score.
Proof.
  unfold Spec.status_of_score.
  destruct (Qle_bool 80 score) eqn:E80;
    [apply Qle_bool_iff in E80 | apply Qle_bool_false in E80];
  (destruct (Qle_bool 60 score) eqn:E60;
    [apply Qle_bool_iff in E60 | apply Qle_bool_false in E60]);
  destruct (Qlt_le_dec score 60), (Qlt_le_dec score 80);
  (reflexivity || lra).
Qed.

(** The entry that the loop of [_analyze_sensor_data] writes for a value. *)
Lemma written_entry (ranges : list (string * (Q * Q))) (param : string)
    (mn mx v s : Q) :
  mn < mx ->
  In (param, (mn, mx)) ranges ->
  _score_parameter v (mn, mx) = Some s ->
  Spec.entry_consistent ranges
    (param, mkParamAnalysis v
              (if Qle_bool 80 s then "optimal"
               else if Qle_bool 60 s then "acceptable" else "poor")
              s (mn, mx)).
Proof.
  intros Hw Hin Hs. exists mn, mx.
  cbn [fst snd pa_value pa_optimal_range pa_score pa_status].
  destruct (score_parameter_range mn mx v Hw) as (s1 & Hs1 & Hrange).
  rewrite Hs in Hs1. injection Hs1 as <-.
  split; [exact Hin|]. split; [reflexivity|]. split; [exact Hs|].
  split; [exact Hrange|]. split; [apply status_chain|]. split.
  - intros [Hlo Hhi]. unfold _score_parameter in Hs.
    apply Qle_bool_iff in Hlo, Hhi. rewrite Hlo, Hhi in Hs.
    injection Hs as <-. split; reflexivity.
  - intros Hfar. rewrite status_chain. unfold Spec.status_of_score.
    destruct (score_parameter_distance mn mx v Hw) as (s2 & Hs2 & Hv).
    rewrite Hs in Hs2. injection Hs2 as <-.
    assert (Hzero : s == 0).
    { rewrite Hv. apply Q.max_l.
      assert (100 <= 100 * Spec.distance mn mx v / (mx - mn)); [|lra].
      apply Qle_shift_div_l; lra. }
    destruct (Qlt_le_dec s 60); [reflexivity | exfalso; lra].
Qed.

(** The loop of [_analyze_sensor_data] next to the loop of
    [_calculate_environmental_score], for ranges with pairwise different
    names that are not yet keys of [analysis]. *)
Lemma analyze_params_spec (sensor_data : SensorData)
    (ranges : list (string * (Q * Q)))
    (analysis : list (string * ParamAnalysis)) (scores : list Q) :
  Forall (fun '(_, (mn, mx)) => mn < mx) ranges ->
  NoDup (map fst ranges) ->
  (forall k, k ∈ map fst ranges -> k ∉ map fst analysis) ->
  exists l,
    analyze_params sensor_data ranges analysis = Some (analysis ++ l)
    /\ map (fun e => (fst e, pa_value (snd e))) l
       = flat_map (fun r => Spec.reading (fst r) (getattr sensor_data (fst r)))
                  ranges
    /\ collect_scores sensor_data ranges scores
       = Some (scores ++ map (fun e => pa_score (snd e)) l)
    /\ Forall (Spec.entry_consistent ranges) l.
Proof.
  intros Hw. revert analysis scores.
  induction Hw as [|[param [mn mx]] ranges Hw1 _ IH];
    intros analysis scores Hnd Hfresh.
  - exists []. rewrite !app_nil_r. repeat split; constructor.
  - cbn [map fst] in Hnd, Hfresh. apply NoDup_cons in Hnd as [Hparam Hnd].
    cbn [analyze_params collect_scores flat_map fst].
    destruct (getattr sensor_data param) as [v|] eqn:Ev.
    + destruct (score_parameter_spec mn mx v Hw1) as (s & Hs & _). rewrite Hs.
      rewrite dict_set_fresh by (apply Hfresh, list_elem_of_here).
      destruct (IH (analysis ++
                    [(param, mkParamAnalysis v
                               (if Qle_bool 80 s then "optimal"
                                else if Qle_bool 60 s then "acceptable"
                                else "poor") s (mn, mx))])
                   (scores ++ [s]) Hnd) as (l & Ha & Hk & Hc & Hm).
      { intros k Hk. rewrite map_app. cbn [map fst]. intros Hin.
        apply elem_of_app in Hin as [Hin|Hin].
        - revert Hin. apply Hfresh. by apply list_elem_of_further.
        - apply list_elem_of_singleton in Hin as ->. contradiction. }
      eexists (_ :: l). rewrite Ha, Hc, <- !app_assoc.
      cbn [app map fst snd pa_score pa_value Spec.reading].
      split; [reflexivity|]. split; [by rewrite Hk|].
      split; [reflexivity|]. constructor.
      * apply written_entry; [exact Hw1 | by left | exact Hs].
      * eapply Forall_impl; [exact Hm|]. intros e (mn' & mx' & Hin & Hrest).
        exists mn', mx'. split; [by right | exact Hrest].
    + destruct (IH analysis scores Hnd) as (l & Ha & Hk & Hc & Hm).
      { intros k Hk. apply Hfresh. by apply list_elem_of_further. }
      exists l. split; [exact Ha|]. split; [exact Hk|].
      split; [exact Hc|].
      eapply Forall_impl; [exact Hm|]. intros e (mn' & mx' & Hin & Hrest).
      exists mn', mx'. split; [by right | exact Hrest].
Qed.

(** X14.  The sensor analysis is empty without a reading.  For a reading it
    has one entry for each value that the reading holds, under the name of
    its parameter and in the order temperature, humidity, soil moisture,
    pH.  An entry holds the value read, the optimal range of the parameter,
    the score of the value for this range, between 0 and 100, and the
    status of this score: optimal from 80, acceptable from 60, poor below.
    A value within its range is optimal with the score 100; a value at
    least one width of the range away from it is poor.  The environmental
    score is the mean of the scores of these entries, and 75 when there is
    none (the mean on exact rationals). *)
Theorem sensor_analysis_matches_score (sensor_data : SensorData) :
  _analyze_sensor_data None = Some []
  /\ exists analysis,
       _analyze_sensor_data (Some sensor_data) = Some analysis
       /\ map (fun e => (fst e, pa_value (snd e))) analysis
          = Spec.readings sensor_data
       /\ Forall (Spec.entry_consistent OPTIMAL_RANGES) analysis
       /\ _calculate_environmental_score (Some sensor_data)
          = Some (match analysis with
                  | [] => 75
                  | _ :: _ => Py.mean (map (fun e => pa_score (snd e)) analysis)
                  end).
Proof.
  split; [reflexivity|].
  destruct (analyze_params_spec sensor_data OPTIMAL_RANGES [] []
              optimal_ranges_have_width) as (l & Ha & Hk & Hc & Hm).
  - apply (bool_decide_unpack _). vm_compute. reflexivity.
  - intros k _. apply not_elem_of_nil.
  - exists l. cbn [app] in *. split; [exact Ha|]. split.
    { rewrite Hk. unfold Spec.readings. cbn [OPTIMAL_RANGES flat_map fst].
      by rewrite app_nil_r. }
    split; [exact Hm|].
    unfold _calculate_environmental_score. rewrite Hc.
    destruct l as [|e l]; reflexivity.
Qed.

End SensorAnalysis.

(** ** The table and the lookups of [crop_database.py] *)

Section CropDatabaseFacts.

Import CropDatabase.
Local Open Scope Q_scope.

Lemma dict_get_In {V} (k : string) (v : V) (d : list (string * V)) :
  dict_get k d = Some v -> In (k, v) d.
Proof.
  induction d as [|[k' v'] d IH]; [discriminate|]. cbn [dict_get].
  destruct (String.eqb_spec k' k) as [->|_].
  - intros [= ->]. by left.
  - intros H. right. by apply IH.
Qed.

Lemma find_all_false {A} (f : A -> bool) (l : list A) :
  find f l = None <-> Forall (fun x => f x = false) l.
Proof.
  induction l as [|x l IH]; simpl.
  - split; [constructor | done].
  - destruct (f x) eqn:E.
    + split; [discriminate|]. intros H. apply Forall_cons in H as [H _]. congruence.
    + rewrite IH. split; [by constructor | by intros [_ ?]%Forall_cons].
Qed.

Lemma find_in_front {A} (f : A -> bool) (l1 l2 : list A) (x : A) :
  find f (l1 ++ l2) = Some x -> existsb f l1 = true -> In x l1.
Proof.
  induction l1 as [|y l1 IH]; simpl; [discriminate|].
  destruct (f y) eqn:E.
  - intros [= ->] _. by left.
  - intros H He. right. by apply IH.
Qed.



Lemma mapped_lookup_Some (db : CropDatabase.t) (label : string) (d : DiseaseInfo) :
  mapped_lookup db label = Some d ->
  exists target, class_mappings db !! label = Some target
                 /\ In (target, d) (diseases db).
Proof.
  unfold mapped_lookup.
  destruct (class_mappings db !! label) as [[|c r]|]; try discriminate.
  intros H. exists (String c r). split; [reflexivity | by apply dict_get_In].
Qed.




Lemma table_names_are_keys :
  Forall (fun e => name (snd e) = fst e) (diseases CropDatabase.init).
Proof. repeat constructor. Qed.

Lemma name_of_entry (k : string) (d : DiseaseInfo) :
  In (k, d) (diseases CropDatabase.init) -> name d = k.
Proof.
  intros H. pose proof table_names_are_keys as Hall.
  rewrite Forall_forall in Hall. by apply list_elem_of_In, Hall in H.
Qed.

(** A label that passes the fuzzy test of [bacterial blight] passes that of
    [blight] or that of [bacterial spot]. *)
Lemma bacterial_blight_shadowed (class_lower : string) :
  fuzzy_match class_lower "bacterial blight" = true ->
  fuzzy_match class_lower "blight" = true
  \/ fuzzy_match class_lower "bacterial spot" = true.
Proof.
  unfold fuzzy_match.
  change (Py.split "bacterial blight") with ["bacterial"; "blight"].
  change (Py.split "bacterial spot") with ["bacterial"; "spot"].
  change (Py.split "blight") with ["blight"].
  cbn [existsb]. rewrite !orb_true_iff.
  intros [H|[H|[H|H]]]; try discriminate.
  - left. left. eapply contains_trans; [|exact H]. vm_compute. reflexivity.
  - right. right. by left.
  - left. by left.
Qed.

(** X17.  The record of [bacterial blight] is returned for its exact key
    only.  For every other label the lookup never returns it: a label that
    merely contains the key or one of its words is resolved by the fuzzy
    step to an earlier entry, [blight] or [bacterial spot], and no alias
    leads to it. *)
Theorem bacterial_blight_only_by_exact_key (label : string) (d : DiseaseInfo) :
  label <> "bacterial blight" ->
  get_disease_info CropDatabase.init label = Some d ->
  name d <> "bacterial blight".
Proof.
  unfold get_disease_info. intros Hlabel H Hname. apply Hlabel. clear Hlabel.
  destruct (dict_get label (diseases CropDatabase.init)) as [d0|] eqn:E1.
  { injection H as ->. apply dict_get_In, name_of_entry in E1. congruence. }
  destruct (mapped_lookup CropDatabase.init label) as [d1|] eqn:E2.
  { injection H as ->. exfalso.
    apply mapped_lookup_Some in E2 as (t & Ht & Hin).
    apply name_of_entry in Hin. rewrite Hname in Hin. subst t.
    apply elem_of_list_to_map_2, list_elem_of_In in Ht. simpl in Ht.
    repeat (destruct Ht as [Ht|Ht]; [discriminate Ht|]). contradiction. }
  exfalso. unfold fuzzy_lookup in H.
  destruct (find _ (diseases CropDatabase.init)) as [[k d']|] eqn:E; [|discriminate].
  injection H as ->.
  pose proof (find_some _ _ E) as [Hin Hm].
  pose proof (name_of_entry k d Hin) as Hk. rewrite Hname in Hk. subst k.
  rewrite <- (take_drop 11 (diseases CropDatabase.init)) in E.
  apply find_in_front in E.
  - vm_compute in E.
    repeat (destruct E as [E|E]; [discriminate E|]). contradiction.
  - apply bacterial_blight_shadowed in Hm. apply existsb_exists.
    destruct Hm as [Hm|Hm].
    + destruct (dict_get "blight" (diseases CropDatabase.init)) as [e|] eqn:Ee;
        [|vm_compute in Ee; discriminate].
      exists ("blight", e). split; [|exact Hm].
      vm_compute in Ee. injection Ee as <-. vm_compute.
      right; left; reflexivity.
    + destruct (dict_get "bacterial spot" (diseases CropDatabase.init))
        as [e|] eqn:Ee; [|vm_compute in Ee; discriminate].
      exists ("bacterial spot", e). split; [|exact Hm].
      vm_compute in Ee. injection Ee as <-. vm_compute.
      do 10 right; left; reflexivity.
Qed.

Lemma bacterial_blight_only_by_exact_key_witness :
  exists d, get_disease_info CropDatabase.init "Bacterial Blight" = Some d
            /\ name d <> "bacterial blight".
Proof.
  destruct (get_disease_info CropDatabase.init "Bacterial Blight") as [d|] eqn:E;
    [|vm_compute in E; discriminate].
  exists d. split; [reflexivity|].
  apply (bacterial_blight_only_by_exact_key "Bacterial Blight" d);
    [discriminate | exact E].
Defined.

(** The same label in capitals is not the key, and goes to [blight]. *)
Example capitalised_bacterial_blight :
  option_map name (get_disease_info CropDatabase.init "Bacterial Blight")
  = Some "blight".
Proof. vm_compute. reflexivity. Qed.

(** X18.  The severity that [_get_severity_from_impact] gives does not
    fall when the impact score rises; it is critical from 90, high from 75,
    medium from 50 and low below.  Every entry that the four loops add to a
    table has the severity of its impact score. *)
Theorem severity_follows_impact (i1 i2 : Q) :
  (i1 <= i2 ->
   (Spec.crop_severity_rank (_get_severity_from_impact i1)
    <= Spec.crop_severity_rank (_get_severity_from_impact i2))%nat)
  /\ (_get_severity_from_impact i1 = CRITICAL <-> 90 <= i1)
  /\ (_get_severity_from_impact i1 = HIGH <-> 75 <= i1 < 90)
  /\ (_get_severity_from_impact i1 = MEDIUM <-> 50 <= i1 < 75)
  /\ (_get_severity_from_impact i1 = LOW <-> i1 < 50)
  /\ Forall (fun e => severity (snd e)
                      = _get_severity_from_impact (impact_score (snd e)))
            (diseases CropDatabase.init).
Proof.
  unfold _get_severity_from_impact.
  destruct (Qle_bool 90 i1) eqn:A1;
    [apply Qle_bool_iff in A1 | apply Qle_bool_false in A1];
  (destruct (Qle_bool 75 i1) eqn:B1;
    [apply Qle_bool_iff in B1 | apply Qle_bool_false in B1]);
  (destruct (Qle_bool 50 i1) eqn:C1;
    [apply Qle_bool_iff in C1 | apply Qle_bool_false in C1]);
  (split; [intros Hle;
    destruct (Qle_bool 90 i2) eqn:A2;
      [apply Qle_bool_iff in A2 | apply Qle_bool_false in A2];
    (destruct (Qle_bool 75 i2) eqn:B2;
      [apply Qle_bool_iff in B2 | apply Qle_bool_false in B2]);
    (destruct (Qle_bool 50 i2) eqn:C2;
      [apply Qle_bool_iff in C2 | apply Qle_bool_false in C2]);
    cbn; try lia; exfalso; lra |]);
  (repeat split; intros; try discriminate; try lra; try reflexivity;
   try (repeat constructor)).
Qed.

Lemma crop_values_of_lookup (crops : list (string * CropInfo))
    (crop_name : option string) (info : CropInfo) :
  get_crop_info crops crop_name = Some info -> exists k, In (k, info) crops.
Proof.
  unfold get_crop_info. destruct crop_name as [[|c r]|]; try discriminate.
  destruct (dict_get _ crops) as [i|] eqn:E.
  - intros [= ->]. eexists. by apply dict_get_In in E.
  - destruct (find _ crops) as [[k i]|] eqn:F; [|discriminate].
    intros [= ->]. apply find_some in F as [Hin _]. by exists k.
Qed.

(** X19.  For every crop name, known or not, missing or empty, the ranges
    that [get_crop_specific_ranges] returns from the crop table are those of
    temperature, humidity, pH and soil moisture, in this order, each with a
    lower bound below its upper bound; so the score of a value against any
    of them is defined and lies between 0 and 100. *)
Theorem crop_ranges_have_width (crop_name : option string) :
  let ranges :=
    get_crop_specific_ranges _initialize_crop_database crop_name in
  map fst ranges = ["temperature"; "humidity"; "ph"; "soil_moisture"]
  /\ Forall (fun '(_, (mn, mx)) => mn < mx) ranges
  /\ (forall param r v,
        In (param, r) ranges ->
        exists s, HealthScorer._score_parameter v r = Some s /\ 0 <= s <= 100).
Proof.
  cbv zeta.
  assert (Hw : Forall (fun '(_, (mn, mx)) => mn < mx)
                 (get_crop_specific_ranges _initialize_crop_database crop_name)).
  { unfold get_crop_specific_ranges.
    destruct (get_crop_info _ crop_name) as [info|] eqn:E;
      [|repeat constructor].
    apply crop_values_of_lookup in E as [k Hin]. simpl in Hin.
    repeat (destruct Hin as [Hin|Hin]; [injection Hin as <- <-; repeat constructor|]).
    contradiction. }
  split; [|split; [exact Hw|]].
  - unfold get_crop_specific_ranges. by destruct (get_crop_info _ crop_name).
  - intros param [mn mx] v Hin. rewrite Forall_forall in Hw.
    apply list_elem_of_In, Hw in Hin. by apply score_parameter_range.
Qed.

(** X20.  [get_crop_info] finds nothing for a missing or empty name.  A
    crop that it returns is a crop of the table.  A non-empty name resolves
    whenever, with its letters lower-cased, a key of the table occurs in it
    or it occurs in a key of the table. *)
Theorem crop_info_outcomes (crops : list (string * CropInfo))
    (crop_name k a b : string) (info : CropInfo) :
  get_crop_info crops None = None
  /\ get_crop_info crops (Some EmptyString) = None
  /\ (forall found, get_crop_info crops (Some crop_name) = Some found ->
                    exists key, In (key, found) crops)
  /\ (crop_name <> EmptyString -> In (k, info) crops ->
      Py.lower crop_name = a +:+ k +:+ b \/ k = a +:+ Py.lower crop_name +:+ b ->
      is_Some (get_crop_info crops (Some crop_name))).
Proof.
  split; [reflexivity|]. split; [reflexivity|].
  split; [intros found; apply crop_values_of_lookup|].
  intros Hne Hin Hocc. unfold get_crop_info.
  destruct crop_name as [|c r]; [done|].
  destruct (dict_get _ crops) as [i|]; [by eexists|].
  destruct (find _ crops) as [[k' i]|] eqn:F; [by eexists|].
  exfalso. apply find_all_false in F. rewrite Forall_forall in F.
  apply list_elem_of_In, F in Hin. apply orb_false_iff in Hin as [H1 H2].
  destruct Hocc as [Hocc|Hocc].
  - rewrite Hocc, contains_middle in H1. discriminate.
  - rewrite Hocc, contains_middle in H2. discriminate.
Qed.

Lemma crop_info_outcomes_witness :
  is_Some (get_crop_info _initialize_crop_database (Some "Cherry TOMATO plant"))
  /\ is_Some (get_crop_info _initialize_crop_database (Some "Whea")).
Proof.
  split.
  - eapply (proj2 (proj2 (proj2 (crop_info_outcomes _initialize_crop_database
              "Cherry TOMATO plant" "tomato" "cherry " " plant" _)))).
    + discriminate.
    + left. reflexivity.
    + left. vm_compute. reflexivity.
  - eapply (proj2 (proj2 (proj2 (crop_info_outcomes _initialize_crop_database
              "Whea" "wheat" EmptyString "t" _)))).
    + discriminate.
    + do 4 right. left. reflexivity.
    + right. vm_compute. reflexivity.
Defined.

(** X21.  The recommendations for a disease record start with the urgency
    sentence exactly when the treatment priority is at least 4 and end with
    the sentence about surrounding plants exactly when the spreading rate is
    fast; between them stand the three sentences of a fungal, bacterial,
    viral or pest record, and nothing for the other types; no sentence
    occurs twice. *)
Theorem disease_recommendations_shape (d : DiseaseInfo) :
  let recs := get_disease_recommendations d in
  (head recs = Some "URGENT: Immediate treatment required"
   <-> (4 <= treatment_priority d)%Z)
  /\ (last recs
      = Some "Monitor surrounding plants closely - rapid spread possible"
      <-> spreading_rate d = "fast")
  /\ length recs
     = ((if (4 <=? treatment_priority d)%Z then 1 else 0)
        + match type d with PHYSIOLOGICAL | UNKNOWN => 0 | _ => 3 end
        + (if String.eqb (spreading_rate d) "fast" then 1 else 0))%nat
  /\ NoDup recs.
Proof.
  cbv zeta. unfold get_disease_recommendations.
  destruct (Z.leb_spec 4 (treatment_priority d)) as [Hp|Hp],
           (String.eqb_spec (spreading_rate d) "fast") as [Hs|Hs],
           (type d); cbn [app];
    (split; [split; [intros H; first [exact Hp | discriminate H] | intros H; first [reflexivity | lia]]|]);
    (split; [split; [intros H; first [exact Hs | discriminate H] | intros H; first [reflexivity | contradiction]]|]);
    (split; [reflexivity | apply (bool_decide_unpack _); vm_compute; reflexivity]).
Qed.

(** X22.  Every label of the alias map is resolved.  The labels whose alias
    is a key of the table, [bacterial spot] or [rust], get the record of that
    key; the labels whose alias is [early blight] or [late blight], which are
    no keys, get the record of [blight] from the fuzzy step. *)
Theorem alias_labels_resolve (label target : string) :
  _load_class_mappings !! label = Some target ->
  exists d,
    get_disease_info CropDatabase.init label = Some d
    /\ name d = (if bool_decide (target = "bacterial spot" \/ target = "rust")
                 then target else "blight").
Proof.
  intros H. apply elem_of_list_to_map_2, list_elem_of_In in H. simpl in H.
  repeat (destruct H as [H|H];
          [injection H as <- <-; eexists; split; vm_compute; reflexivity|]).
  contradiction.
Qed.

Lemma alias_labels_resolve_witness :
  exists d, get_disease_info CropDatabase.init "tomato late blight" = Some d
            /\ name d = "blight".
Proof.
  destruct (alias_labels_resolve "tomato late blight" "late blight") as (d & Hd & Hn).
  - vm_compute. reflexivity.
  - exists d. split; [exact Hd | exact Hn].
Defined.

End CropDatabaseFacts.

(** ** The advice agent *)

Section AdviceAgent.

Import RagAgent.

Lemma no_space_app (a b : string) :
  Spec.no_space (a +:+ b) <-> Spec.no_space a /\ Spec.no_space b.
Proof.
  unfold Spec.no_space. induction a as [|c a IH].
  - cbn. split; [by split; [constructor|] | by intros [_ ?]].
  - change (String c a +:+ b) with (String c (a +:+ b)).
    cbn [String.list_ascii_of_string]. rewrite !Forall_cons, IH. tauto.
Qed.

Lemma no_space_part (p s : string) :
  Py.contains p s = true -> Spec.no_space s -> Spec.no_space p.
Proof.
  intros Hc Hs. destruct (contains_split p s Hc) as (a & b & ->).
  apply no_space_app in Hs as [_ Hs]. by apply no_space_app in Hs as [Hs _].
Qed.

Lemma sub_spaces_no_space (in_run : bool) (s : string) :
  Spec.no_space (Py.sub_spaces_go "_" in_run s).
Proof.
  revert in_run. induction s as [|c s IH]; intros in_run; [constructor|].
  cbn [Py.sub_spaces_go]. destruct (Py.is_space c) eqn:E.
  - destruct in_run; [apply IH|].
    change ("_" +:+ Py.sub_spaces_go "_" true s)
      with (String "_"%char (Py.sub_spaces_go "_" true s)).
    constructor; [reflexivity | apply IH].
  - constructor; [exact E | apply IH].
Qed.

Lemma space_pattern_absent (p s : string) :
  ~ Spec.no_space p -> Spec.no_space s -> Py.contains p s = false.
Proof.
  intros Hp Hs. destruct (Py.contains p s) eqn:E; [|reflexivity].
  exfalso. apply Hp. by eapply no_space_part.
Qed.

Lemma has_space (p : string) :
  existsb Py.is_space (String.list_ascii_of_string p) = true -> ~ Spec.no_space p.
Proof.
  intros H Hn. apply existsb_exists in H as (c & Hin & Hc).
  unfold Spec.no_space in Hn. rewrite Forall_forall in Hn.
  apply list_elem_of_In, Hn in Hin. congruence.
Qed.

(** X23.  The simplified name of a disease holds no white space; so the
    tests of [_simplify_disease_name] for a pattern with a blank in it never
    succeed, and its result is [early_blight], [late_blight] or
    [bacterial_spot] when the name holds earlyblight, lateblight or
    bacterialspot, and otherwise the name in lower case, stripped, with
    every run of underscores and white space turned into one underscore. *)
Theorem simplified_name_shape (name : string) :
  let simplified := simplified_of name in
  Spec.no_space simplified
  /\ Spec.no_space (_simplify_disease_name name)
  /\ _simplify_disease_name name
     = (if Py.contains "earlyblight" simplified then "early_blight"
        else if Py.contains "lateblight" simplified then "late_blight"
        else if Py.contains "bacterialspot" simplified then "bacterial_spot"
        else simplified).
Proof.
  cbv zeta.
  assert (Hs : Spec.no_space (simplified_of name)) by apply sub_spaces_no_space.
  assert (Heq : _simplify_disease_name name
     = (if Py.contains "earlyblight" (simplified_of name) then "early_blight"
        else if Py.contains "lateblight" (simplified_of name) then "late_blight"
        else if Py.contains "bacterialspot" (simplified_of name)
             then "bacterial_spot"
        else simplified_of name)).
  { unfold _simplify_disease_name.
    rewrite (space_pattern_absent "early blight"),
            (space_pattern_absent "late blight"),
            (space_pattern_absent "bacterial spot"),
            (space_pattern_absent "powdery mildew"),
            (space_pattern_absent "spider mite");
      try exact Hs; try (apply has_space; vm_compute; reflexivity).
    reflexivity. }
  split; [exact Hs|]. split; [|exact Heq].
  rewrite Heq.
  repeat (destruct (Py.contains _ (simplified_of name));
          [repeat constructor|]).
  exact Hs.
Qed.

Lemma simplified_name_shape_aux (name : string) :
  _simplify_disease_name name
  = (if Py.contains "earlyblight" (simplified_of name) then "early_blight"
     else if Py.contains "lateblight" (simplified_of name) then "late_blight"
     else if Py.contains "bacterialspot" (simplified_of name)
          then "bacterial_spot"
     else simplified_of name).
Proof.
  assert (Hs : Spec.no_space (simplified_of name)) by apply sub_spaces_no_space.
  unfold _simplify_disease_name.
  rewrite (space_pattern_absent "early blight"),
          (space_pattern_absent "late blight"),
          (space_pattern_absent "bacterial spot"),
          (space_pattern_absent "powdery mildew"),
          (space_pattern_absent "spider mite");
    try exact Hs; try (apply has_space; vm_compute; reflexivity).
  reflexivity.
Qed.

Lemma knowledge_base_keys (k : string) :
  is_Some (_build_knowledge_base !! k) <-> In k Spec.knowledge_keys.
Proof.
  split.
  - intros [v Hv]. apply elem_of_list_to_map_2, list_elem_of_In in Hv.
    simpl in Hv.
    repeat (destruct Hv as [Hv|Hv]; [injection Hv as <- _; simpl; tauto|]).
    contradiction.
  - intros H. simpl in H.
    repeat (destruct H as [<-|H]; [vm_compute; by eexists|]). contradiction.
Qed.

(** X24.  For a disease name of ASCII characters, the advice repeats the
    name it was asked for and comes with one of three pairs of confidence
    and source.  It is taken from the local knowledge base, with high
    confidence and without any request to the text service, exactly when
    the simplified name is one of the five keys or holds earlyblight,
    lateblight or bacterialspot.  Otherwise it is the text generated for
    the prompt, with medium confidence, when a key for the service is set
    and the service answers with a non-empty text, and the generic text
    with low confidence in every other case. *)
Theorem advice_outcomes (self : RagAgent.t) (name : string) :
  Spec.ascii_text name = true ->
  let a := get_disease_advice self name in
  let simplified := simplified_of name in
  let is_local :=
    In simplified Spec.knowledge_keys
    \/ Py.contains "earlyblight" simplified = true
    \/ Py.contains "lateblight" simplified = true
    \/ Py.contains "bacterialspot" simplified = true in
  disease_name a = name
  /\ In (confidence a, source a)
        [ ("high", "local_knowledge"); ("medium", "llm_generated");
          ("low", "generic_guidelines") ]
  /\ (source a = "local_knowledge" <-> is_local)
  /\ (is_local ->
      forall other : RagAgent.t, get_disease_advice other name = a)
  /\ (source a = "llm_generated" <->
      ~ is_local /\ huggingface_key self <> EmptyString
      /\ call_huggingface_api self (llm_prompt name) <> EmptyString)
  /\ (source a = "llm_generated" ->
      summary a = call_huggingface_api self (llm_prompt name))
  /\ (source a = "generic_guidelines" -> a = _get_generic_advice name).
Proof.
  intros _. cbv zeta.
  assert (Hlocal : is_Some (knowledge_base self !! _simplify_disease_name name)
      <-> In (simplified_of name) Spec.knowledge_keys
          \/ Py.contains "earlyblight" (simplified_of name) = true
          \/ Py.contains "lateblight" (simplified_of name) = true
          \/ Py.contains "bacterialspot" (simplified_of name) = true).
  { unfold knowledge_base. rewrite knowledge_base_keys.
    rewrite (simplified_name_shape_aux name).
    destruct (Py.contains "earlyblight" (simplified_of name));
      [simpl; tauto|].
    destruct (Py.contains "lateblight" (simplified_of name));
      [simpl; tauto|].
    destruct (Py.contains "bacterialspot" (simplified_of name));
      [simpl; tauto|].
    split; [tauto|]. intros [H|[H|[H|H]]]; (exact H || discriminate H). }
  unfold get_disease_advice, _get_llm_advice, _get_generic_advice in *.
  unfold knowledge_base in *.
  destruct (_build_knowledge_base !! _simplify_disease_name name) as [adv|] eqn:E.
  - assert (Hyes : is_Some (Some adv)) by by eexists.
    apply Hlocal in Hyes. cbn.
    split; [reflexivity|]. split; [tauto|]. split; [tauto|].
    split; [intros _ other; reflexivity|].
    split; [split; [discriminate | tauto]|].
    split; discriminate.
  - assert (Hno : ~ (In (simplified_of name) Spec.knowledge_keys
          \/ Py.contains "earlyblight" (simplified_of name) = true
          \/ Py.contains "lateblight" (simplified_of name) = true
          \/ Py.contains "bacterialspot" (simplified_of name) = true)).
    { intros H. apply Hlocal in H as [? H]. discriminate H. }
    destruct (huggingface_key self) as [|kc kr] eqn:Ek.
    + cbn. split; [reflexivity|]. split; [tauto|].
      split; [split; [discriminate | contradiction]|].
      split; [contradiction|].
      split; [split; [discriminate | intros (_ & H & _); contradiction]|].
      split; [discriminate | reflexivity].
    + destruct (call_huggingface_api self (llm_prompt name)) as [|rc rr] eqn:Er.
      * cbn. split; [reflexivity|]. split; [tauto|].
        split; [split; [discriminate | contradiction]|].
        split; [contradiction|].
        split; [split; [discriminate | intros (_ & _ & H); contradiction]|].
        split; [discriminate | reflexivity].
      * cbn. split; [reflexivity|]. split; [tauto|].
        split; [split; [discriminate | contradiction]|].
        split; [contradiction|].
        split; [split; [intros _; repeat split; [exact Hno | discriminate ..]
                       | reflexivity]|].
        split; [reflexivity | discriminate].
Qed.

Lemma advice_outcomes_witness :
  let self := mkAgent EmptyString (fun _ => EmptyString) in
  source (get_disease_advice self "Early Blight") = "local_knowledge"
  /\ forall other : RagAgent.t,
       get_disease_advice other "Early Blight"
       = get_disease_advice self "Early Blight".
Proof.
  intros self.
  destruct (advice_outcomes self "Early Blight") as (_ & _ & [_ Hl] & Hsame & _).
  - reflexivity.
  - split; [apply Hl | apply Hsame]; left; left; reflexivity.
Defined.

Lemma lstrip_head (x : string) :
  Py.lstrip x = EmptyString
  \/ exists c r, Py.lstrip x = String c r /\ Py.is_space c = false.
Proof.
  induction x as [|c x IH]; [by left|]. cbn [Py.lstrip].
  destruct (Py.is_space c) eqn:E; [exact IH|]. right. by exists c, x.
Qed.

Lemma lstrip_fixed (c : ascii) (r : string) :
  Py.is_space c = false -> Py.lstrip (String c r) = String c r.
Proof. intros E. cbn [Py.lstrip]. by rewrite E. Qed.

Lemma rstrip_keeps_head (c : ascii) (r : string) :
  Py.is_space c = false -> exists r', Py.rstrip (String c r) = String c r'.
Proof.
  intros E. cbn [Py.rstrip]. rewrite E. destruct (Py.rstrip r); by eexists.
Qed.

Lemma rstrip_cons (c : ascii) (r : string) :
  Py.rstrip (String c r)
  = match Py.rstrip r with
    | EmptyString => if Py.is_space c then EmptyString else String c EmptyString
    | String c' r' => String c (String c' r')
    end.
Proof. cbn [Py.rstrip]. by destruct (Py.rstrip r). Qed.

Lemma rstrip_idempotent (y : string) : Py.rstrip (Py.rstrip y) = Py.rstrip y.
Proof.
  induction y as [|c y IH]; [done|]. rewrite (rstrip_cons c y).
  destruct (Py.rstrip y) as [|c' r'] eqn:E.
  - destruct (Py.is_space c) eqn:Ec; [done|].
    rewrite rstrip_cons. cbn [Py.rstrip]. by rewrite Ec.
  - rewrite rstrip_cons, IH. reflexivity.
Qed.

Lemma strip_idempotent (x : string) : Py.strip (Py.strip x) = Py.strip x.
Proof.
  unfold Py.strip.
  destruct (lstrip_head x) as [->|(c & r & -> & E)]; [done|].
  destruct (rstrip_keeps_head c r E) as [r' Hr]. rewrite Hr.
  rewrite (lstrip_fixed c r' E), <- Hr. apply rstrip_idempotent.
Qed.

Lemma chars_app (a b : string) :
  String.list_ascii_of_string (a +:+ b)
  = String.list_ascii_of_string a ++ String.list_ascii_of_string b.
Proof.
  induction a as [|c a IH]; [done|].
  change (String c a +:+ b) with (String c (a +:+ b)).
  cbn [String.list_ascii_of_string app]. by rewrite IH.
Qed.

Lemma one_line_app (a b : string) :
  Spec.one_line (a +:+ b) <-> Spec.one_line a /\ Spec.one_line b.
Proof. unfold Spec.one_line. rewrite chars_app. apply Forall_app. Qed.

Lemma one_line_lstrip (x : string) : Spec.one_line x -> Spec.one_line (Py.lstrip x).
Proof.
  induction x as [|c x IH]; [done|]. intros H. cbn [Py.lstrip].
  destruct (Py.is_space c); [|exact H]. apply IH.
  unfold Spec.one_line in H. cbn [String.list_ascii_of_string] in H.
  by apply Forall_cons in H as [_ ?].
Qed.

Lemma one_line_rstrip (x : string) : Spec.one_line x -> Spec.one_line (Py.rstrip x).
Proof.
  induction x as [|c x IH]; [done|]. intros H. rewrite rstrip_cons.
  unfold Spec.one_line in H. cbn [String.list_ascii_of_string] in H.
  apply Forall_cons in H as [Hc Hx]. specialize (IH Hx).
  destruct (Py.rstrip x) as [|c' r'].
  - destruct (Py.is_space c); repeat constructor. exact Hc.
  - constructor; [exact Hc | exact IH].
Qed.

Lemma append_empty_r (a : string) : a +:+ EmptyString = a.
Proof.
  induction a as [|c a IH]; [done|].
  change (String c a +:+ EmptyString) with (String c (a +:+ EmptyString)).
  by rewrite IH.
Qed.

(** The pieces of a split hold no separator. *)
Lemma split_pieces_one_line (cur s : string) :
  Spec.one_line cur ->
  Forall Spec.one_line (Py.split_on_go (ascii_of_nat 10) cur s).
Proof.
  revert cur. induction s as [|c s IH]; intros cur Hcur; cbn [Py.split_on_go].
  - by constructor.
  - destruct (Ascii.eqb_spec c (ascii_of_nat 10)) as [->|Hc].
    + constructor; [exact Hcur | apply IH; constructor].
    + apply IH. apply one_line_app. split; [exact Hcur|].
      by repeat constructor.
Qed.

Lemma split_go_app (cur x rest : string) :
  Spec.one_line x ->
  Py.split_on_go (ascii_of_nat 10) cur (x +:+ rest)
  = Py.split_on_go (ascii_of_nat 10) (cur +:+ x) rest.
Proof.
  revert cur. induction x as [|c x IH]; intros cur Hx.
  - by rewrite append_empty_r.
  - unfold Spec.one_line in Hx. cbn [String.list_ascii_of_string] in Hx.
    apply Forall_cons in Hx as [Hc Hx].
    change (String c x +:+ rest) with (String c (x +:+ rest)).
    cbn [Py.split_on_go].
    destruct (Ascii.eqb_spec c (ascii_of_nat 10)) as [->|_]; [done|].
    rewrite IH by exact Hx. by rewrite append_assoc.
Qed.

(** Splitting what was joined gives the lines back. *)
Lemma split_join (l : list string) :
  l <> [] -> Forall Spec.one_line l ->
  Py.split_on (ascii_of_nat 10) (Py.join Py.newline l) = l.
Proof.
  unfold Py.split_on. induction l as [|x l IH]; [done|]. intros _ Hl.
  apply Forall_cons in Hl as [Hx Hl]. destruct l as [|y l].
  - cbn [Py.join]. rewrite <- (append_empty_r x) at 1.
    by rewrite split_go_app.
  - change (Py.join Py.newline (x :: y :: l))
      with (x +:+ Py.newline +:+ Py.join Py.newline (y :: l)).
    rewrite split_go_app by exact Hx.
    change (Py.newline +:+ Py.join Py.newline (y :: l))
      with (String (ascii_of_nat 10) (Py.join Py.newline (y :: l))).
    cbn [Py.split_on_go]. rewrite Ascii.eqb_refl.
    change (EmptyString +:+ x) with x. f_equal. by apply IH.
Qed.

Lemma rstrip_app (a b : string) :
  Py.rstrip b <> EmptyString -> Py.rstrip (a +:+ b) = a +:+ Py.rstrip b.
Proof.
  intros Hb. induction a as [|c a IH]; [done|].
  change (String c a +:+ b) with (String c (a +:+ b)).
  rewrite rstrip_cons, IH.
  change (String c a +:+ Py.rstrip b) with (String c (a +:+ Py.rstrip b)).
  destruct (a +:+ Py.rstrip b) as [|c' r'] eqn:E; [|done].
  exfalso. destruct a; cbn in E; [contradiction | discriminate].
Qed.

Lemma clean_line_ends (x : string) :
  Spec.clean_line x ->
  Py.rstrip x = x /\ exists c r, x = String c r /\ Py.is_space c = false.
Proof.
  intros (Hne & _ & Hs). split.
  - rewrite <- Hs at 1. unfold Py.strip. rewrite rstrip_idempotent. exact Hs.
  - unfold Py.strip in Hs.
    destruct (lstrip_head x) as [E|(c & r & E & Ec)]; rewrite E in Hs.
    + by symmetry in Hs.
    + destruct (rstrip_keeps_head c r Ec) as [r' Hr]. rewrite Hr in Hs.
      by exists c, r'.
Qed.

Lemma join_clean_lines (l : list string) :
  l <> [] -> Forall Spec.clean_line l ->
  Py.join Py.newline l <> EmptyString
  /\ Py.rstrip (Py.join Py.newline l) = Py.join Py.newline l
  /\ Py.strip (Py.join Py.newline l) = Py.join Py.newline l.
Proof.
  intros Hne Hl.
  assert (Hr : Py.join Py.newline l <> EmptyString
               /\ Py.rstrip (Py.join Py.newline l) = Py.join Py.newline l).
  { revert Hne. induction Hl as [|x l Hx Hl IH]; [done|]. intros _.
    destruct (clean_line_ends x Hx) as (Hrx & c & r & -> & Ec).
    destruct l as [|y l]; [by split|].
    destruct IH as [IHne IHr]; [done|].
    change (Py.join Py.newline (String c r :: y :: l))
      with (String c r +:+ Py.newline +:+ Py.join Py.newline (y :: l)).
    split; [done|].
    rewrite rstrip_app; rewrite rstrip_app; rewrite ?IHr; try exact IHne.
    - reflexivity.
    - change (Py.newline +:+ Py.join Py.newline (y :: l))
        with (String (ascii_of_nat 10) (Py.join Py.newline (y :: l))).
      discriminate. }
  destruct Hr as [Hj Hr]. split; [exact Hj|]. split; [exact Hr|].
  destruct l as [|x l]; [done|]. apply Forall_cons in Hl as [Hx _].
  destruct (clean_line_ends x Hx) as (_ & c & r & -> & Ec).
  unfold Py.strip.
  assert (Hhead : exists t, Py.join Py.newline (String c r :: l) = String c t).
  { destruct l; [by exists r|]. by eexists. }
  destruct Hhead as [t Ht]. rewrite Ht in *.
  by rewrite (lstrip_fixed c t Ec).
Qed.

(** X25.  Formatted advice is made of lines that are not empty and have no
    white space at their ends, joined by newlines; splitting it at the
    newlines gives these lines back, and formatting it once more changes
    nothing. *)
Theorem format_advice_lines (raw_advice : string) :
  exists lines,
    _format_advice raw_advice = Py.join Py.newline lines
    /\ Forall Spec.clean_line lines
    /\ (lines <> [] ->
        Py.split_on (ascii_of_nat 10) (_format_advice raw_advice) = lines)
    /\ _format_advice (_format_advice raw_advice) = _format_advice raw_advice.
Proof.
  set (lines := filter (fun line => line <> EmptyString)
                  (map Py.strip
                     (Py.split_on (ascii_of_nat 10) (Py.strip raw_advice)))).
  assert (Heq : _format_advice raw_advice = Py.join Py.newline lines)
    by reflexivity.
  rewrite Heq. clear Heq.
  assert (Hclean : Forall Spec.clean_line lines).
  { subst lines. apply Forall_forall. intros x Hx.
    apply list_elem_of_filter in Hx as [Hne Hx].
    apply list_elem_of_fmap in Hx as (piece & -> & Hp).
    split; [exact Hne|]. split; [|apply strip_idempotent].
    apply one_line_rstrip, one_line_lstrip.
    pose proof (split_pieces_one_line EmptyString (Py.strip raw_advice)) as Hall.
    rewrite Forall_forall in Hall. apply Hall; [constructor | exact Hp]. }
  assert (Hone : Forall Spec.one_line lines).
  { eapply Forall_impl; [exact Hclean|]. by intros x (_ & ? & _). }
  exists lines. split; [reflexivity|]. split; [exact Hclean|].
  split; [intros Hne; by apply split_join|].
  destruct (decide (lines = [])) as [->|Hne]; [reflexivity|].
  destruct (join_clean_lines lines Hne Hclean) as (_ & _ & Hstrip).
  unfold _format_advice. rewrite Hstrip, split_join by assumption.
  f_equal.
  assert (Hmap : map Py.strip lines = lines).
  { clear -Hclean. induction Hclean as [|x l (_ & _ & Hx) _ IH]; [done|].
    cbn [map]. by rewrite Hx, IH. }
  rewrite Hmap. clear -Hclean.
  induction Hclean as [|x l (Hx & _) _ IH]; [done|].
  by rewrite filter_cons_True, IH.
Qed.

End AdviceAgent.
